(** * A shallow embedding of the OMAP4 audio HAL ([audio/audio_hw.c])

    The C file drives one playback and one capture PCM endpoint through
    tinyalsa, with a sample-rate converter (audio_utils' resampler) on
    either path and a mixer-path router (audio_route).  The functions of
    the file are translated one by one into Rocq functions over an
    explicit [world]:

    - the C structs [pcm_config], [audio_device], [stream_out] and
      [stream_in] are records; a [struct stream_out *] is a key of a
      finite map of output streams, so that [adev->active_out] and the
      stream argument of a call may or may not be the same object.  A
      function that works through [out->...] takes the record of that
      stream and gives it back, and the API function stores it in the
      map when it returns: within one call the file never reaches the
      stream it works on through a second pointer;
    - the collaborators that are not part of the file (tinyalsa, the
      resampler, malloc) answer through an [environment] of oracles, one
      answer per call, and every call is recorded in a [trace];
    - C integers are [Z] with the 32-bit wrap-around of the target
      (ARMv7: [int], [unsigned int] and [size_t] are 32 bits wide)
      written out; memory blocks are byte lists, an [int16_t] taking two
      bytes;
    - the two unbounded loops of the file (the flow-control loop and the
      [goto do_over] retry of [out_write]) and the loop of [read_frames]
      take fuel and return [None] when it runs out.

    The mutexes are not modelled: every function is read as one
    sequential step. *)

From stdpp Require Import gmap list strings.
From Stdlib Require Import ZArith Lia.

Open Scope Z_scope.

(** ** Machine integers *)

Definition wrap32 (z : Z) : Z := z mod 2 ^ 32.

(** Conversion of a 32-bit pattern to [int]. *)
Definition to_int32 (z : Z) : Z :=
  let u := wrap32 z in if u <? 2 ^ 31 then u else u - 2 ^ 32.

(** ** Constants of the file *)

Definition PCM_CARD : Z := 0.
Definition PCM_CARD_HDMI : Z := 1.
Definition PCM_CARD_DEFAULT : Z := PCM_CARD.

Definition PCM_DEVICE_MM_LP : Z := 0.
Definition PCM_DEVICE_MM : Z := 1.
Definition PCM_DEVICE_MM2 : Z := 2.
Definition PCM_DEVICE_MM_UL : Z := 3.
Definition PCM_DEVICE_SCO_OUT : Z := 4.
Definition PCM_DEVICE_SCO_IN : Z := 5.
Definition PCM_DEVICE_DEFAULT_OUT : Z := PCM_DEVICE_MM.
Definition PCM_DEVICE_DEFAULT_IN : Z := PCM_DEVICE_MM_UL.

Definition ABE_BASE_FRAME_COUNT : Z := 24.
Definition SHORT_PERIOD_MULTIPLIER : Z := 40.
Definition SHORT_PERIOD_SIZE : Z := ABE_BASE_FRAME_COUNT * SHORT_PERIOD_MULTIPLIER.
Definition LONG_PERIOD_MULTIPLIER : Z := 2.
Definition LONG_PERIOD_SIZE : Z := SHORT_PERIOD_SIZE * LONG_PERIOD_MULTIPLIER.
Definition PLAYBACK_PERIOD_COUNT : Z := 4.
Definition CAPTURE_PERIOD_COUNT : Z := 2.
Definition OUT_SAMPLING_RATE : Z := 44100.
Definition MM_FULL_POWER_SAMPLING_RATE : Z := 48000.
Definition SCO_PERIOD_SIZE : Z := 256.
Definition SCO_PERIOD_COUNT : Z := 4.
Definition SCO_SAMPLING_RATE : Z := 8000.
Definition MIN_WRITE_SLEEP_US : Z := 5000.
Definition RESAMPLER_BUFFER_FRAMES : Z := SHORT_PERIOD_SIZE * 2.
Definition RESAMPLER_BUFFER_SIZE : Z := 4 * RESAMPLER_BUFFER_FRAMES.

(** [errno.h] *)
Definition ENOMEM : Z := 12.
Definition ENODEV : Z := 19.
Definition EINVAL : Z := 22.
Definition EPIPE : Z := 32.

(** Device selectors of Android's [system/audio.h], with the values the
    comments of the [dev_names] table give.  An input selector carries
    the direction bit [AUDIO_DEVICE_BIT_IN]; the [int mask] field holds
    the 32-bit pattern. *)
Definition AUDIO_DEVICE_OUT_EARPIECE : Z := 0x1.
Definition AUDIO_DEVICE_OUT_SPEAKER : Z := 0x2.
Definition AUDIO_DEVICE_OUT_WIRED_HEADSET : Z := 0x4.
Definition AUDIO_DEVICE_OUT_WIRED_HEADPHONE : Z := 0x8.
Definition AUDIO_DEVICE_OUT_BLUETOOTH_SCO : Z := 0x10.
Definition AUDIO_DEVICE_OUT_BLUETOOTH_SCO_HEADSET : Z := 0x20.
Definition AUDIO_DEVICE_OUT_BLUETOOTH_SCO_CARKIT : Z := 0x40.
Definition AUDIO_DEVICE_OUT_ALL_SCO : Z :=
  Z.lor AUDIO_DEVICE_OUT_BLUETOOTH_SCO
    (Z.lor AUDIO_DEVICE_OUT_BLUETOOTH_SCO_HEADSET AUDIO_DEVICE_OUT_BLUETOOTH_SCO_CARKIT).
Definition AUDIO_DEVICE_OUT_AUX_DIGITAL : Z := 0x400.
Definition AUDIO_DEVICE_OUT_ANLG_DOCK_HEADSET : Z := 0x800.
Definition AUDIO_DEVICE_OUT_DGTL_DOCK_HEADSET : Z := 0x1000.

Definition AUDIO_DEVICE_BIT_IN : Z := 0x80000000.
Definition AUDIO_DEVICE_IN_COMMUNICATION : Z := 0x80000001.
Definition AUDIO_DEVICE_IN_AMBIENT : Z := 0x80000002.
Definition AUDIO_DEVICE_IN_BUILTIN_MIC : Z := 0x80000004.
Definition AUDIO_DEVICE_IN_BLUETOOTH_SCO_HEADSET : Z := 0x80000008.
Definition AUDIO_DEVICE_IN_WIRED_HEADSET : Z := 0x80000010.
Definition AUDIO_DEVICE_IN_AUX_DIGITAL : Z := 0x80000020.
Definition AUDIO_DEVICE_IN_BACK_MIC : Z := 0x80000080.
Definition AUDIO_DEVICE_IN_ALL_SCO : Z := AUDIO_DEVICE_IN_BLUETOOTH_SCO_HEADSET.

(** ** The routing table *)

Record dev_name := { mask : Z; output_flag : Z; name : string }.

Definition dev_names : list dev_name :=
  [ {| mask := AUDIO_DEVICE_OUT_EARPIECE; output_flag := 1; name := "earpiece" |};
    {| mask := AUDIO_DEVICE_OUT_SPEAKER; output_flag := 1; name := "speaker" |};
    {| mask := Z.lor AUDIO_DEVICE_OUT_WIRED_HEADSET AUDIO_DEVICE_OUT_WIRED_HEADPHONE;
       output_flag := 1; name := "headphone" |};
    {| mask := Z.lor AUDIO_DEVICE_OUT_WIRED_HEADSET AUDIO_DEVICE_OUT_WIRED_HEADPHONE;
       output_flag := 1; name := "headphone" |};
    {| mask := AUDIO_DEVICE_OUT_AUX_DIGITAL; output_flag := 1; name := "aux-digital-out" |};
    {| mask := AUDIO_DEVICE_OUT_ANLG_DOCK_HEADSET; output_flag := 1; name := "analog-dock" |};
    {| mask := AUDIO_DEVICE_OUT_DGTL_DOCK_HEADSET; output_flag := 1; name := "digital-dock" |};
    {| mask := AUDIO_DEVICE_IN_COMMUNICATION; output_flag := 0; name := "comms" |};
    {| mask := AUDIO_DEVICE_IN_AMBIENT; output_flag := 0; name := "ambient" |};
    {| mask := AUDIO_DEVICE_IN_BUILTIN_MIC; output_flag := 0; name := "builtin-mic" |};
    {| mask := AUDIO_DEVICE_IN_WIRED_HEADSET; output_flag := 0; name := "headset" |};
    {| mask := AUDIO_DEVICE_IN_AUX_DIGITAL; output_flag := 0; name := "aux-digital-in" |};
    {| mask := AUDIO_DEVICE_IN_BACK_MIC; output_flag := 0; name := "back-mic" |} ].

(** ** Data model *)

Inductive pcm_format := PCM_FORMAT_S16_LE.

(** [struct pcm_config] of tinyalsa, with the fields the file sets. *)
Record pcm_config := {
  channels : Z;
  rate : Z;
  period_size : Z;
  period_count : Z;
  format : pcm_format;
  start_threshold : Z;
  avail_min : Z
}.

Definition pcm_config_out : pcm_config :=
  {| channels := 2; rate := OUT_SAMPLING_RATE; period_size := SHORT_PERIOD_SIZE;
     period_count := PLAYBACK_PERIOD_COUNT; format := PCM_FORMAT_S16_LE;
     start_threshold := 0; avail_min := 0 |}.

Definition pcm_config_out_lp : pcm_config :=
  {| channels := 2; rate := OUT_SAMPLING_RATE; period_size := LONG_PERIOD_SIZE;
     period_count := PLAYBACK_PERIOD_COUNT; format := PCM_FORMAT_S16_LE;
     start_threshold := 0; avail_min := 0 |}.

Definition pcm_config_in : pcm_config :=
  {| channels := 2; rate := OUT_SAMPLING_RATE; period_size := SHORT_PERIOD_SIZE;
     period_count := CAPTURE_PERIOD_COUNT; format := PCM_FORMAT_S16_LE;
     start_threshold := 0; avail_min := 0 |}.

Definition pcm_config_sco : pcm_config :=
  {| channels := 1; rate := SCO_SAMPLING_RATE; period_size := SCO_PERIOD_SIZE;
     period_count := SCO_PERIOD_COUNT; format := PCM_FORMAT_S16_LE;
     start_threshold := 0; avail_min := 0 |}.

Definition pcm_config_hdmi : pcm_config :=
  {| channels := 2; rate := 48000; period_size := LONG_PERIOD_SIZE;
     period_count := PLAYBACK_PERIOD_COUNT; format := PCM_FORMAT_S16_LE;
     start_threshold := LONG_PERIOD_SIZE * 2; avail_min := 0 |}.

(** The configuration of a stream that [calloc] has just returned. *)
Definition pcm_config_zero : pcm_config :=
  {| channels := 0; rate := 0; period_size := 0; period_count := 0;
     format := PCM_FORMAT_S16_LE; start_threshold := 0; avail_min := 0 |}.

Definition set_start_threshold (v : Z) (c : pcm_config) : pcm_config :=
  {| channels := channels c; rate := rate c; period_size := period_size c;
     period_count := period_count c; format := format c;
     start_threshold := v; avail_min := avail_min c |}.

Definition set_avail_min (v : Z) (c : pcm_config) : pcm_config :=
  {| channels := channels c; rate := rate c; period_size := period_size c;
     period_count := period_count c; format := format c;
     start_threshold := start_threshold c; avail_min := v |}.

Inductive pcm_flags := PCM_IN | PCM_OUT_MMAP.

(** A [struct pcm *] that is not NULL.  [pcm_id] is the rank of the
    [pcm_open] call that returned it, [pcm_ready] what [pcm_is_ready]
    answers for it. *)
Record pcm := {
  pcm_id : nat;
  pcm_card : Z;
  pcm_device : Z;
  pcm_dir : pcm_flags;
  pcm_cfg : pcm_config;
  pcm_ready : bool
}.

(** A memory block is a list of bytes; a pointer that may be NULL is an
    [option]. *)
Abbreviation block := (list Z).

(** [struct stream_out].  [o_resampler] tells whether the pointer is set;
    the converter itself lives in the environment. *)
Record stream_out := {
  o_pcm : option pcm;
  o_pcm_config : pcm_config;
  o_standby : bool;
  o_resampler : bool;
  o_buffer : option block;
  o_write_threshold : Z;
  o_low_power : Z
}.

(** [struct stream_in]. *)
Record stream_in := {
  i_pcm : option pcm;
  i_pcm_config : pcm_config;
  i_standby : bool;
  i_requested_rate : Z;
  i_resampler : bool;
  i_buffer : option block;
  i_frames_in : Z;
  i_read_status : Z
}.

Inductive orientation_t :=
  | ORIENTATION_LANDSCAPE | ORIENTATION_PORTRAIT
  | ORIENTATION_SQUARE | ORIENTATION_UNDEFINED.

(** [struct audio_device]: [active_out] and [active_in] are pointers to
    streams, NULL being [None]. *)
Record audio_device := {
  out_device : Z;
  in_device : Z;
  mic_mute : bool;
  orientation : orientation_t;
  low_power : bool;
  active_out : option nat;
  active_in : option nat
}.

(** ** Collaborators *)

(** What [pcm_open] can return: NULL, a handle that is not ready (the
    way tinyalsa reports a failed open), or a ready handle. *)
Inductive open_outcome := OpenNull | OpenNotReady | OpenReady.

(** What the converter's [resample_from_provider] sees of one
    [get_next_buffer] call: the status, the frame count granted and the
    bytes at the returned pointer (none when the pointer is NULL). *)
Record provided := {
  pv_status : Z;
  pv_frame_count : Z;
  pv_data : option block
}.

(** The converter in pull mode, as the calls it makes: it either
    returns, with the bytes it stored in the destination and the frame
    count it reports, or asks the provider for [frame_count] frames,
    looks at the answer, hands a buffer of [consumed] frames back to
    [release_buffer] and goes on. *)
Inductive puller :=
  | PullDone (out : block) (frames_rd : Z)
  | PullNext (frame_count : Z) (consumed : provided -> Z) (k : provided -> puller).

(** One answer per call for everything the file calls but does not
    define.  The argument [n] is the rank of the call. *)
Record environment := {
  pcm_open_result : nat -> open_outcome;
  (** status of the n-th [pcm_mmap_write] *)
  pcm_mmap_write_result : nat -> Z;
  (** status and captured bytes of the n-th [pcm_read] *)
  pcm_read_result : nat -> Z * block;
  (** status and available frames of the n-th [pcm_get_htimestamp] *)
  pcm_get_htimestamp_result : nat -> Z * Z;
  (** status of the n-th [create_resampler] *)
  create_resampler_result : nat -> Z;
  (** does the n-th [malloc] return a block *)
  malloc_result : nat -> bool;
  (** n-th [resample_from_input]: from the input bytes, the input frame
      count and the output capacity, the bytes stored in the output
      block, the input frames consumed and the output frames produced *)
  resample_from_input_result : nat -> block -> Z -> Z -> block * Z * Z;
  (** n-th [resample_from_provider], asked for some frames *)
  resample_from_provider_result : nat -> Z -> puller
}.

Record counters := {
  n_open : nat;
  n_write : nat;
  n_read : nat;
  n_htimestamp : nat;
  n_create : nat;
  n_malloc : nat;
  n_push : nat;
  n_pull : nat
}.

(** Which block a pointer passed to the endpoint points into. *)
Inductive region := ClientBuffer | ScratchBuffer.

Inductive event :=
  | EvResetMixer
  | EvApplyPath (path : string)
  | EvUpdateMixer
  | EvPcmOpen (card device : Z) (flags : pcm_flags) (cfg : pcm_config) (res : option pcm)
  | EvPcmClose (p : option pcm)
  | EvPcmWrite (p : option pcm) (src : region) (data : block) (count : Z) (res : Z)
  | EvPcmRead (p : option pcm) (count : Z) (res : Z)
  | EvHtimestamp (p : option pcm) (res : Z) (avail : Z)
  | EvUsleep (usecs : Z)
  | EvCreateResampler (in_rate out_rate chans : Z) (res : Z)
  | EvResamplerReset
  | EvResampleFromInput (in_frames out_frames : Z)
  | EvResampleFromProvider (frames : Z)
  | EvReleaseResampler.

Record world := {
  adev : audio_device;
  outs : gmap nat stream_out;
  ins : gmap nat stream_in;
  env : environment;
  calls : counters;
  trace : list event
}.

(** ** Field updates *)

Definition set_o_pcm (v : option pcm) (s : stream_out) : stream_out :=
  {| o_pcm := v; o_pcm_config := o_pcm_config s; o_standby := o_standby s;
     o_resampler := o_resampler s; o_buffer := o_buffer s;
     o_write_threshold := o_write_threshold s; o_low_power := o_low_power s |}.

Definition set_o_pcm_config (v : pcm_config) (s : stream_out) : stream_out :=
  {| o_pcm := o_pcm s; o_pcm_config := v; o_standby := o_standby s;
     o_resampler := o_resampler s; o_buffer := o_buffer s;
     o_write_threshold := o_write_threshold s; o_low_power := o_low_power s |}.

Definition set_o_standby (v : bool) (s : stream_out) : stream_out :=
  {| o_pcm := o_pcm s; o_pcm_config := o_pcm_config s; o_standby := v;
     o_resampler := o_resampler s; o_buffer := o_buffer s;
     o_write_threshold := o_write_threshold s; o_low_power := o_low_power s |}.

Definition set_o_resampler (v : bool) (s : stream_out) : stream_out :=
  {| o_pcm := o_pcm s; o_pcm_config := o_pcm_config s; o_standby := o_standby s;
     o_resampler := v; o_buffer := o_buffer s;
     o_write_threshold := o_write_threshold s; o_low_power := o_low_power s |}.

Definition set_o_buffer (v : option block) (s : stream_out) : stream_out :=
  {| o_pcm := o_pcm s; o_pcm_config := o_pcm_config s; o_standby := o_standby s;
     o_resampler := o_resampler s; o_buffer := v;
     o_write_threshold := o_write_threshold s; o_low_power := o_low_power s |}.

Definition set_o_write_threshold (v : Z) (s : stream_out) : stream_out :=
  {| o_pcm := o_pcm s; o_pcm_config := o_pcm_config s; o_standby := o_standby s;
     o_resampler := o_resampler s; o_buffer := o_buffer s;
     o_write_threshold := v; o_low_power := o_low_power s |}.

Definition set_i_pcm (v : option pcm) (s : stream_in) : stream_in :=
  {| i_pcm := v; i_pcm_config := i_pcm_config s; i_standby := i_standby s;
     i_requested_rate := i_requested_rate s; i_resampler := i_resampler s;
     i_buffer := i_buffer s; i_frames_in := i_frames_in s;
     i_read_status := i_read_status s |}.

Definition set_i_pcm_config (v : pcm_config) (s : stream_in) : stream_in :=
  {| i_pcm := i_pcm s; i_pcm_config := v; i_standby := i_standby s;
     i_requested_rate := i_requested_rate s; i_resampler := i_resampler s;
     i_buffer := i_buffer s; i_frames_in := i_frames_in s;
     i_read_status := i_read_status s |}.

Definition set_i_standby (v : bool) (s : stream_in) : stream_in :=
  {| i_pcm := i_pcm s; i_pcm_config := i_pcm_config s; i_standby := v;
     i_requested_rate := i_requested_rate s; i_resampler := i_resampler s;
     i_buffer := i_buffer s; i_frames_in := i_frames_in s;
     i_read_status := i_read_status s |}.

Definition set_i_resampler (v : bool) (s : stream_in) : stream_in :=
  {| i_pcm := i_pcm s; i_pcm_config := i_pcm_config s; i_standby := i_standby s;
     i_requested_rate := i_requested_rate s; i_resampler := v;
     i_buffer := i_buffer s; i_frames_in := i_frames_in s;
     i_read_status := i_read_status s |}.

Definition set_i_buffer (v : option block) (s : stream_in) : stream_in :=
  {| i_pcm := i_pcm s; i_pcm_config := i_pcm_config s; i_standby := i_standby s;
     i_requested_rate := i_requested_rate s; i_resampler := i_resampler s;
     i_buffer := v; i_frames_in := i_frames_in s;
     i_read_status := i_read_status s |}.

Definition set_i_frames_in (v : Z) (s : stream_in) : stream_in :=
  {| i_pcm := i_pcm s; i_pcm_config := i_pcm_config s; i_standby := i_standby s;
     i_requested_rate := i_requested_rate s; i_resampler := i_resampler s;
     i_buffer := i_buffer s; i_frames_in := v;
     i_read_status := i_read_status s |}.

Definition set_i_read_status (v : Z) (s : stream_in) : stream_in :=
  {| i_pcm := i_pcm s; i_pcm_config := i_pcm_config s; i_standby := i_standby s;
     i_requested_rate := i_requested_rate s; i_resampler := i_resampler s;
     i_buffer := i_buffer s; i_frames_in := i_frames_in s;
     i_read_status := v |}.

Definition set_out_device (v : Z) (a : audio_device) : audio_device :=
  {| out_device := v; in_device := in_device a; mic_mute := mic_mute a;
     orientation := orientation a; low_power := low_power a;
     active_out := active_out a; active_in := active_in a |}.

Definition set_in_device (v : Z) (a : audio_device) : audio_device :=
  {| out_device := out_device a; in_device := v; mic_mute := mic_mute a;
     orientation := orientation a; low_power := low_power a;
     active_out := active_out a; active_in := active_in a |}.


Definition set_active_out (v : option nat) (a : audio_device) : audio_device :=
  {| out_device := out_device a; in_device := in_device a; mic_mute := mic_mute a;
     orientation := orientation a; low_power := low_power a;
     active_out := v; active_in := active_in a |}.

Definition set_active_in (v : option nat) (a : audio_device) : audio_device :=
  {| out_device := out_device a; in_device := in_device a; mic_mute := mic_mute a;
     orientation := orientation a; low_power := low_power a;
     active_out := active_out a; active_in := v |}.

Definition set_adev (v : audio_device) (w : world) : world :=
  {| adev := v; outs := outs w; ins := ins w; env := env w;
     calls := calls w; trace := trace w |}.

Definition set_outs (v : gmap nat stream_out) (w : world) : world :=
  {| adev := adev w; outs := v; ins := ins w; env := env w;
     calls := calls w; trace := trace w |}.

Definition set_ins (v : gmap nat stream_in) (w : world) : world :=
  {| adev := adev w; outs := outs w; ins := v; env := env w;
     calls := calls w; trace := trace w |}.

Definition set_calls (v : counters) (w : world) : world :=
  {| adev := adev w; outs := outs w; ins := ins w; env := env w;
     calls := v; trace := trace w |}.

(** Record one call; the trace is in the order of the calls. *)
Definition log (e : event) (w : world) : world :=
  {| adev := adev w; outs := outs w; ins := ins w; env := env w;
     calls := calls w; trace := trace w ++ [e] |}.

(** ** Calls to the collaborators *)

Definition next_open (c : counters) : counters :=
  {| n_open := S (n_open c); n_write := n_write c; n_read := n_read c;
     n_htimestamp := n_htimestamp c; n_create := n_create c;
     n_malloc := n_malloc c; n_push := n_push c; n_pull := n_pull c |}.

Definition next_write (c : counters) : counters :=
  {| n_open := n_open c; n_write := S (n_write c); n_read := n_read c;
     n_htimestamp := n_htimestamp c; n_create := n_create c;
     n_malloc := n_malloc c; n_push := n_push c; n_pull := n_pull c |}.

Definition next_read (c : counters) : counters :=
  {| n_open := n_open c; n_write := n_write c; n_read := S (n_read c);
     n_htimestamp := n_htimestamp c; n_create := n_create c;
     n_malloc := n_malloc c; n_push := n_push c; n_pull := n_pull c |}.

Definition next_htimestamp (c : counters) : counters :=
  {| n_open := n_open c; n_write := n_write c; n_read := n_read c;
     n_htimestamp := S (n_htimestamp c); n_create := n_create c;
     n_malloc := n_malloc c; n_push := n_push c; n_pull := n_pull c |}.

Definition next_create (c : counters) : counters :=
  {| n_open := n_open c; n_write := n_write c; n_read := n_read c;
     n_htimestamp := n_htimestamp c; n_create := S (n_create c);
     n_malloc := n_malloc c; n_push := n_push c; n_pull := n_pull c |}.

Definition next_malloc (c : counters) : counters :=
  {| n_open := n_open c; n_write := n_write c; n_read := n_read c;
     n_htimestamp := n_htimestamp c; n_create := n_create c;
     n_malloc := S (n_malloc c); n_push := n_push c; n_pull := n_pull c |}.

Definition next_push (c : counters) : counters :=
  {| n_open := n_open c; n_write := n_write c; n_read := n_read c;
     n_htimestamp := n_htimestamp c; n_create := n_create c;
     n_malloc := n_malloc c; n_push := S (n_push c); n_pull := n_pull c |}.

Definition next_pull (c : counters) : counters :=
  {| n_open := n_open c; n_write := n_write c; n_read := n_read c;
     n_htimestamp := n_htimestamp c; n_create := n_create c;
     n_malloc := n_malloc c; n_push := n_push c; n_pull := S (n_pull c) |}.

(** The handle that a call of [pcm_open] in the world [w] makes. *)
Definition opened (card device : Z) (flags : pcm_flags) (cfg : pcm_config)
    (ready : bool) (w : world) : pcm :=
  {| pcm_id := n_open (calls w); pcm_card := card; pcm_device := device;
     pcm_dir := flags; pcm_cfg := cfg; pcm_ready := ready |}.

Definition pcm_open (card device : Z) (flags : pcm_flags) (cfg : pcm_config)
    (w : world) : option pcm * world :=
  let res :=
    match pcm_open_result (env w) (n_open (calls w)) with
    | OpenNull => None
    | OpenNotReady => Some (opened card device flags cfg false w)
    | OpenReady => Some (opened card device flags cfg true w)
    end in
  (res, log (EvPcmOpen card device flags cfg res) (set_calls (next_open (calls w)) w)).

Definition pcm_is_ready (p : pcm) : bool := pcm_ready p.

Definition pcm_close (p : option pcm) (w : world) : world := log (EvPcmClose p) w.

(** tinyalsa: the ring buffer of a handle has [period_size *
    period_count] frames of the geometry it was opened with. *)
Definition pcm_get_buffer_size (p : option pcm) : Z :=
  match p with
  | Some h => period_size (pcm_cfg h) * period_count (pcm_cfg h)
  | None => 0
  end.

(** [pcm_mmap_write (p, src, count)]: [data] is what lies at [src], in
    the block [reg]; the endpoint takes its first [count] bytes. *)
Definition pcm_mmap_write (p : option pcm) (reg : region) (data : block) (count : Z)
    (w : world) : Z * world :=
  let n := n_write (calls w) in
  let res := pcm_mmap_write_result (env w) n in
  (res, log (EvPcmWrite p reg (take (Z.to_nat count) data) count res)
          (set_calls (next_write (calls w)) w)).

(** [pcm_read (p, dst, count)]: the status and the bytes captured, at
    most [count] of them; the caller stores them at [dst]. *)
Definition pcm_read (p : option pcm) (count : Z) (w : world) : Z * block * world :=
  let n := n_read (calls w) in
  let '(res, data) := pcm_read_result (env w) n in
  (res, take (Z.to_nat count) data,
   log (EvPcmRead p count res) (set_calls (next_read (calls w)) w)).

Definition pcm_get_htimestamp (p : option pcm) (w : world) : Z * Z * world :=
  let n := n_htimestamp (calls w) in
  let '(res, avail) := pcm_get_htimestamp_result (env w) n in
  (res, avail, log (EvHtimestamp p res avail) (set_calls (next_htimestamp (calls w)) w)).

Definition usleep (usecs : Z) (w : world) : world := log (EvUsleep usecs) w.

Definition create_resampler (in_rate out_rate chans : Z) (w : world) : Z * world :=
  let n := n_create (calls w) in
  let res := create_resampler_result (env w) n in
  (res, log (EvCreateResampler in_rate out_rate chans res)
          (set_calls (next_create (calls w)) w)).

Definition release_resampler (w : world) : world := log EvReleaseResampler w.

Definition resampler_reset (w : world) : world := log EvResamplerReset w.

Definition malloc (w : world) : bool * world :=
  let n := n_malloc (calls w) in
  (malloc_result (env w) n, set_calls (next_malloc (calls w)) w).

Definition resample_from_input (input : block) (in_frames out_frames : Z) (w : world)
    : block * Z * Z * world :=
  let n := n_push (calls w) in
  let '(out, in_frames', out_frames') :=
    resample_from_input_result (env w) n input in_frames out_frames in
  (out, in_frames', out_frames',
   log (EvResampleFromInput in_frames out_frames) (set_calls (next_push (calls w)) w)).

(** ** Memory *)

(** Store [data] at byte offset [off] of [dst], within [dst]. *)
Definition blit (data : block) (off : nat) (dst : block) : block :=
  take off dst ++ take (length dst - off)%nat data ++ drop (off + length data)%nat dst.

(** What lies at the address of [dst] once [data] has been stored there
    with no bound: the bytes of [data] that do not fit in [dst] are in
    the memory that follows the block. *)
Definition overlay (data dst : block) : block := data ++ drop (length data) dst.

Definition memset0 (dst : block) (n : Z) : block :=
  blit (replicate (Z.to_nat n) 0) 0 dst.

(** [dst[i] = src[j]] on [int16_t] arrays. *)
Definition copy_i16 (dst : block) (i : nat) (src : block) (j : nat) : block :=
  <[(2 * i + 1)%nat := src !!! (2 * j + 1)%nat]> (<[(2 * i)%nat := src !!! (2 * j)%nat]> dst).

(** [for (i = from; i < n; i++) dst[i] = src[i * 2];] *)
Definition discard_right (from : nat) (n : Z) (src dst : block) : block :=
  foldl (fun d i => copy_i16 d i src (i * 2)) dst (seq from (Z.to_nat n - from)).

(** The same loop when source and destination are one array. *)
Definition discard_right_in_place (from : nat) (n : Z) (b : block) : block :=
  foldl (fun d i => copy_i16 d i d (i * 2)) b (seq from (Z.to_nat n - from)).

(** ** [hardware/audio.h] *)

Fixpoint popcount_pos (p : positive) : Z :=
  match p with
  | xH => 1
  | xO q => popcount_pos q
  | xI q => 1 + popcount_pos q
  end.

Definition popcount (z : Z) : Z :=
  match z with Zpos p => popcount_pos p | _ => 0 end.

Definition AUDIO_CHANNEL_OUT_STEREO : Z := 0x3.
Definition AUDIO_CHANNEL_IN_MONO : Z := 0x10.
Definition AUDIO_OUTPUT_FLAG_DEEP_BUFFER : Z := 0x8.

(** [audio_stream_frame_size]: channels of the stream's mask times the
    sample size; both streams answer [AUDIO_FORMAT_PCM_16_BIT]. *)
Definition audio_stream_frame_size (channel_mask : Z) : Z :=
  popcount channel_mask * 2.

(** ** Helper functions of the file *)

Definition audio_route_apply_path (path : string) (w : world) : world :=
  log (EvApplyPath path) w.

(** The body of the [for] loop of [select_devices] for the table entry
    [d].  [in_device] is an [unsigned int], and so is the direction bit,
    so both differences are taken modulo 2^32. *)
Definition select_devices_step (w : world) (d : dev_name) : world :=
  if negb (output_flag d =? 0) then
    if negb (Z.land (out_device (adev w)) (mask d) =? 0)
    then audio_route_apply_path (name d) w
    else w
  else
    if negb (Z.land (wrap32 (in_device (adev w) - AUDIO_DEVICE_BIT_IN))
                    (wrap32 (mask d - AUDIO_DEVICE_BIT_IN)) =? 0)
    then audio_route_apply_path (name d) w
    else w.

(** [select_devices].  The sums [out_devices] and [in_devices] of the
    matching masks are only printed, and are left out. *)
Definition select_devices (w : world) : world :=
  let w := log EvResetMixer w in
  let w := foldl select_devices_step w dev_names in
  log EvUpdateMixer w.

(** [do_out_standby (out)], on the fields of [*out] and the rest of the
    world. *)
Definition do_out_standby (out : stream_out) (w : world) : stream_out * world :=
  if negb (o_standby out) then
    let w := pcm_close (o_pcm out) w in
    let out := set_o_pcm None out in
    let w := set_adev (set_active_out None (adev w)) w in
    let out := set_o_standby true out in
    (out, w)
  else (out, w).

Definition do_in_standby (sin : stream_in) (w : world) : stream_in * world :=
  if negb (i_standby sin) then
    let w := pcm_close (i_pcm sin) w in
    let sin := set_i_pcm None sin in
    let w := set_adev (set_active_in None (adev w)) w in
    let sin := set_i_standby true sin in
    (sin, w)
  else (sin, w).

(** The test [p && !pcm_is_ready (p)] made after each [pcm_open]. *)
Definition open_failed (p : option pcm) : bool :=
  match p with
  | Some h => negb (pcm_is_ready h)
  | None => false
  end.

(** The two rate groups of the hardware, as [start_output_stream] and
    [start_input_stream] test them: the stream being started is at
    [mine], the one that is open at [other]. *)
Definition rate_conflict (mine other : Z) : bool :=
  ((mine mod 8000 =? 0) && negb (other mod 8000 =? 0))
  || ((mine mod 11025 =? 0) && negb (other mod 11025 =? 0)).

(** The first block of [start_output_stream]: the card, the device and
    the geometry of the endpoint to open. *)
Definition out_select_geometry (out : stream_out) (w : world) : Z * Z * stream_out :=
  let device := PCM_DEVICE_DEFAULT_OUT in
  let card := PCM_CARD_DEFAULT in
  if negb (Z.land (out_device (adev w)) AUDIO_DEVICE_OUT_AUX_DIGITAL =? 0) then
    (PCM_CARD_HDMI, device, set_o_pcm_config pcm_config_hdmi out)
  else if negb (o_low_power out =? 0) then
    let out := set_o_write_threshold (PLAYBACK_PERIOD_COUNT * LONG_PERIOD_SIZE) out in
    let out := set_o_pcm_config
                 (set_start_threshold (LONG_PERIOD_SIZE * 2) (o_pcm_config out)) out in
    let out := set_o_pcm_config (set_avail_min LONG_PERIOD_SIZE (o_pcm_config out)) out in
    (card, PCM_DEVICE_MM_LP, out)
  else
    let out := set_o_write_threshold (PLAYBACK_PERIOD_COUNT * SHORT_PERIOD_SIZE) out in
    let out := set_o_pcm_config
                 (set_start_threshold (SHORT_PERIOD_SIZE * 2) (o_pcm_config out)) out in
    let out := set_o_pcm_config (set_avail_min SHORT_PERIOD_SIZE (o_pcm_config out)) out in
    (card, device, out).

(** The block [if (adev->active_in) { ... }] of [start_output_stream],
    for an endpoint to be opened at [out_rate]. *)
Definition out_standby_active_in (out_rate : Z) (w : world) : world :=
  match active_in (adev w) with
  | Some i =>
      match ins w !! i with
      | Some sin =>
          if rate_conflict out_rate (rate (i_pcm_config sin)) then
            let '(sin, w) := do_in_standby sin w in
            set_ins (<[i := sin]> (ins w)) w
          else w
      | None => w
      end
  | None => w
  end.

(** [start_output_stream (out)], [o] being the pointer [out]. *)
Definition start_output_stream (o : nat) (out : stream_out) (w : world)
    : Z * stream_out * world :=
  let '(card, device, out) := out_select_geometry out w in
  let w := out_standby_active_in (rate (o_pcm_config out)) w in
  let '(p, w) := pcm_open card device PCM_OUT_MMAP (o_pcm_config out) w in
  let out := set_o_pcm p out in
  if open_failed (o_pcm out) then
    let w := pcm_close (o_pcm out) w in
    (- ENOMEM, out, w)
  else
    let w := set_adev (set_active_out (Some o) (adev w)) w in
    let w := if o_resampler out then resampler_reset w else w in
    (0, out, w).

(** The first block of [start_input_stream]. *)
Definition in_select_geometry (sin : stream_in) (w : world) : Z * stream_in :=
  if negb (Z.land (wrap32 (in_device (adev w) - AUDIO_DEVICE_BIT_IN))
                  (wrap32 (AUDIO_DEVICE_IN_ALL_SCO - AUDIO_DEVICE_BIT_IN)) =? 0)
  then (PCM_DEVICE_SCO_IN, set_i_pcm_config pcm_config_sco sin)
  else (PCM_DEVICE_DEFAULT_IN, set_i_pcm_config pcm_config_in sin).

(** The block [if (adev->active_out) { ... }] of [start_input_stream],
    for an endpoint to be opened at [in_rate]. *)
Definition in_standby_active_out (in_rate : Z) (w : world) : world :=
  match active_out (adev w) with
  | Some o =>
      match outs w !! o with
      | Some out =>
          if rate_conflict in_rate (rate (o_pcm_config out)) then
            let '(out, w) := do_out_standby out w in
            set_outs (<[o := out]> (outs w)) w
          else w
      | None => w
      end
  | None => w
  end.

(** [start_input_stream (in)], [i] being the pointer [in]. *)
Definition start_input_stream (i : nat) (sin : stream_in) (w : world)
    : Z * stream_in * world :=
  let card := PCM_CARD_DEFAULT in
  let '(device, sin) := in_select_geometry sin w in
  let w := in_standby_active_out (rate (i_pcm_config sin)) w in
  let '(p, w) := pcm_open card device PCM_IN (i_pcm_config sin) w in
  let sin := set_i_pcm p sin in
  if open_failed (i_pcm sin) then
    let w := pcm_close (i_pcm sin) w in
    (- ENOMEM, sin, w)
  else
    let w := set_adev (set_active_in (Some i) (adev w)) w in
    if i_resampler sin then
      let w := resampler_reset w in
      (0, set_i_frames_in 0 sin, w)
    else (0, sin, w).

(** ** The buffer provider of the capture stream *)

(** [struct resampler_buffer]: [raw] is NULL or a pointer into
    [in->buffer], given as an index of [int16_t]. *)
Record resampler_buffer := { raw : option nat; frame_count : Z }.

(** [get_next_buffer], for the stream that contains the provider.  The
    two pointer arguments are not NULL. *)
Definition get_next_buffer (buffer : resampler_buffer) (sin : stream_in) (w : world)
    : Z * resampler_buffer * stream_in * world :=
  match i_pcm sin with
  | None =>
      (- ENODEV, {| raw := None; frame_count := 0 |},
       set_i_read_status (- ENODEV) sin, w)
  | Some p =>
      let hw_frame_size := audio_stream_frame_size AUDIO_CHANNEL_IN_MONO in
      let cfg := i_pcm_config sin in
      let '(read_failed, sin, w) :=
        if i_frames_in sin =? 0 then
          let '(status, data, w) :=
            pcm_read (Some p) (wrap32 (channels cfg * period_size cfg * hw_frame_size)) w in
          let sin := set_i_buffer (blit data 0 <$> i_buffer sin) sin in
          let sin := set_i_read_status status sin in
          if negb (status =? 0) then (true, sin, w)
          else
            let sin := set_i_frames_in (period_size cfg) sin in
            if channels cfg =? 2 then
              (false,
               set_i_buffer (discard_right_in_place 1 (i_frames_in sin) <$> i_buffer sin) sin,
               w)
            else (false, sin, w)
        else (false, sin, w) in
      if read_failed then
        (i_read_status sin, {| raw := None; frame_count := 0 |}, sin, w)
      else
        let n := if frame_count buffer >? i_frames_in sin
                 then i_frames_in sin else frame_count buffer in
        (i_read_status sin,
         {| raw := Some (Z.to_nat (period_size cfg - i_frames_in sin)); frame_count := n |},
         sin, w)
  end.

(** [release_buffer]: [frames_in] is a [size_t]. *)
Definition release_buffer (buffer : resampler_buffer) (sin : stream_in) : stream_in :=
  set_i_frames_in (wrap32 (i_frames_in sin - frame_count buffer)) sin.

(** The bytes at [buffer->raw]. *)
Definition bytes_at (buffer : resampler_buffer) (sin : stream_in) : option block :=
  match raw buffer, i_buffer sin with
  | Some off, Some b => Some (drop (2 * off) b)
  | _, _ => None
  end.

(** One [resample_from_provider] call: the converter's requests are
    served by [get_next_buffer] and [release_buffer].  A converter that
    does not release after a failed request is one that releases zero
    frames. *)
Fixpoint run_puller (c : puller) (sin : stream_in) (w : world)
    : block * Z * stream_in * world :=
  match c with
  | PullDone out frames_rd => (out, frames_rd, sin, w)
  | PullNext n consumed k =>
      let '(status, buf, sin, w) :=
        get_next_buffer {| raw := None; frame_count := n |} sin w in
      let pv := {| pv_status := status; pv_frame_count := frame_count buf;
                   pv_data := bytes_at buf sin |} in
      let sin := release_buffer {| raw := raw buf; frame_count := consumed pv |} sin in
      run_puller (k pv) sin w
  end.

Definition resample_from_provider (frames : Z) (sin : stream_in) (w : world)
    : block * Z * stream_in * world :=
  let n := n_pull (calls w) in
  let w := log (EvResampleFromProvider frames) (set_calls (next_pull (calls w)) w) in
  run_puller (resample_from_provider_result (env w) n frames) sin w.

(** [read_frames], from the state of the loop where [frames_wr] frames
    are written. *)
Fixpoint read_frames_loop (fuel : nat) (frames frames_wr : Z) (buffer : block)
    (sin : stream_in) (w : world) : option (Z * block * stream_in * world) :=
  match fuel with
  | O => None
  | S fuel =>
      let frame_size := audio_stream_frame_size AUDIO_CHANNEL_IN_MONO in
      if frames_wr <? frames then
        let frames_rd := wrap32 (frames - frames_wr) in
        let dst := Z.to_nat (frames_wr * frame_size) in
        let '(frames_rd, buffer, sin, w) :=
          if i_resampler sin then
            let '(out, frames_rd, sin, w) := resample_from_provider frames_rd sin w in
            (frames_rd, blit out dst buffer, sin, w)
          else
            let '(_, buf, sin, w) :=
              get_next_buffer {| raw := None; frame_count := frames_rd |} sin w in
            let '(frames_rd, buffer) :=
              match raw buf with
              | Some _ =>
                  (frame_count buf,
                   blit (take (Z.to_nat (frame_count buf * frame_size))
                           (default [] (bytes_at buf sin))) dst buffer)
              | None => (frames_rd, buffer)
              end in
            (frames_rd, buffer, release_buffer buf sin, w) in
        if negb (i_read_status sin =? 0) then Some (i_read_status sin, buffer, sin, w)
        else read_frames_loop fuel frames (frames_wr + frames_rd) buffer sin w
      else Some (frames_wr, buffer, sin, w)
  end.

Definition read_frames (fuel : nat) (buffer : block) (frames : Z)
    (sin : stream_in) (w : world) : option (Z * block * stream_in * world) :=
  read_frames_loop fuel frames 0 buffer sin w.

(** ** The API of the playback stream *)

Definition out_get_sample_rate : Z := OUT_SAMPLING_RATE.

Definition out_get_channels : Z := AUDIO_CHANNEL_OUT_STEREO.

(** [out_get_latency]: an [int] constant divided by the [unsigned int]
    rate. *)
Definition out_get_latency (out : stream_out) : Z :=
  wrap32 (SHORT_PERIOD_SIZE * PLAYBACK_PERIOD_COUNT * 1000) / rate (o_pcm_config out).

(** [out_standby (stream)]; a pointer that is not a stream of the world
    leaves it as it is. *)
Definition out_standby (o : nat) (w : world) : Z * world :=
  match outs w !! o with
  | Some out =>
      let '(out, w) := do_out_standby out w in
      (0, set_outs (<[o := out]> (outs w)) w)
  | None => (0, w)
  end.

(** The local variables of [out_write] that are set before the label
    [do_over] and live across a [goto do_over]. *)
Record out_write_locals := {
  l_ret : Z;
  l_frame_size : Z;
  l_in_frames : Z;
  l_out_frames : Z
}.

Definition set_l_ret (v : Z) (l : out_write_locals) : out_write_locals :=
  {| l_ret := v; l_frame_size := l_frame_size l; l_in_frames := l_in_frames l;
     l_out_frames := l_out_frames l |}.

Definition set_l_frame_size (v : Z) (l : out_write_locals) : out_write_locals :=
  {| l_ret := l_ret l; l_frame_size := v; l_in_frames := l_in_frames l;
     l_out_frames := l_out_frames l |}.

Definition set_l_in_frames (v : Z) (l : out_write_locals) : out_write_locals :=
  {| l_ret := l_ret l; l_frame_size := l_frame_size l; l_in_frames := v;
     l_out_frames := l_out_frames l |}.

Definition set_l_out_frames (v : Z) (l : out_write_locals) : out_write_locals :=
  {| l_ret := l_ret l; l_frame_size := l_frame_size l; l_in_frames := l_in_frames l;
     l_out_frames := v |}.

(** The flow-control loop of [out_write]:
    [do { ... } while (kernel_frames > out->write_threshold);] *)
Fixpoint out_write_throttle (fuel : nat) (out : stream_out) (w : world) : option world :=
  match fuel with
  | O => None
  | S fuel =>
      let '(status, avail, w) := pcm_get_htimestamp (o_pcm out) w in
      if status <? 0 then Some w
      else
        let kernel_frames := to_int32 (pcm_get_buffer_size (o_pcm out) - avail) in
        if kernel_frames >? o_write_threshold out then
          let time :=
            wrap32 (((kernel_frames - o_write_threshold out) * 1000000)
                      ÷ MM_FULL_POWER_SAMPLING_RATE) in
          let time := if time <? MIN_WRITE_SLEEP_US then MIN_WRITE_SLEEP_US else time in
          out_write_throttle fuel out (usleep time w)
        else Some w
  end.

(** [out_write] from the first statement after the [if (out->standby)]
    block up to the call of [pcm_mmap_write]; [buffer] is the client's
    block.  The result is the state at the label [exit]. *)
Definition out_write_running (fuel : nat) (l : out_write_locals) (buffer : block)
    (out : stream_out) (w : world)
    : option (out_write_locals * block * stream_out * world) :=
  let sco_on := negb (Z.land (out_device (adev w)) AUDIO_DEVICE_OUT_ALL_SCO =? 0) in
  (* Reduce number of channels, if necessary *)
  let '(buffer, l) :=
    if popcount out_get_channels >? to_int32 (channels (o_pcm_config out)) then
      (discard_right_in_place 1 (l_in_frames l) buffer,
       set_l_frame_size (l_frame_size l / 2) l)
    else (buffer, l) in
  (* the converter; [inl] is [goto exit] *)
  let converted : (out_write_locals * stream_out * world)
                  + (out_write_locals * stream_out * world) :=
    if negb (rate (o_pcm_config out) =? OUT_SAMPLING_RATE) then
      let created : (out_write_locals * stream_out * world)
                    + (out_write_locals * stream_out * world) :=
        if negb (o_resampler out) then
          let '(ret, w) :=
            create_resampler OUT_SAMPLING_RATE MM_FULL_POWER_SAMPLING_RATE 2 w in
          let l := set_l_ret ret l in
          if negb (ret =? 0) then inl (l, out, w)
          else
            let out := set_o_resampler true out in
            let '(ok, w) := malloc w in
            if ok then
              inr (l, set_o_buffer (Some (replicate (Z.to_nat RESAMPLER_BUFFER_SIZE) 0)) out, w)
            else inl (set_l_ret (- ENOMEM) l, set_o_buffer None out, w)
        else inr (l, out, w) in
      match created with
      | inl e => inl e
      | inr (l, out, w) =>
          let '(data, in_frames, out_frames, w) :=
            resample_from_input buffer (l_in_frames l) (l_out_frames l) w in
          let out := set_o_buffer (blit data 0 <$> o_buffer out) out in
          inr (set_l_out_frames out_frames (set_l_in_frames in_frames l), out, w)
      end
    else inr (set_l_out_frames (l_in_frames l) l, out, w) in
  match converted with
  | inl (l, out, w) => Some (l, buffer, out, w)
  | inr (l, out, w) =>
      match (if negb sco_on then out_write_throttle fuel out w else Some w) with
      | None => None
      | Some w =>
          let '(ret, w) :=
            pcm_mmap_write (o_pcm out) ClientBuffer buffer
              (wrap32 (l_out_frames l * l_frame_size l)) w in
          Some (set_l_ret ret l, buffer, out, w)
      end
  end.

(** [out_write] from the label [do_over] to the label [exit]. *)
Definition out_write_body (fuel : nat) (o : nat) (l : out_write_locals) (buffer : block)
    (out : stream_out) (w : world)
    : option (out_write_locals * block * stream_out * world) :=
  if o_standby out then
    let '(ret, out, w) := start_output_stream o out w in
    let l := set_l_ret ret l in
    if negb (ret =? 0) then Some (l, buffer, out, w)
    else out_write_running fuel l buffer (set_o_standby false out) w
  else out_write_running fuel l buffer out w.

(** The statements at the label [exit]: the sleep for a failed write. *)
Definition out_write_exit (bytes : Z) (l : out_write_locals) (w : world) : world :=
  if negb (l_ret l =? 0) then
    let usecs :=
      wrap32 (bytes * 1000000) / audio_stream_frame_size out_get_channels
        / out_get_sample_rate in
    let usecs := if usecs >=? 1000000 then 999999 else usecs in
    usleep usecs w
  else w.

(** The loop closed by [goto do_over]. *)
Fixpoint out_write_do_over (fuel : nat) (o : nat) (bytes : Z) (l : out_write_locals)
    (buffer : block) (out : stream_out) (w : world)
    : option (Z * block * stream_out * world) :=
  match fuel with
  | O => None
  | S fuel =>
      match out_write_body fuel o l buffer out w with
      | None => None
      | Some (l, buffer, out, w) =>
          let w := out_write_exit bytes l w in
          if l_ret l =? - EPIPE then
            (* Recover from an underrun *)
            let '(out, w) := do_out_standby out w in
            out_write_do_over fuel o bytes l buffer out w
          else
            (* [return bytes;]: the [size_t] is returned as a [ssize_t] *)
            Some (to_int32 bytes, buffer, out, w)
      end
  end.

Definition out_write_init (bytes : Z) : out_write_locals :=
  let frame_size := audio_stream_frame_size out_get_channels in
  {| l_ret := 0; l_frame_size := frame_size; l_in_frames := bytes / frame_size;
     l_out_frames := RESAMPLER_BUFFER_SIZE / frame_size |}.

(** [out_write (stream, buffer, bytes)]: the value returned, the
    client's block after the call and the world.  [bytes] is a
    [size_t], a number from 0 to [2 ^ 32 - 1]; the value returned is a
    [ssize_t].  [None]: the fuel ran out, or [o] is not a stream of the
    world. *)
Definition out_write (fuel : nat) (o : nat) (buffer : block) (bytes : Z) (w : world)
    : option (Z * block * world) :=
  match outs w !! o with
  | Some out =>
      match out_write_do_over fuel o bytes (out_write_init bytes) buffer out w with
      | Some (r, buffer, out, w) => Some (r, buffer, set_outs (<[o := out]> (outs w)) w)
      | None => None
      end
  | None => None
  end.

(** ** The API of the capture stream *)

Definition in_get_sample_rate (sin : stream_in) : Z := i_requested_rate sin.

Definition in_get_channels : Z := AUDIO_CHANNEL_IN_MONO.

Definition in_standby (i : nat) (w : world) : Z * world :=
  match ins w !! i with
  | Some sin =>
      let '(sin, w) := do_in_standby sin w in
      (0, set_ins (<[i := sin]> (ins w)) w)
  | None => (0, w)
  end.

(** [in_read] up to the statement [if (ret > 0) ret = 0;]: the value
    of [ret] after it.  When the start fails the function jumps to
    [exit] with a negative [ret], past statements that do nothing for
    such a [ret]. *)
Definition in_read_capture (fuel : nat) (i : nat) (buffer : block) (bytes : Z)
    (sin : stream_in) (w : world) : option (Z * block * stream_in * world) :=
  let ret := 0 in
  let frames_rq := bytes / audio_stream_frame_size in_get_channels in
  let '(ret, sin, w) :=
    if i_standby sin then
      let '(ret, sin, w) := start_input_stream i sin w in
      if ret =? 0 then (ret, set_i_standby false sin, w) else (ret, sin, w)
    else (ret, sin, w) in
  if ret <? 0 then Some (ret, buffer, sin, w)
  else
    let captured :=
      if i_resampler sin then
        match read_frames fuel buffer frames_rq sin w with
        | Some (r, buffer, sin, w) => Some (to_int32 r, buffer, sin, w)
        | None => None
        end
      else if channels (i_pcm_config sin) =? 2 then
        let '(ret, data, w) := pcm_read (i_pcm sin) (wrap32 (bytes * 2)) w in
        (* the endpoint stores [bytes * 2] bytes at [in->buffer], whatever
           the size of the block, and the loop reads them back from there *)
        let stored := overlay data (default [] (i_buffer sin)) in
        let sin := set_i_buffer (blit data 0 <$> i_buffer sin) sin in
        Some (ret, discard_right 0 frames_rq stored buffer, sin, w)
      else
        let '(ret, data, w) := pcm_read (i_pcm sin) bytes w in
        Some (ret, blit data 0 buffer, sin, w) in
    match captured with
    | Some (ret, buffer, sin, w) => Some (if ret >? 0 then 0 else ret, buffer, sin, w)
    | None => None
    end.

(** [in_read (stream, buffer, bytes)]: the value returned, the client's
    block after the call and the world.  [bytes] is a [size_t], a
    number from 0 to [2 ^ 32 - 1]; the value returned is a [ssize_t].
    [None]: the fuel ran out, or [i] is not a stream of the world. *)
Definition in_read (fuel : nat) (i : nat) (buffer : block) (bytes : Z) (w : world)
    : option (Z * block * world) :=
  match ins w !! i with
  | Some sin =>
      match in_read_capture fuel i buffer bytes sin w with
      | Some (ret, buffer, sin, w) =>
          let buffer :=
            if (ret =? 0) && mic_mute (adev w) then memset0 buffer bytes else buffer in
          let w :=
            if ret <? 0 then
              usleep (wrap32 (bytes * 1000000) / audio_stream_frame_size in_get_channels
                        / in_get_sample_rate sin) w
            else w in
          (* [return bytes;]: the [size_t] is returned as a [ssize_t] *)
          Some (to_int32 bytes, buffer, set_ins (<[i := sin]> (ins w)) w)
      | None => None
      end
  | None => None
  end.

(** ** Opening and closing *)

(** The device after [adev_open], the mixer being there. *)
Definition adev_open : audio_device :=
  {| out_device := AUDIO_DEVICE_OUT_SPEAKER;
     in_device := Z.ldiff AUDIO_DEVICE_IN_BUILTIN_MIC AUDIO_DEVICE_BIT_IN;
     mic_mute := false; orientation := ORIENTATION_UNDEFINED; low_power := false;
     active_out := None; active_in := None |}.


Section Open.

(** The masks of all output and all input selectors of
    [system/audio.h]. *)
Variable AUDIO_DEVICE_OUT_ALL : Z.
Variable AUDIO_DEVICE_IN_ALL : Z.

(** [adev_open_output_stream]: the status and the new stream, at a
    pointer that is not in use. *)
Definition adev_open_output_stream (devices flags : Z) (w : world)
    : Z * option nat * world :=
  let '(ok, w) := malloc w in
  if negb ok then (- ENOMEM, None, w)
  else
    let out :=
      {| o_pcm := None; o_pcm_config := pcm_config_zero; o_standby := false;
         o_resampler := false; o_buffer := None; o_write_threshold := 0;
         o_low_power := 0 |} in
    let created : (Z * world) + (stream_out * world) :=
      if negb (Z.land devices AUDIO_DEVICE_OUT_ALL_SCO =? 0) then
        let '(ret, w) :=
          create_resampler OUT_SAMPLING_RATE MM_FULL_POWER_SAMPLING_RATE 2 w in
        if negb (ret =? 0) then inl (ret, w)
        else
          let out := set_o_resampler true out in
          let '(ok, w) := malloc w in
          inr (set_o_buffer
                 (if ok then Some (replicate (Z.to_nat RESAMPLER_BUFFER_SIZE) 0) else None)
                 out, w)
      else inr (set_o_resampler false out, w) in
    match created with
    | inl (ret, w) => (ret, None, w)
    | inr (out, w) =>
        let out :=
          if negb (Z.land flags AUDIO_OUTPUT_FLAG_DEEP_BUFFER =? 0) then
            {| o_pcm := o_pcm out; o_pcm_config := pcm_config_out_lp;
               o_standby := o_standby out; o_resampler := o_resampler out;
               o_buffer := o_buffer out; o_write_threshold := o_write_threshold out;
               o_low_power := 1 |}
          else
            {| o_pcm := o_pcm out; o_pcm_config := pcm_config_out;
               o_standby := o_standby out; o_resampler := o_resampler out;
               o_buffer := o_buffer out; o_write_threshold := o_write_threshold out;
               o_low_power := 0 |} in
        let w := set_adev (set_out_device
                             (Z.ldiff (out_device (adev w)) AUDIO_DEVICE_OUT_ALL)
                             (adev w)) w in
        let w := set_adev (set_out_device (Z.lor (out_device (adev w)) devices)
                             (adev w)) w in
        let w := select_devices w in
        let out := set_o_standby true out in
        let o := fresh (dom (outs w)) in
        (0, Some o, set_outs (<[o := out]> (outs w)) w)
    end.

(** [adev_open_input_stream], for a request of [sample_rate] with
    the channel mask [channel_mask]. *)
Definition adev_open_input_stream (devices channel_mask sample_rate : Z) (w : world)
    : Z * option nat * world :=
  if negb (channel_mask =? AUDIO_CHANNEL_IN_MONO) then (- EINVAL, None, w)
  else
    let '(ok, w) := malloc w in
    if negb ok then (- ENOMEM, None, w)
    else
      let sin :=
        {| i_pcm := None; i_pcm_config := pcm_config_zero; i_standby := true;
           i_requested_rate := 0; i_resampler := false; i_buffer := None;
           i_frames_in := 0; i_read_status := 0 |} in
      let w := set_adev (set_in_device
                           (Z.ldiff (in_device (adev w)) AUDIO_DEVICE_IN_ALL)
                           (adev w)) w in
      let w := set_adev (set_in_device (Z.lor (in_device (adev w)) devices)
                           (adev w)) w in
      let w := select_devices w in
      let sin :=
        {| i_pcm := i_pcm sin; i_pcm_config := pcm_config_in;
           i_standby := i_standby sin; i_requested_rate := sample_rate;
           i_resampler := i_resampler sin; i_buffer := i_buffer sin;
           i_frames_in := i_frames_in sin; i_read_status := i_read_status sin |} in
      let size :=
        wrap32 (channels (i_pcm_config sin) * period_size (i_pcm_config sin)
                * audio_stream_frame_size in_get_channels) in
      let '(ok, w) := malloc w in
      if negb ok then (- ENOMEM, None, w)
      else
        let sin := set_i_buffer (Some (replicate (Z.to_nat size) 0)) sin in
        let sin := set_i_frames_in 0 sin in
        let created : (Z * world) + (stream_in * world) :=
          if negb (i_requested_rate sin =? rate (i_pcm_config sin)) then
            let '(ret, w) :=
              create_resampler (rate (i_pcm_config sin)) (i_requested_rate sin) 1 w in
            if negb (ret =? 0) then inl (- EINVAL, w)
            else inr (set_i_resampler true sin, w)
          else inr (sin, w) in
        match created with
        | inl (ret, w) => (ret, None, w)
        | inr (sin, w) =>
            let i := fresh (dom (ins w)) in
            (0, Some i, set_ins (<[i := sin]> (ins w)) w)
        end.

End Open.

(** [adev_close_output_stream]: standby, release of the converter and
    of the block, [free]. *)
Definition adev_close_output_stream (o : nat) (w : world) : world :=
  let '(_, w) := out_standby o w in
  match outs w !! o with
  | Some out =>
      let w := if o_resampler out then release_resampler w else w in
      set_outs (delete o (outs w)) w
  | None => w
  end.

Definition adev_close_input_stream (i : nat) (w : world) : world :=
  let '(_, w) := in_standby i w in
  match ins w !! i with
  | Some sin =>
      let w := if i_resampler sin then release_resampler w else w in
      set_ins (delete i (ins w)) w
  | None => w
  end.

(** ** The routing rule in the words of the specification *)

(** An output entry matches when the output selectors and the entry's
    mask have a bit in common; an input entry matches when they have
    one once the direction bit is cleared on both sides. *)
Definition entry_matches (out_dev in_dev : Z) (d : dev_name) : bool :=
  if negb (output_flag d =? 0)
  then negb (Z.land out_dev (mask d) =? 0)
  else negb (Z.land (Z.ldiff in_dev AUDIO_DEVICE_BIT_IN)
                    (Z.ldiff (mask d) AUDIO_DEVICE_BIT_IN) =? 0).

(** The latency of the specification, from the period geometry of the
    stream. *)
Definition geometry_latency (out : stream_out) : Z :=
  period_size (o_pcm_config out) * period_count (o_pcm_config out) * 1000
    / rate (o_pcm_config out).

(** Two rates are of incompatible families when one is a multiple of
    8000 and the other is not, or one is a multiple of 11025 and the
    other is not. *)
Definition incompatible_rates (a b : Z) : bool :=
  xorb (a mod 8000 =? 0) (b mod 8000 =? 0)
  || xorb (a mod 11025 =? 0) (b mod 11025 =? 0).

(** The rates of the five endpoint configurations of the file. *)
Definition endpoint_rates : list Z :=
  map rate [pcm_config_out; pcm_config_out_lp; pcm_config_in; pcm_config_sco;
            pcm_config_hdmi].

(** What [start_output_stream] and [start_input_stream] call after
    [pcm_open] has returned [p]: the close of a handle that is not
    ready, or else the reset of the converter when there is one. *)
Definition after_open (p : option pcm) (resampler : bool) : list event :=
  if open_failed p then [EvPcmClose p]
  else if resampler then [EvResamplerReset] else [].


(** The hardware reads of a trace: the handle, the byte count and the
    status. *)
Definition reads_of (t : list event) : list (option pcm * Z * Z) :=
  omap (fun e =>
          match e with
          | EvPcmRead p count res => Some (p, count, res)
          | _ => None
          end) t.



(** A converter whose every [resample_from_provider] call reports at
    least one frame. *)
Inductive makes_progress : puller -> Prop :=
  | mp_done out frames_rd : 1 <= frames_rd -> makes_progress (PullDone out frames_rd)
  | mp_next n consumed k :
      (forall pv, makes_progress (k pv)) -> makes_progress (PullNext n consumed k).


(** ** The retry of [out_write], in the terms of the specification *)

(** What a trace does to the endpoints: opens, closes, and writes with
    the block the bytes came from, the bytes, the count and the
    status. *)
Inductive endpoint_step :=
  | StOpen
  | StClose
  | StWrite (src : region) (data : block) (count res : Z).

Definition endpoint_steps (t : list event) : list endpoint_step :=
  omap (fun e =>
          match e with
          | EvPcmOpen _ _ _ _ _ => Some StOpen
          | EvPcmClose _ => Some StClose
          | EvPcmWrite _ src data count res => Some (StWrite src data count res)
          | _ => None
          end) t.

(** The ring size of the geometry of a stream, and the write threshold
    that [start_output_stream] gives it away from HDMI. *)
Definition ring_size (out : stream_out) : Z :=
  period_size (o_pcm_config out) * period_count (o_pcm_config out).

Definition started_threshold (out : stream_out) : Z :=
  if negb (o_low_power out =? 0)
  then PLAYBACK_PERIOD_COUNT * LONG_PERIOD_SIZE
  else PLAYBACK_PERIOD_COUNT * SHORT_PERIOD_SIZE.

(** A playback stream that needs neither the converter nor the channel
    reduction: its endpoint is at the reference rate with two channels,
    and the output is not routed to HDMI. *)
Definition plain_playback (out : stream_out) (w : world) : Prop :=
  rate (o_pcm_config out) = OUT_SAMPLING_RATE
  /\ channels (o_pcm_config out) = 2
  /\ Z.land (out_device (adev w)) AUDIO_DEVICE_OUT_AUX_DIGITAL = 0.

(** An endpoint that opens whenever asked. *)
Definition endpoint_reopens (e : environment) : Prop :=
  forall k, pcm_open_result e k = OpenReady.

(** At every poll the time stamp is missing or the ring, of [size]
    frames, holds no more than [threshold] frames. *)
Definition ring_below (e : environment) (size threshold : Z) : Prop :=
  forall k,
    (pcm_get_htimestamp_result e k).1 < 0
    \/ to_int32 (size - (pcm_get_htimestamp_result e k).2) <= threshold.

(** At every poll of a call of [out_write] on [out] the ring is not
    above the write threshold: the ring and the threshold that a start
    gives the stream away from HDMI, and, for a stream that is running,
    those it has. *)
Definition ring_calm (e : environment) (out : stream_out) : Prop :=
  ring_below e (ring_size out) (started_threshold out)
  /\ (o_standby out = false ->
      ring_below e (pcm_get_buffer_size (o_pcm out)) (o_write_threshold out)).

(** The [n] first writes from the [from]-th on fail with [-EPIPE] and
    the next one succeeds. *)
Definition underruns (e : environment) (from n : nat) : Prop :=
  (forall k, (k < n)%nat -> pcm_mmap_write_result e (from + k) = - EPIPE)
  /\ pcm_mmap_write_result e (from + n) = 0.

(** The part of the world that a write attempt on such a stream does
    not touch. *)
Definition same_setting (w w1 : world) : Prop :=
  env w1 = env w /\ ins w1 = ins w /\ outs w1 = outs w
  /\ out_device (adev w1) = out_device (adev w)
  /\ active_in (adev w1) = active_in (adev w).

(** The calls that a trace makes on the endpoints, [pcm_open],
    [pcm_close] and [pcm_mmap_write], with their handles. *)
Definition is_endpoint_event (e : event) : bool :=
  match e with
  | EvPcmOpen _ _ _ _ _ | EvPcmClose _ | EvPcmWrite _ _ _ _ _ => true
  | _ => false
  end.

Definition endpoint_events (t : list event) : list event :=
  List.filter is_endpoint_event t.

(** The device and the geometry that [start_output_stream] opens for a
    stream away from HDMI, and the handle with the number [id] on
    them. *)
Definition started_device (out : stream_out) : Z :=
  if negb (o_low_power out =? 0) then PCM_DEVICE_MM_LP else PCM_DEVICE_DEFAULT_OUT.

Definition started_config (out : stream_out) : pcm_config :=
  if negb (o_low_power out =? 0)
  then set_avail_min LONG_PERIOD_SIZE
         (set_start_threshold (LONG_PERIOD_SIZE * 2) (o_pcm_config out))
  else set_avail_min SHORT_PERIOD_SIZE
         (set_start_threshold (SHORT_PERIOD_SIZE * 2) (o_pcm_config out)).

Definition playback_handle (device : Z) (cfg : pcm_config) (id : nat) : pcm :=
  {| pcm_id := id; pcm_card := PCM_CARD_DEFAULT; pcm_device := device;
     pcm_dir := PCM_OUT_MMAP; pcm_cfg := cfg; pcm_ready := true |}.

Definition playback_open (device : Z) (cfg : pcm_config) (id : nat) : event :=
  EvPcmOpen PCM_CARD_DEFAULT device PCM_OUT_MMAP cfg (Some (playback_handle device cfg id)).

(** The close that the start of a playback at the reference rate forces
    on the capture stream, when one is running at a rate of the other
    family. *)
Definition forced_capture_close (w : world) : list event :=
  match active_in (adev w) with
  | Some i =>
      match ins w !! i with
      | Some sin =>
          if rate_conflict OUT_SAMPLING_RATE (rate (i_pcm_config sin))
             && negb (i_standby sin)
          then [EvPcmClose (i_pcm sin)] else []
      | None => []
      end
  | None => []
  end.

(** The endpoint calls of an [out_write] whose [n] first writes fail
    with [-EPIPE] and whose next write succeeds.  A stream in
    [standby] is started: the capture is closed if it must be
    ([forced]) and the handle number [id] is opened.  The block is
    written to the handle of the stream, [p] if it was running.  After
    a write that fails that handle is closed, and the same goes on from
    a stream in standby. *)
Fixpoint retry_events (device : Z) (cfg : pcm_config) (data : block) (count : Z)
    (forced : list event) (standby : bool) (p : option pcm) (id : nat) (n : nat)
    : list event :=
  let opens := if standby then forced ++ [playback_open device cfg id] else [] in
  let p1 := if standby then Some (playback_handle device cfg id) else p in
  let id1 := if standby then S id else id in
  let forced1 := if standby then [] else forced in
  opens ++
  match n with
  | O => [EvPcmWrite p1 ClientBuffer data count 0]
  | S m =>
      EvPcmWrite p1 ClientBuffer data count (- EPIPE) :: EvPcmClose p1
      :: retry_events device cfg data count forced1 true None id1 m
  end.

(** ** Worlds to run the functions in *)

(** An endpoint that opens, takes every write and has an empty ring; a
    converter that can be created, and that in push mode turns frames at
    44100 Hz into frames at 48000 Hz, as many as fit in the output block,
    every byte of them being [0x55]. *)
Definition env_ok : environment :=
  {| pcm_open_result := fun _ => OpenReady;
     pcm_mmap_write_result := fun _ => 0;
     pcm_read_result := fun _ => (0, []);
     pcm_get_htimestamp_result :=
       fun _ => (0, LONG_PERIOD_SIZE * PLAYBACK_PERIOD_COUNT);
     create_resampler_result := fun _ => 0;
     malloc_result := fun _ => true;
     resample_from_input_result :=
       fun _ _ in_frames out_frames =>
         let produced := Z.min out_frames (in_frames * 48000 / 44100) in
         let consumed := Z.min in_frames (produced * 44100 / 48000) in
         (replicate (Z.to_nat (produced * 4)) 0x55, consumed, produced);
     resample_from_provider_result := fun _ frames => PullDone [] frames |}.

Definition no_calls : counters :=
  {| n_open := 0; n_write := 0; n_read := 0; n_htimestamp := 0;
     n_create := 0; n_malloc := 0; n_push := 0; n_pull := 0 |}.

(** The world after [adev_open], in the environment [e]. *)
Definition boot (e : environment) : world :=
  {| adev := adev_open; outs := ∅; ins := ∅; env := e; calls := no_calls; trace := [] |}.

(** [AUDIO_DEVICE_OUT_ALL] and [AUDIO_DEVICE_IN_ALL] as Android 4.2
    defines them. *)
Definition all_out_devices : Z := 0x4000FFFF.
Definition all_in_devices : Z := 0xC0001FFF.

(** After [adev_open_output_stream] for the speaker: a low-latency
    stream, and a deep-buffer one. *)
Definition world_low_latency (e : environment) : world :=
  (adev_open_output_stream all_out_devices AUDIO_DEVICE_OUT_SPEAKER 0 (boot e)).2.

Definition world_deep_buffer (e : environment) : world :=
  (adev_open_output_stream all_out_devices AUDIO_DEVICE_OUT_SPEAKER
     AUDIO_OUTPUT_FLAG_DEEP_BUFFER (boot e)).2.

(** After [adev_open_output_stream] for the HDMI output. *)
Definition world_hdmi (e : environment) : world :=
  (adev_open_output_stream all_out_devices AUDIO_DEVICE_OUT_AUX_DIGITAL 0 (boot e)).2.

(** After an output stream for the speaker and an input stream for the
    built-in microphone, asked for [sample_rate], are opened. *)
Definition world_duplex (e : environment) (sample_rate : Z) : world :=
  (adev_open_input_stream all_in_devices AUDIO_DEVICE_IN_BUILTIN_MIC
     AUDIO_CHANNEL_IN_MONO sample_rate (world_low_latency e)).2.

(** The streams that these calls make. *)
Definition low_latency_stream : stream_out :=
  {| o_pcm := None; o_pcm_config := pcm_config_out; o_standby := true;
     o_resampler := false; o_buffer := None; o_write_threshold := 0;
     o_low_power := 0 |}.

Definition deep_buffer_stream : stream_out :=
  {| o_pcm := None; o_pcm_config := pcm_config_out_lp; o_standby := true;
     o_resampler := false; o_buffer := None; o_write_threshold := 0;
     o_low_power := 1 |}.

Definition capture_stream_44100 : stream_in :=
  {| i_pcm := None; i_pcm_config := pcm_config_in; i_standby := true;
     i_requested_rate := 44100; i_resampler := false;
     i_buffer := Some (replicate 3840 0); i_frames_in := 0; i_read_status := 0 |}.

(** The sleep of a call of [out_write] that failed, in microseconds:
    the product is taken on 32 bits, then divided by the four bytes of
    a frame and by the rate. *)
Definition absorbed_sleep (bytes : Z) : Z :=
  (bytes * 1000000) mod 2 ^ 32 / 4 / 44100.

(** A byte count of 32 bits read as a [ssize_t]: the count itself
    below [2 ^ 31], and a negative number from there. *)
Definition returned_count (bytes : Z) : Z :=
  if bytes <? 2 ^ 31 then bytes else bytes - 2 ^ 32.

(** [env_ok] with an endpoint that never opens: every handle that
    [pcm_open] returns is not ready. *)
Definition env_no_endpoint : environment :=
  {| pcm_open_result := fun _ => OpenNotReady;
     pcm_mmap_write_result := pcm_mmap_write_result env_ok;
     pcm_read_result := pcm_read_result env_ok;
     pcm_get_htimestamp_result := pcm_get_htimestamp_result env_ok;
     create_resampler_result := create_resampler_result env_ok;
     malloc_result := malloc_result env_ok;
     resample_from_input_result := resample_from_input_result env_ok;
     resample_from_provider_result := resample_from_provider_result env_ok |}.

(** [env_ok] with an endpoint whose first [n] writes fail with
    [-EPIPE]. *)
Definition env_underrun (n : nat) : environment :=
  {| pcm_open_result := pcm_open_result env_ok;
     pcm_mmap_write_result := fun k => if (k <? n)%nat then - EPIPE else 0;
     pcm_read_result := pcm_read_result env_ok;
     pcm_get_htimestamp_result := pcm_get_htimestamp_result env_ok;
     create_resampler_result := create_resampler_result env_ok;
     malloc_result := malloc_result env_ok;
     resample_from_input_result := resample_from_input_result env_ok;
     resample_from_provider_result := resample_from_provider_result env_ok |}.

(** ** Observations *)

(** The writes of a trace: where the bytes came from, the bytes, the
    count asked for and the status. *)
Definition writes_of (t : list event) : list (region * block * Z * Z) :=
  omap (fun e =>
          match e with
          | EvPcmWrite _ src data count res => Some (src, data, count, res)
          | _ => None
          end) t.

(** The handles closed in a trace. *)
Definition closes_of (t : list event) : list (option pcm) :=
  omap (fun e => match e with EvPcmClose p => Some p | _ => None end) t.

(** A client block of [n] bytes, each of them 1. *)
Definition client_block (n : Z) : block := replicate (Z.to_nat n) 1.

(** The geometry that [start_output_stream] gives a low-latency
    stream. *)
Definition pcm_config_out_started : pcm_config :=
  set_avail_min SHORT_PERIOD_SIZE (set_start_threshold (SHORT_PERIOD_SIZE * 2) pcm_config_out).









(** The world after a call of [out_write] or [in_read], or the world
    before it when the call has no result. *)
Definition after (w : world) (r : option (Z * block * world)) : world :=
  match r with Some (_, _, w') => w' | None => w end.

(** A capture from the Bluetooth SCO headset, asked for 8000 Hz, is
    running beside a playback stream that is in standby. *)
Definition world_capturing_sco : world :=
  let w := (adev_open_input_stream all_in_devices AUDIO_DEVICE_IN_BLUETOOTH_SCO_HEADSET
              AUDIO_CHANNEL_IN_MONO 8000 (world_low_latency env_ok)).2 in
  after w (in_read 2 0 (client_block 16) 16 w).

Definition capture_sco_running : stream_in :=
  default capture_stream_44100 (ins world_capturing_sco !! 0%nat).

(** The same when the [n] first writes of the playback endpoint will
    fail with [-EPIPE]. *)
Definition world_capturing_sco_underrun (n : nat) : world :=
  let w := (adev_open_input_stream all_in_devices AUDIO_DEVICE_IN_BLUETOOTH_SCO_HEADSET
              AUDIO_CHANNEL_IN_MONO 8000 (world_low_latency (env_underrun n))).2 in
  after w (in_read 2 0 (client_block 16) 16 w).

(** A playback to the speaker is running when a capture stream for the
    Bluetooth SCO headset is opened. *)
Definition world_playing : world :=
  let w := world_low_latency env_ok in
  (adev_open_input_stream all_in_devices AUDIO_DEVICE_IN_BLUETOOTH_SCO_HEADSET
     AUDIO_CHANNEL_IN_MONO 8000 (after w (out_write 2 0 (client_block 16) 16 w))).2.

Definition playback_running : stream_out :=
  default low_latency_stream (outs world_playing !! 0%nat).

Definition capture_sco_opened : stream_in :=
  default capture_stream_44100 (ins world_playing !! 0%nat).

(** * The rest of the file *)

(** ** Buffer sizes *)

(** [out_get_buffer_size]: the frames of one short period at the
    client's rate, rounded up to a multiple of 16, in bytes. *)
Definition out_get_buffer_size (out : stream_out) : Z :=
  let size := wrap32 (SHORT_PERIOD_SIZE * OUT_SAMPLING_RATE) / rate (o_pcm_config out) in
  let size := wrap32 (wrap32 (size + 15) / 16 * 16) in
  wrap32 (size * audio_stream_frame_size out_get_channels).

Definition in_get_buffer_size (sin : stream_in) : Z :=
  let size :=
    wrap32 (period_size (i_pcm_config sin) * in_get_sample_rate sin)
      / rate (i_pcm_config sin) in
  let size := wrap32 (wrap32 (size + 15) / 16 * 16) in
  wrap32 (size * audio_stream_frame_size in_get_channels).

(** [adev_get_input_buffer_size], for the [sample_rate] and the
    [channel_mask] of the configuration; [bytes_per_sample] is what
    [audio_bytes_per_sample] answers for its format. *)
Definition adev_get_input_buffer_size (sample_rate channel_mask bytes_per_sample : Z) : Z :=
  let size := wrap32 (period_size pcm_config_in * sample_rate) / rate pcm_config_in in
  let size := wrap32 (wrap32 (size + 15) / 16 * 16) in
  wrap32 (wrap32 (size * popcount channel_mask) * bytes_per_sample).

(** ** Parameters *)

Definition set_orientation (v : orientation_t) (a : audio_device) : audio_device :=
  {| out_device := out_device a; in_device := in_device a; mic_mute := mic_mute a;
     orientation := v; low_power := low_power a;
     active_out := active_out a; active_in := active_in a |}.

Definition set_low_power (v : bool) (a : audio_device) : audio_device :=
  {| out_device := out_device a; in_device := in_device a; mic_mute := mic_mute a;
     orientation := orientation a; low_power := v;
     active_out := active_out a; active_in := active_in a |}.

(** [out_set_parameters].  The parsing of [kvpairs] is not of the file:
    [ret] is what [str_parms_get_str] returns for the routing key and
    [value] what [atoi] makes of the string it has stored. *)
Definition out_set_parameters (o : nat) (ret value : Z) (w : world) : Z * world :=
  if ret >=? 0 then
    let val := wrap32 value in
    if negb (out_device (adev w) =? val) && negb (val =? 0) then
      let w :=
        if negb (Z.lxor (Z.land val AUDIO_DEVICE_OUT_ALL_SCO)
                        (Z.land (out_device (adev w)) AUDIO_DEVICE_OUT_ALL_SCO) =? 0) then
          match outs w !! o with
          | Some out =>
              let '(out, w) := do_out_standby out w in
              set_outs (<[o := out]> (outs w)) w
          | None => w
          end
        else w in
      let w := set_adev (set_out_device val (adev w)) w in
      (ret, select_devices w)
    else (ret, w)
  else (ret, w).

(** [in_set_parameters]: the direction bit is taken off the value. *)
Definition in_set_parameters (i : nat) (ret value : Z) (w : world) : Z * world :=
  if ret >=? 0 then
    let val := Z.ldiff (wrap32 value) AUDIO_DEVICE_BIT_IN in
    if negb (in_device (adev w) =? val) && negb (val =? 0) then
      let w :=
        if negb (Z.lxor (Z.land val AUDIO_DEVICE_IN_ALL_SCO)
                        (Z.land (in_device (adev w)) AUDIO_DEVICE_IN_ALL_SCO) =? 0) then
          match ins w !! i with
          | Some sin =>
              let '(sin, w) := do_in_standby sin w in
              set_ins (<[i := sin]> (ins w)) w
          | None => w
          end
        else w in
      let w := set_adev (set_in_device val (adev w)) w in
      (ret, select_devices w)
    else (ret, w)
  else (ret, w).

Definition orientation_eqb (a b : orientation_t) : bool :=
  match a, b with
  | ORIENTATION_LANDSCAPE, ORIENTATION_LANDSCAPE
  | ORIENTATION_PORTRAIT, ORIENTATION_PORTRAIT
  | ORIENTATION_SQUARE, ORIENTATION_SQUARE
  | ORIENTATION_UNDEFINED, ORIENTATION_UNDEFINED => true
  | _, _ => false
  end.

(** The orientation that [adev_set_parameters] reads in a value. *)
Definition parse_orientation (value : string) : orientation_t :=
  if String.eqb value "landscape" then ORIENTATION_LANDSCAPE
  else if String.eqb value "portrait" then ORIENTATION_PORTRAIT
  else if String.eqb value "square" then ORIENTATION_SQUARE
  else ORIENTATION_UNDEFINED.

(** [AUDIO_PARAMETER_VALUE_ON] of [hardware/audio.h]. *)
Definition AUDIO_PARAMETER_VALUE_ON : string := "on".

(** [adev_set_parameters]: [orientation_key] and [screen_state_key] are
    what the two calls of [str_parms_get_str] give, the status and the
    string stored. *)
Definition adev_set_parameters (orientation_key screen_state_key : Z * string) (w : world)
    : Z * world :=
  let '(ret, value) := orientation_key in
  let w :=
    if ret >=? 0 then
      let o := parse_orientation value in
      if negb (orientation_eqb o (orientation (adev w))) then
        let w := set_adev (set_orientation o (adev w)) w in
        select_devices w
      else w
    else w in
  let '(ret, value) := screen_state_key in
  let w :=
    if ret >=? 0 then
      if String.eqb value AUDIO_PARAMETER_VALUE_ON
      then set_adev (set_low_power false (adev w)) w
      else set_adev (set_low_power true (adev w)) w
    else w in
  (ret, w).

(** [adev_get_supported_devices]: [paths] are the names of the mixer
    paths of the route, in their order; for each of them the mask of
    the first entry of [dev_names] with that name is added. *)
Definition adev_get_supported_devices (paths : list string) : Z :=
  foldl (fun supported path =>
           match List.find (fun d => String.eqb path (name d)) dev_names with
           | Some d => Z.lor supported (wrap32 (mask d))
           | None => supported
           end) 0 paths.

Definition adev_get_mic_mute (w : world) : Z * bool := (0, mic_mute (adev w)).

(** ** Descriptions used by the statements *)

(** The calls that program the mixer for the selectors [out_dev] and
    [in_dev]. *)
Definition mixer_program (out_dev in_dev : Z) : list event :=
  EvResetMixer
    :: map (fun d => EvApplyPath (name d))
         (List.filter (entry_matches out_dev in_dev) dev_names)
    ++ [EvUpdateMixer].

(** The stream after a forced standby. *)
Definition closed_out (out : stream_out) : stream_out :=
  set_o_standby true (set_o_pcm None out).

Definition closed_in (sin : stream_in) : stream_in :=
  set_i_standby true (set_i_pcm None sin).

(** At the [k]-th poll of the time stamp the ring of [out] holds more
    frames than the write threshold. *)
Definition ring_over (e : environment) (out : stream_out) (k : nat) : Prop :=
  0 <= (pcm_get_htimestamp_result e k).1
  /\ o_write_threshold out
     < to_int32 (pcm_get_buffer_size (o_pcm out) - (pcm_get_htimestamp_result e k).2).

(** The time that the frames over the threshold at the [k]-th poll
    take at 48000 Hz, and at least [MIN_WRITE_SLEEP_US]. *)
Definition throttle_sleep (e : environment) (out : stream_out) (k : nat) : Z :=
  Z.max MIN_WRITE_SLEEP_US
    (wrap32 ((to_int32 (pcm_get_buffer_size (o_pcm out) - (pcm_get_htimestamp_result e k).2)
              - o_write_threshold out) * 1000000 ÷ MM_FULL_POWER_SAMPLING_RATE)).

(** The sleeps of a trace. *)
Definition sleeps_of (t : list event) : list Z :=
  omap (fun e => match e with EvUsleep usecs => Some usecs | _ => None end) t.

(** The [i]-th [int16_t] of a block, as its two bytes. *)
Definition sample (b : block) (i : nat) : Z * Z :=
  (b !!! (2 * i)%nat, b !!! (2 * i + 1)%nat).

(** ** Scenarios *)

(** A capture from the built-in microphone, asked for 44100 Hz, is
    running beside a playback stream that is in standby. *)
Definition world_capturing_mic : world :=
  let w := world_duplex env_ok 44100 in
  after w (in_read 2 0 (client_block 16) 16 w).

Definition capture_mic_running : stream_in :=
  default capture_stream_44100 (ins world_capturing_mic !! 0%nat).

(** [env_ok] with a ring that is full at the polls that [full] tells,
    and empty at the others. *)
Definition env_ring (full : nat -> bool) : environment :=
  {| pcm_open_result := pcm_open_result env_ok;
     pcm_mmap_write_result := pcm_mmap_write_result env_ok;
     pcm_read_result := pcm_read_result env_ok;
     pcm_get_htimestamp_result :=
       fun k => if full k then (0, 0) else (0, LONG_PERIOD_SIZE * PLAYBACK_PERIOD_COUNT);
     create_resampler_result := create_resampler_result env_ok;
     malloc_result := malloc_result env_ok;
     resample_from_input_result := resample_from_input_result env_ok;
     resample_from_provider_result := resample_from_provider_result env_ok |}.

(** The ring is full at the second and the third poll; and from the
    second poll on. *)
Definition full_twice (k : nat) : bool := (1 <=? k)%nat && (k <? 3)%nat.
Definition full_for_ever (k : nat) : bool := (1 <=? k)%nat.

(** A playback to HDMI is running: one block is written, with the
    ring empty at the first poll. *)
Definition world_hdmi_playing (full : nat -> bool) : world :=
  let w := world_hdmi (env_ring full) in
  after w (out_write 2 0 (client_block 16) 16 w).

Definition hdmi_stream_running : stream_out :=
  default low_latency_stream (outs (world_hdmi_playing full_twice) !! 0%nat).

(** [env_ok] with an endpoint that captures the bytes [data] at every
    read. *)
Definition env_capture (data : block) : environment :=
  {| pcm_open_result := pcm_open_result env_ok;
     pcm_mmap_write_result := pcm_mmap_write_result env_ok;
     pcm_read_result := fun _ => (0, data);
     pcm_get_htimestamp_result := pcm_get_htimestamp_result env_ok;
     create_resampler_result := create_resampler_result env_ok;
     malloc_result := malloc_result env_ok;
     resample_from_input_result := resample_from_input_result env_ok;
     resample_from_provider_result := resample_from_provider_result env_ok |}.

(** Stereo frames whose [k]-th byte is [k] modulo 256. *)
Definition counting_block (n : nat) : block :=
  (fun k => Z.of_nat k mod 256) <$> seq 0 n.

(** A capture from the built-in microphone at 44100 Hz has delivered
    one block. *)
Definition world_capturing_stereo : world :=
  let w := world_duplex (env_capture (counting_block 3840)) 44100 in
  after w (in_read 1 0 (client_block 16) 16 w).

Definition capture_stereo_running : stream_in :=
  default capture_stream_44100 (ins world_capturing_stereo !! 0%nat).

Definition capture_stereo_handle : pcm :=
  opened PCM_CARD_DEFAULT PCM_DEVICE_DEFAULT_IN PCM_IN pcm_config_in true
    (world_duplex (env_capture (counting_block 3840)) 44100).

Definition capture_stereo_block : block :=
  default [] (i_buffer capture_stereo_running).

(** Two playbacks to the speaker are running, a low-latency one and a
    deep-buffer one, the second being the one started last, when a
    capture stream for the Bluetooth SCO headset is opened. *)
Definition world_two_playing : world :=
  let w0 := world_low_latency env_ok in
  let w1 := (adev_open_output_stream all_out_devices AUDIO_DEVICE_OUT_SPEAKER
               AUDIO_OUTPUT_FLAG_DEEP_BUFFER w0).2 in
  let w2 := after w1 (out_write 2 0 (client_block 16) 16 w1) in
  let w3 := after w2 (out_write 2 1 (client_block 16) 16 w2) in
  (adev_open_input_stream all_in_devices AUDIO_DEVICE_IN_BLUETOOTH_SCO_HEADSET
     AUDIO_CHANNEL_IN_MONO 8000 w3).2.

Definition first_playing : stream_out :=
  default low_latency_stream (outs world_two_playing !! 0%nat).

Definition second_playing : stream_out :=
  default deep_buffer_stream (outs world_two_playing !! 1%nat).

Definition sco_capture_opened : stream_in :=
  default capture_stream_44100 (ins world_two_playing !! 0%nat).

(** After [adev_open_output_stream] for the Bluetooth SCO output. *)
Definition world_sco_out (e : environment) : world :=
  (adev_open_output_stream all_out_devices AUDIO_DEVICE_OUT_BLUETOOTH_SCO 0 (boot e)).2.

(** The capture stream of [world_duplex] when 8000 Hz are asked for. *)
Definition capture_stream_8000 : stream_in :=
  default capture_stream_44100 (ins (world_duplex env_ok 8000) !! 0%nat).

(** [env_ok] where only the first allocation succeeds. *)
Definition env_one_malloc : environment :=
  {| pcm_open_result := pcm_open_result env_ok;
     pcm_mmap_write_result := pcm_mmap_write_result env_ok;
     pcm_read_result := pcm_read_result env_ok;
     pcm_get_htimestamp_result := pcm_get_htimestamp_result env_ok;
     create_resampler_result := create_resampler_result env_ok;
     malloc_result := fun k => (k =? 0)%nat;
     resample_from_input_result := resample_from_input_result env_ok;
     resample_from_provider_result := resample_from_provider_result env_ok |}.

(** After an open of a capture stream that fails for want of memory
    for the buffer. *)
Definition world_failed_open : world :=
  (adev_open_input_stream all_in_devices AUDIO_DEVICE_IN_BACK_MIC AUDIO_CHANNEL_IN_MONO
     44100 (boot env_one_malloc)).2.

(** * Theorems *)

(** ** Numbers of 32 bits *)

Lemma wrap32_range z : 0 <= wrap32 z < 2 ^ 32.
Proof. unfold wrap32. apply Z.mod_pos_bound. lia. Qed.

Lemma wrap32_small z : 0 <= z < 2 ^ 32 -> wrap32 z = z.
Proof. intros H. unfold wrap32. apply Z.mod_small. exact H. Qed.

(** A [size_t] returned as a [ssize_t]. *)
Lemma to_int32_returned_count bytes :
  0 <= bytes < 2 ^ 32 -> to_int32 bytes = returned_count bytes.
Proof.
  intros H. unfold to_int32, returned_count. now rewrite wrap32_small.
Qed.

Lemma returned_count_small bytes : bytes < 2 ^ 31 -> returned_count bytes = bytes.
Proof.
  intros H. unfold returned_count. destruct (Z.ltb_spec bytes (2 ^ 31)); [reflexivity | lia].
Qed.

Lemma absorbed_sleep_bound bytes : 0 <= absorbed_sleep bytes <= 24347.
Proof.
  unfold absorbed_sleep.
  pose proof (Z.mod_pos_bound (bytes * 1000000) (2 ^ 32) ltac:(lia)) as H.
  rewrite Z.div_div by lia. split.
  - apply Z.div_pos; lia.
  - assert ((bytes * 1000000) mod 2 ^ 32 / (4 * 44100) < 24348); [|lia].
    apply Z.div_lt_upper_bound; lia.
Qed.

(** The sleep at the label [exit] of [out_write]: the cap at 999999 is
    never reached. *)
Lemma out_write_exit_failed bytes l w :
  l_ret l <> 0 -> out_write_exit bytes l w = usleep (absorbed_sleep bytes) w.
Proof.
  intros Hret. unfold out_write_exit.
  destruct (Z.eqb_spec (l_ret l) 0) as [E|_]; [contradiction|]. cbn [negb]. f_equal.
  pose proof (absorbed_sleep_bound bytes) as H. unfold absorbed_sleep in *.
  change (audio_stream_frame_size out_get_channels) with 4.
  change out_get_sample_rate with 44100. unfold wrap32. cbn zeta.
  destruct (Z.geb_spec ((bytes * 1000000) mod 2 ^ 32 / 4 / 44100) 1000000); [lia | reflexivity].
Qed.

Lemma out_write_exit_passed bytes l w : l_ret l = 0 -> out_write_exit bytes l w = w.
Proof. intros Hret. unfold out_write_exit. now rewrite Hret. Qed.

(** ** Routing *)

(** A mask below 2^31 sees only the low 31 bits. *)
Lemma land_low31 x y k :
  x mod 2 ^ 31 = y mod 2 ^ 31 -> 0 <= k < 2 ^ 31 -> Z.land x k = Z.land y k.
Proof.
  intros Hxy Hk.
  assert (Hk' : k = Z.land (Z.ones 31) k).
  { rewrite Z.land_comm, Z.land_ones by lia. symmetry. apply Z.mod_small. lia. }
  rewrite Hk', !Z.land_assoc, !Z.land_ones by lia. now rewrite Hxy.
Qed.

Lemma sub_bit_in_low31 i : wrap32 (i - AUDIO_DEVICE_BIT_IN) mod 2 ^ 31 = i mod 2 ^ 31.
Proof.
  unfold wrap32, AUDIO_DEVICE_BIT_IN.
  rewrite Z.mod_mod_divide by (exists 2; lia).
  replace (i - 0x80000000) with (i + (-1) * 2 ^ 31) by lia. apply Z.mod_add. lia.
Qed.

Lemma ldiff_bit_in_low31 i : Z.ldiff i AUDIO_DEVICE_BIT_IN mod 2 ^ 31 = i mod 2 ^ 31.
Proof.
  rewrite <- !Z.land_ones by lia.
  apply Z.bits_inj'. intros n Hn.
  rewrite !Z.land_spec, Z.ldiff_spec.
  destruct (Z.ltb_spec n 31).
  - change AUDIO_DEVICE_BIT_IN with (2 ^ 31). rewrite Z.pow2_bits_false by lia.
    now rewrite andb_true_r.
  - rewrite Z.ones_spec_high by lia. now rewrite !andb_false_r.
Qed.

Lemma input_entry_matches i k :
  0 <= k < 2 ^ 31 ->
  Z.land (wrap32 (i - AUDIO_DEVICE_BIT_IN)) k = Z.land (Z.ldiff i AUDIO_DEVICE_BIT_IN) k.
Proof.
  intros Hk. apply land_low31; [|exact Hk].
  now rewrite sub_bit_in_low31, ldiff_bit_in_low31.
Qed.

(** On the entries of the table the test of the code is the test of
    the specification. *)
Lemma select_devices_step_matches w d :
  In d dev_names ->
  select_devices_step w d =
    if entry_matches (out_device (adev w)) (in_device (adev w)) d
    then audio_route_apply_path (name d) w else w.
Proof.
  intros Hd. unfold dev_names in Hd. simpl in Hd.
  unfold select_devices_step, entry_matches.
  repeat (destruct Hd as [<- | Hd];
    [ cbn [output_flag mask name Z.eqb negb];
      try rewrite input_entry_matches by (vm_compute; split; congruence);
      reflexivity | ]).
  destruct Hd.
Qed.

Lemma foldl_select_devices_step l : forall w,
  (forall d, In d l -> In d dev_names) ->
  adev (foldl select_devices_step w l) = adev w /\
  outs (foldl select_devices_step w l) = outs w /\
  ins (foldl select_devices_step w l) = ins w /\
  calls (foldl select_devices_step w l) = calls w /\
  env (foldl select_devices_step w l) = env w /\
  trace (foldl select_devices_step w l) =
    trace w ++ map (fun d => EvApplyPath (name d))
      (List.filter (entry_matches (out_device (adev w)) (in_device (adev w))) l).
Proof.
  induction l as [|d l IH]; intros w Hl; cbn [foldl List.filter map].
  - rewrite app_nil_r. repeat split.
  - rewrite select_devices_step_matches by (apply Hl; now left).
    destruct (entry_matches _ _ d) eqn:E.
    + destruct (IH (audio_route_apply_path (name d) w)) as (Ha & Ho & Hi & Hc & He & Ht).
      { intros; apply Hl; now right. }
      cbn [audio_route_apply_path log adev outs ins calls env trace] in *.
      rewrite Ha, Ho, Hi, Hc, He, Ht. repeat split.
      now rewrite <- app_assoc.
    + now apply IH; intros; apply Hl; right.
Qed.

Lemma trace_log e w : trace (log e w) = trace w ++ [e].
Proof. reflexivity. Qed.

Lemma adev_log e w : adev (log e w) = adev w.
Proof. reflexivity. Qed.

Lemma outs_log e w : outs (log e w) = outs w.
Proof. reflexivity. Qed.

Lemma ins_log e w : ins (log e w) = ins w.
Proof. reflexivity. Qed.

(** C5: whatever the output and input selectors of the device,
    [select_devices] resets the mixer, applies the path of every entry
    of [dev_names] that matches, in the order of the table and through
    the whole table, and updates the mixer; an output entry matches
    when the output selectors and its mask have a bit in common, an
    input entry when the input selectors and its mask have one once the
    direction bit is cleared on both sides.  It opens and closes
    nothing: the device and the streams are as before. *)
Theorem select_devices_applies_every_match (w : world) :
  trace (select_devices w) =
    trace w ++ [EvResetMixer]
      ++ map (fun d => EvApplyPath (name d))
           (List.filter (entry_matches (out_device (adev w)) (in_device (adev w)))
              dev_names)
      ++ [EvUpdateMixer]
  /\ adev (select_devices w) = adev w
  /\ outs (select_devices w) = outs w
  /\ ins (select_devices w) = ins w.
Proof.
  unfold select_devices.
  destruct (foldl_select_devices_step dev_names (log EvResetMixer w))
    as (Ha & Ho & Hi & Hc & He & Ht); [auto|].
  rewrite trace_log, adev_log, outs_log, ins_log, Ht, Ha, Ho, Hi.
  rewrite trace_log, adev_log, outs_log, ins_log.
  repeat split. now rewrite <- !app_assoc.
Qed.

(** ** Latency *)

Lemma short_period_product :
  wrap32 (SHORT_PERIOD_SIZE * PLAYBACK_PERIOD_COUNT * 1000) =
  SHORT_PERIOD_SIZE * PLAYBACK_PERIOD_COUNT * 1000.
Proof. reflexivity. Qed.

(** C9, as amended: [out_get_latency] is [SHORT_PERIOD_SIZE *
    PLAYBACK_PERIOD_COUNT * 1000] divided by the endpoint rate of the
    stream, whatever the period geometry of the stream; it is the
    latency of the geometry when the geometry has the short period and
    the playback period count. *)
Theorem out_get_latency_short_period (out : stream_out) :
  out_get_latency out =
    SHORT_PERIOD_SIZE * PLAYBACK_PERIOD_COUNT * 1000 / rate (o_pcm_config out)
  /\ (period_size (o_pcm_config out) = SHORT_PERIOD_SIZE ->
      period_count (o_pcm_config out) = PLAYBACK_PERIOD_COUNT ->
      out_get_latency out = geometry_latency out).
Proof.
  unfold out_get_latency, geometry_latency. rewrite short_period_product.
  split; [reflexivity|]. intros -> ->. reflexivity.
Qed.

(** The low-latency stream has the short period: there the two
    latencies agree. *)
Lemma out_get_latency_short_period_witness :
  out_get_latency low_latency_stream = geometry_latency low_latency_stream.
Proof. apply (out_get_latency_short_period low_latency_stream); reflexivity. Defined.

(** C9 fails for a low-power stream: the stream that
    [adev_open_output_stream] makes for [AUDIO_OUTPUT_FLAG_DEEP_BUFFER]
    has the long period, its geometry gives 174 ms, and
    [out_get_latency] answers 87. *)
Lemma out_get_latency_deep_buffer_counterexample :
  exists out, outs (world_deep_buffer env_ok) !! 0%nat = Some out
    /\ o_low_power out = 1
    /\ period_size (o_pcm_config out) = LONG_PERIOD_SIZE
    /\ geometry_latency out = 174
    /\ out_get_latency out = 87
    /\ out_get_latency out <> geometry_latency out.
Proof.
  eexists. split; [vm_compute; reflexivity|].
  repeat split; try reflexivity. vm_compute. congruence.
Qed.

(** ** Standby *)

Lemma set_outs_id w : set_outs (outs w) w = w.
Proof. now destruct w. Qed.

Lemma set_ins_id w : set_ins (ins w) w = w.
Proof. now destruct w. Qed.

Lemma do_out_standby_standby out w :
  o_standby out = true -> do_out_standby out w = (out, w).
Proof. unfold do_out_standby. now intros ->. Qed.

Lemma do_in_standby_standby sin w :
  i_standby sin = true -> do_in_standby sin w = (sin, w).
Proof. unfold do_in_standby. now intros ->. Qed.

Lemma do_out_standby_result out w :
  o_standby (do_out_standby out w).1 = true
  /\ outs (do_out_standby out w).2 = outs w.
Proof.
  unfold do_out_standby. destruct (o_standby out) eqn:E; simpl; auto.
Qed.

Lemma do_in_standby_result sin w :
  i_standby (do_in_standby sin w).1 = true
  /\ ins (do_in_standby sin w).2 = ins w.
Proof.
  unfold do_in_standby. destruct (i_standby sin) eqn:E; simpl; auto.
Qed.

Lemma out_standby_standby o out w :
  outs w !! o = Some out -> o_standby out = true -> out_standby o w = (0, w).
Proof.
  intros Ho Hs. unfold out_standby. rewrite Ho, (do_out_standby_standby _ _ Hs).
  now rewrite (insert_id _ _ _ Ho), set_outs_id.
Qed.

Lemma in_standby_standby i sin w :
  ins w !! i = Some sin -> i_standby sin = true -> in_standby i w = (0, w).
Proof.
  intros Hi Hs. unfold in_standby. rewrite Hi, (do_in_standby_standby _ _ Hs).
  now rewrite (insert_id _ _ _ Hi), set_ins_id.
Qed.

Lemma out_standby_twice o w : out_standby o (out_standby o w).2 = out_standby o w.
Proof.
  unfold out_standby at 2 3. destruct (outs w !! o) as [out|] eqn:Ho.
  - destruct (do_out_standby out w) as [out' w'] eqn:E.
    pose proof (do_out_standby_result out w) as [Hs _]. rewrite E in Hs.
    cbn [fst snd] in *.
    apply (out_standby_standby o out'); [|exact Hs].
    cbn [set_outs outs]. apply lookup_insert_eq.
  - cbn [snd]. unfold out_standby. now rewrite Ho.
Qed.

Lemma in_standby_twice i w : in_standby i (in_standby i w).2 = in_standby i w.
Proof.
  unfold in_standby at 2 3. destruct (ins w !! i) as [sin|] eqn:Hi.
  - destruct (do_in_standby sin w) as [sin' w'] eqn:E.
    pose proof (do_in_standby_result sin w) as [Hs _]. rewrite E in Hs.
    cbn [fst snd] in *.
    apply (in_standby_standby i sin'); [|exact Hs].
    cbn [set_ins ins]. apply lookup_insert_eq.
  - cbn [snd]. unfold in_standby. now rewrite Hi.
Qed.

Lemma out_standby_returns_0 o w : (out_standby o w).1 = 0.
Proof.
  unfold out_standby. destruct (outs w !! o); [|reflexivity].
  now destruct (do_out_standby _ _).
Qed.

Lemma in_standby_returns_0 i w : (in_standby i w).1 = 0.
Proof.
  unfold in_standby. destruct (ins w !! i); [|reflexivity].
  now destruct (do_in_standby _ _).
Qed.

(** C10: [out_standby] and [in_standby] return 0; on a stream that is
    in standby they leave the whole world, so every field of the stream
    and of the device, as it is; and a second call in a row changes
    nothing more than the first. *)
Theorem standby_idempotent (w : world) (o i : nat) :
  (out_standby o w).1 = 0
  /\ (in_standby i w).1 = 0
  /\ (forall out, outs w !! o = Some out -> o_standby out = true ->
        (out_standby o w).2 = w)
  /\ (forall sin, ins w !! i = Some sin -> i_standby sin = true ->
        (in_standby i w).2 = w)
  /\ out_standby o (out_standby o w).2 = out_standby o w
  /\ in_standby i (in_standby i w).2 = in_standby i w.
Proof.
  split; [apply out_standby_returns_0|].
  split; [apply in_standby_returns_0|].
  split; [intros out Ho Hs; now rewrite (out_standby_standby o out w Ho Hs)|].
  split; [intros sin Hi Hs; now rewrite (in_standby_standby i sin w Hi Hs)|].
  split; [apply out_standby_twice | apply in_standby_twice].
Qed.

Lemma world_duplex_out :
  outs (world_duplex env_ok 44100) !! 0%nat = Some low_latency_stream.
Proof. vm_compute. reflexivity. Qed.

Lemma world_duplex_in :
  ins (world_duplex env_ok 44100) !! 0%nat = Some capture_stream_44100.
Proof. vm_compute. reflexivity. Qed.

(** Both streams of [world_duplex] are in standby. *)
Lemma standby_idempotent_witness :
  (out_standby 0 (world_duplex env_ok 44100)).2 = world_duplex env_ok 44100
  /\ (in_standby 0 (world_duplex env_ok 44100)).2 = world_duplex env_ok 44100.
Proof.
  split.
  - exact (proj1 (proj2 (proj2 (standby_idempotent (world_duplex env_ok 44100) 0 0)))
             low_latency_stream world_duplex_out eq_refl).
  - exact (proj1 (proj2 (proj2 (proj2 (standby_idempotent (world_duplex env_ok 44100) 0 0))))
             capture_stream_44100 world_duplex_in eq_refl).
Defined.

(** ** Starting a stream *)

Lemma out_standby_active_in_frame r w :
  env (out_standby_active_in r w) = env w
  /\ calls (out_standby_active_in r w) = calls w
  /\ outs (out_standby_active_in r w) = outs w
  /\ out_device (adev (out_standby_active_in r w)) = out_device (adev w)
  /\ active_out (adev (out_standby_active_in r w)) = active_out (adev w).
Proof.
  unfold out_standby_active_in.
  destruct (active_in (adev w)) as [i|]; [|auto].
  destruct (ins w !! i) as [sin|]; [|auto].
  destruct (rate_conflict _ _); [|auto].
  unfold do_in_standby. destruct (i_standby sin); simpl; auto.
Qed.

Lemma in_standby_active_out_frame r w :
  env (in_standby_active_out r w) = env w
  /\ calls (in_standby_active_out r w) = calls w
  /\ ins (in_standby_active_out r w) = ins w
  /\ in_device (adev (in_standby_active_out r w)) = in_device (adev w)
  /\ active_in (adev (in_standby_active_out r w)) = active_in (adev w).
Proof.
  unfold in_standby_active_out.
  destruct (active_out (adev w)) as [o|]; [|auto].
  destruct (outs w !! o) as [out|]; [|auto].
  destruct (rate_conflict _ _); [|auto].
  unfold do_out_standby. destruct (o_standby out); simpl; auto.
Qed.

Lemma out_select_geometry_keeps out w :
  o_standby (out_select_geometry out w).2 = o_standby out
  /\ o_resampler (out_select_geometry out w).2 = o_resampler out
  /\ o_pcm (out_select_geometry out w).2 = o_pcm out
  /\ o_low_power (out_select_geometry out w).2 = o_low_power out.
Proof.
  unfold out_select_geometry.
  destruct (negb (Z.land _ _ =? 0)); [simpl; auto|].
  destruct (negb (o_low_power out =? 0)); simpl; auto.
Qed.

Lemma pcm_open_not_ready card device flags cfg w :
  pcm_open_result (env w) (n_open (calls w)) = OpenNotReady ->
  pcm_open card device flags cfg w =
    (Some (opened card device flags cfg false w),
     log (EvPcmOpen card device flags cfg (Some (opened card device flags cfg false w)))
       (set_calls (next_open (calls w)) w)).
Proof. intros H. unfold pcm_open. now rewrite H. Qed.

Lemma pcm_open_ready card device flags cfg w :
  pcm_open_result (env w) (n_open (calls w)) = OpenReady ->
  pcm_open card device flags cfg w =
    (Some (opened card device flags cfg true w),
     log (EvPcmOpen card device flags cfg (Some (opened card device flags cfg true w)))
       (set_calls (next_open (calls w)) w)).
Proof. intros H. unfold pcm_open. now rewrite H. Qed.

(** The start of a playback stream when the handle that [pcm_open]
    returns is not ready. *)
Lemma start_output_stream_not_ready o out w :
  pcm_open_result (env w) (n_open (calls w)) = OpenNotReady ->
  exists h w',
    start_output_stream o out w =
      (- ENOMEM, set_o_pcm (Some h) (out_select_geometry out w).2, w')
    /\ pcm_ready h = false
    /\ n_write (calls w') = n_write (calls w)
    /\ env w' = env w
    /\ outs w' = outs w
    /\ last (trace w') = Some (EvPcmClose (Some h)).
Proof.
  intros H. unfold start_output_stream.
  destruct (out_select_geometry out w) as [[card device] out_g] eqn:G. cbn [snd].
  set (ws := out_standby_active_in (rate (o_pcm_config out_g)) w).
  destruct (out_standby_active_in_frame (rate (o_pcm_config out_g)) w)
    as (He & Hc & Ho & _). fold ws in He, Hc, Ho.
  rewrite pcm_open_not_ready by (now rewrite He, Hc).
  cbn [set_o_pcm o_pcm open_failed pcm_is_ready opened pcm_ready negb].
  eexists _, _. split; [reflexivity|].
  cbn [pcm_close log set_calls calls env outs trace next_open n_write pcm_ready].
  rewrite Hc, He, Ho. repeat split. apply last_snoc.
Qed.

(** ** [out_write] when the endpoint does not open *)

(** C3, as amended: when [out_write], asked for [bytes] bytes, a
    [size_t], finds the stream in standby and the handle that
    [pcm_open] returns is not ready, [start_output_stream] returns
    [-ENOMEM], and [out_write] does not return it.  It writes nothing;
    it sleeps [(bytes * 1000000) mod 2 ^ 32 / 4 / 44100] microseconds,
    which is never more than 24347 and is the play time of the request
    as long as the product fits 32 bits; and it returns the byte count
    as a [ssize_t]: [bytes] below [2 ^ 31], [bytes - 2 ^ 32] from
    there.  The standby flag of the stream is still set. *)
Theorem out_write_absorbs_open_failure (fuel : nat) (o : nat) (out : stream_out)
    (buffer : block) (bytes : Z) (w : world) :
  outs w !! o = Some out ->
  o_standby out = true ->
  pcm_open_result (env w) (n_open (calls w)) = OpenNotReady ->
  0 <= bytes < 2 ^ 32 ->
  (start_output_stream o out w).1.1 = - ENOMEM
  /\ 0 <= absorbed_sleep bytes <= 24347
  /\ (bytes * 1000000 < 2 ^ 32 -> absorbed_sleep bytes = bytes * 1000000 / 4 / 44100)
  /\ exists out' w',
       out_write (S fuel) o buffer bytes w = Some (returned_count bytes, buffer, w')
       /\ outs w' !! o = Some out'
       /\ o_standby out' = true
       /\ n_write (calls w') = n_write (calls w)
       /\ last (trace w') = Some (EvUsleep (absorbed_sleep bytes)).
Proof.
  intros Ho Hs Hopen Hbytes.
  destruct (start_output_stream_not_ready o out w Hopen)
    as (h & w1 & Hstart & _ & Hw & _ & _ & _).
  split; [now rewrite Hstart|].
  split; [apply absorbed_sleep_bound|].
  split; [intros Hfit; unfold absorbed_sleep; rewrite Z.mod_small by lia; reflexivity|].
  unfold out_write. rewrite Ho. cbn [out_write_do_over].
  unfold out_write_body. rewrite Hs, Hstart.
  change (negb (- ENOMEM =? 0)) with true. cbn iota.
  change (l_ret (set_l_ret (- ENOMEM) (out_write_init bytes)) =? - EPIPE) with false.
  cbn iota. rewrite out_write_exit_failed by discriminate.
  rewrite to_int32_returned_count by exact Hbytes.
  eexists _, _. split; [reflexivity|].
  cbn [set_outs outs usleep log calls trace].
  split; [apply lookup_insert_eq|].
  split; [cbn [set_o_pcm o_standby];
          now rewrite (proj1 (out_select_geometry_keeps out w))|].
  split; [exact Hw|]. apply last_snoc.
Qed.

Lemma world_no_endpoint_out :
  outs (world_low_latency env_no_endpoint) !! 0%nat = Some low_latency_stream.
Proof. vm_compute. reflexivity. Qed.

Lemma request_16384 : 0 <= 16384 < 2 ^ 32.
Proof. lia. Qed.

(** A low-latency stream whose endpoint does not open, asked for 4096
    frames: the call returns the 16384 bytes and sleeps 19836
    microseconds, when the frames play for 92879. *)
Lemma out_write_absorbs_open_failure_witness :
  (start_output_stream 0 low_latency_stream (world_low_latency env_no_endpoint)).1.1
    = - ENOMEM
  /\ 16384 * 1000000 / 4 / 44100 = 92879
  /\ exists out' w',
       out_write 1 0 (client_block 16384) 16384 (world_low_latency env_no_endpoint)
         = Some (16384, client_block 16384, w')
       /\ outs w' !! 0%nat = Some out'
       /\ o_standby out' = true
       /\ n_write (calls w') = n_write (calls (world_low_latency env_no_endpoint))
       /\ last (trace w') = Some (EvUsleep 19836).
Proof.
  destruct (out_write_absorbs_open_failure 0 0 low_latency_stream (client_block 16384) 16384
              (world_low_latency env_no_endpoint) world_no_endpoint_out eq_refl eq_refl
              request_16384) as (Hstart & _ & _ & out' & w' & H).
  split; [exact Hstart|]. split; [reflexivity|]. exists out', w'. exact H.
Defined.

(** C3 fails: the stream is in standby, the handle that [pcm_open]
    returns is not ready, and [out_write] returns the 16 bytes asked
    for, not [-ENOMEM]. *)
Lemma out_write_open_failure_counterexample :
  outs (world_low_latency env_no_endpoint) !! 0%nat = Some low_latency_stream
  /\ o_standby low_latency_stream = true
  /\ pcm_open_result env_no_endpoint 0 = OpenNotReady
  /\ (fun r => r.1.1) <$> out_write 1 0 (client_block 16) 16 (world_low_latency env_no_endpoint)
       = Some 16
  /\ 16 <> - ENOMEM.
Proof.
  split; [exact world_no_endpoint_out|]. split; [reflexivity|]. split; [reflexivity|].
  split; [vm_compute; reflexivity|]. vm_compute. congruence.
Qed.

(** ** The handle after a failed open *)

(** C6 fails on the code: after an [out_write], and after an
    [in_read], in which the handle that [pcm_open] returns is not
    ready, the stream is in standby and its [pcm] field is not NULL; it
    still holds the handle that the start has closed. *)
Theorem failed_open_leaves_closed_handle :
  (let h := opened PCM_CARD PCM_DEVICE_MM PCM_OUT_MMAP pcm_config_out_started false
              (world_low_latency env_no_endpoint) in
   match out_write 1 0 (client_block 16) 16 (world_low_latency env_no_endpoint) with
   | Some (_, _, w') =>
       (fun out => (o_standby out, o_pcm out)) <$> outs w' !! 0%nat = Some (true, Some h)
       /\ closes_of (trace w') = [Some h]
   | None => False
   end)
  /\
  (let h := opened PCM_CARD PCM_DEVICE_MM_UL PCM_IN pcm_config_in false
              (world_duplex env_no_endpoint 44100) in
   match in_read 1 0 (client_block 16) 16 (world_duplex env_no_endpoint 44100) with
   | Some (_, _, w') =>
       (fun sin => (i_standby sin, i_pcm sin)) <$> ins w' !! 0%nat = Some (true, Some h)
       /\ closes_of (trace w') = [Some h]
   | None => False
   end).
Proof. vm_compute. repeat split; reflexivity. Qed.

(** ** The block that [out_write] hands to the endpoint *)

(** C1 fails on the code: a stream routed to HDMI has an endpoint at
    48000 Hz; a write of 4096 frames is converted into the scratch
    block (1920 frames, all that the block holds), and what is handed
    to [pcm_mmap_write] is the first 7680 bytes of the client's block,
    not the converted ones. *)
Theorem out_write_hdmi_writes_client_block :
  match out_write 2 0 (client_block 16384) 16384 (world_hdmi env_ok) with
  | Some (r, _, w') =>
      r = 16384
      /\ (outs w' !! 0%nat ≫= o_buffer) = Some (replicate (Z.to_nat 7680) 0x55)
      /\ writes_of (trace w') = [(ClientBuffer, client_block 7680, 7680, 0)]
  | None => False
  end.
Proof. vm_compute. repeat split; reflexivity. Qed.

(** ** The two rate families *)

Lemma rate_conflict_incompatible a b :
  In a endpoint_rates -> In b endpoint_rates ->
  rate_conflict a b = incompatible_rates a b.
Proof.
  unfold endpoint_rates. cbn [map rate pcm_config_out pcm_config_out_lp pcm_config_in
    pcm_config_sco pcm_config_hdmi In].
  intros Ha Hb.
  repeat (destruct Ha as [<- | Ha]); try destruct Ha;
  repeat (destruct Hb as [<- | Hb]); try destruct Hb; reflexivity.
Qed.

Lemma out_select_geometry_rate out w :
  In (rate (o_pcm_config out)) endpoint_rates ->
  In (rate (o_pcm_config (out_select_geometry out w).2)) endpoint_rates.
Proof.
  unfold out_select_geometry.
  destruct (negb (Z.land _ _ =? 0)).
  - intros _. cbn. auto 6.
  - destruct (negb (o_low_power out =? 0)); cbn [snd set_o_pcm_config
      set_o_write_threshold o_pcm_config set_avail_min set_start_threshold rate]; auto.
Qed.

Lemma in_select_geometry_rate sin w :
  In (rate (i_pcm_config (in_select_geometry sin w).2)) endpoint_rates.
Proof.
  unfold in_select_geometry. destruct (negb (Z.land _ _ =? 0)); cbn; auto 6.
Qed.

Lemma in_select_geometry_keeps sin w :
  i_standby (in_select_geometry sin w).2 = i_standby sin
  /\ i_resampler (in_select_geometry sin w).2 = i_resampler sin
  /\ i_pcm (in_select_geometry sin w).2 = i_pcm sin.
Proof.
  unfold in_select_geometry. destruct (negb (Z.land _ _ =? 0)); cbn; auto.
Qed.

(** The world after [pcm_open]. *)
Lemma pcm_open_world card device flags cfg w :
  (pcm_open card device flags cfg w).2 =
    log (EvPcmOpen card device flags cfg (pcm_open card device flags cfg w).1)
      (set_calls (next_open (calls w)) w).
Proof. reflexivity. Qed.

(** [start_output_stream] as a sequence of events after the block that
    deals with the active input. *)
Lemma start_output_stream_trace o out w :
  let g := out_select_geometry out w in
  let ws := out_standby_active_in (rate (o_pcm_config g.2)) w in
  let r := start_output_stream o out w in
  trace r.2 =
    trace ws ++ EvPcmOpen g.1.1 g.1.2 PCM_OUT_MMAP (o_pcm_config g.2) (o_pcm r.1.2)
      :: after_open (o_pcm r.1.2) (o_resampler out)
  /\ ins r.2 = ins ws
  /\ active_in (adev r.2) = active_in (adev ws).
Proof.
  cbn zeta. unfold start_output_stream.
  pose proof (out_select_geometry_keeps out w) as (_ & Hr & _).
  destruct (out_select_geometry out w) as [[card device] out_g]. cbn [fst snd] in *.
  set (ws := out_standby_active_in (rate (o_pcm_config out_g)) w).
  destruct (pcm_open card device PCM_OUT_MMAP (o_pcm_config out_g) ws) as [p w1] eqn:E.
  pose proof (pcm_open_world card device PCM_OUT_MMAP (o_pcm_config out_g) ws) as Hw.
  rewrite E in Hw. cbn [fst snd] in Hw. subst w1.
  cbn [set_o_pcm o_pcm o_resampler]. unfold after_open. rewrite Hr.
  destruct (open_failed p) eqn:F; [cbn; rewrite F; now rewrite <- app_assoc|].
  destruct (o_resampler out); cbn; rewrite F; now rewrite <- ?app_assoc.
Qed.

Lemma start_input_stream_trace i sin w :
  let g := in_select_geometry sin w in
  let ws := in_standby_active_out (rate (i_pcm_config g.2)) w in
  let r := start_input_stream i sin w in
  trace r.2 =
    trace ws ++ EvPcmOpen PCM_CARD_DEFAULT g.1 PCM_IN (i_pcm_config g.2) (i_pcm r.1.2)
      :: after_open (i_pcm r.1.2) (i_resampler sin)
  /\ outs r.2 = outs ws
  /\ active_out (adev r.2) = active_out (adev ws).
Proof.
  cbn zeta. unfold start_input_stream.
  pose proof (in_select_geometry_keeps sin w) as (_ & Hr & _).
  destruct (in_select_geometry sin w) as [device sin_g]. cbn [fst snd] in *.
  set (ws := in_standby_active_out (rate (i_pcm_config sin_g)) w).
  destruct (pcm_open PCM_CARD_DEFAULT device PCM_IN (i_pcm_config sin_g) ws) as [p w1] eqn:E.
  pose proof (pcm_open_world PCM_CARD_DEFAULT device PCM_IN (i_pcm_config sin_g) ws) as Hw.
  rewrite E in Hw. cbn [fst snd] in Hw. subst w1.
  cbn [set_i_pcm i_pcm i_resampler]. unfold after_open. rewrite Hr.
  destruct (open_failed p) eqn:F; [cbn; rewrite F; now rewrite <- app_assoc|].
  destruct (i_resampler sin); cbn; rewrite F; now rewrite <- ?app_assoc.
Qed.

(** The block of [start_output_stream] for the active input, when that
    input is running at a conflicting rate. *)
Lemma out_standby_active_in_forces r w i sin :
  active_in (adev w) = Some i -> ins w !! i = Some sin -> i_standby sin = false ->
  rate_conflict r (rate (i_pcm_config sin)) = true ->
  trace (out_standby_active_in r w) = trace w ++ [EvPcmClose (i_pcm sin)]
  /\ ins (out_standby_active_in r w) !! i = Some (set_i_standby true (set_i_pcm None sin))
  /\ active_in (adev (out_standby_active_in r w)) = None.
Proof.
  intros Ha Hi Hs Hc. unfold out_standby_active_in, do_in_standby.
  rewrite Ha, Hi, Hc, Hs. cbn. split; [reflexivity|]. split; [|reflexivity].
  apply lookup_insert_eq.
Qed.

Lemma in_standby_active_out_forces r w o out :
  active_out (adev w) = Some o -> outs w !! o = Some out -> o_standby out = false ->
  rate_conflict r (rate (o_pcm_config out)) = true ->
  trace (in_standby_active_out r w) = trace w ++ [EvPcmClose (o_pcm out)]
  /\ outs (in_standby_active_out r w) !! o = Some (set_o_standby true (set_o_pcm None out))
  /\ active_out (adev (in_standby_active_out r w)) = None.
Proof.
  intros Ha Ho Hs Hc. unfold in_standby_active_out, do_out_standby.
  rewrite Ha, Ho, Hc, Hs. cbn. split; [reflexivity|]. split; [|reflexivity].
  apply lookup_insert_eq.
Qed.

(** C4: when a stream is started while the stream of the other
    direction is running at a rate of the other family, that stream is
    put in standby: its endpoint is closed, once, before the [pcm_open]
    of the start, its [pcm] field is NULL, its standby flag is set and
    the device has no active stream of that direction any more.  After
    the [pcm_open] the start closes at most the handle it has just got,
    when that one is not ready.  This holds for the start of an output
    against the input and for the start of an input against the
    output. *)
Theorem start_forces_opposite_stream_once (w : world) :
  (forall o out i sin,
     active_in (adev w) = Some i -> ins w !! i = Some sin -> i_standby sin = false ->
     In (rate (o_pcm_config out)) endpoint_rates ->
     In (rate (i_pcm_config sin)) endpoint_rates ->
     let g := out_select_geometry out w in
     incompatible_rates (rate (o_pcm_config g.2)) (rate (i_pcm_config sin)) = true ->
     let r := start_output_stream o out w in
     trace r.2 =
       trace w ++ EvPcmClose (i_pcm sin)
         :: EvPcmOpen g.1.1 g.1.2 PCM_OUT_MMAP (o_pcm_config g.2) (o_pcm r.1.2)
         :: after_open (o_pcm r.1.2) (o_resampler out)
     /\ ins r.2 !! i = Some (set_i_standby true (set_i_pcm None sin))
     /\ active_in (adev r.2) = None)
  /\
  (forall i sin o out,
     active_out (adev w) = Some o -> outs w !! o = Some out -> o_standby out = false ->
     In (rate (o_pcm_config out)) endpoint_rates ->
     let g := in_select_geometry sin w in
     incompatible_rates (rate (i_pcm_config g.2)) (rate (o_pcm_config out)) = true ->
     let r := start_input_stream i sin w in
     trace r.2 =
       trace w ++ EvPcmClose (o_pcm out)
         :: EvPcmOpen PCM_CARD_DEFAULT g.1 PCM_IN (i_pcm_config g.2) (i_pcm r.1.2)
         :: after_open (i_pcm r.1.2) (i_resampler sin)
     /\ outs r.2 !! o = Some (set_o_standby true (set_o_pcm None out))
     /\ active_out (adev r.2) = None).
Proof.
  split.
  - intros o out i sin Ha Hi Hs Hro Hri g Hinc r.
    destruct (start_output_stream_trace o out w) as (Ht & Hins & Hact).
    fold g in Ht, Hins, Hact. fold r in Ht, Hins, Hact.
    assert (Hc : rate_conflict (rate (o_pcm_config g.2)) (rate (i_pcm_config sin)) = true).
    { rewrite rate_conflict_incompatible; auto. now apply out_select_geometry_rate. }
    destruct (out_standby_active_in_forces _ w i sin Ha Hi Hs Hc) as (Ht' & Hi' & Ha').
    rewrite Ht, Hins, Hact, Ht', Hi', Ha'. rewrite <- app_assoc. auto.
  - intros i sin o out Ha Ho Hs Hro g Hinc r.
    destruct (start_input_stream_trace i sin w) as (Ht & Houts & Hact).
    fold g in Ht, Houts, Hact. fold r in Ht, Houts, Hact.
    assert (Hc : rate_conflict (rate (i_pcm_config g.2)) (rate (o_pcm_config out)) = true).
    { rewrite rate_conflict_incompatible; auto. apply in_select_geometry_rate. }
    destruct (in_standby_active_out_forces _ w o out Ha Ho Hs Hc) as (Ht' & Ho' & Ha').
    rewrite Ht, Houts, Hact, Ht', Ho', Ha'. rewrite <- app_assoc. auto.
Qed.

(** ** The buffer provider *)

Lemma reads_of_app t1 t2 : reads_of (t1 ++ t2) = reads_of t1 ++ reads_of t2.
Proof. unfold reads_of. apply omap_app. Qed.

Lemma pcm_read_world p count w :
  (pcm_read p count w).2 =
    log (EvPcmRead p count (pcm_read p count w).1.1) (set_calls (next_read (calls w)) w).
Proof. unfold pcm_read. now destruct (pcm_read_result _ _). Qed.













(** ** Memory blocks *)

Lemma blit_length data off dst : length (blit data off dst) = length dst.
Proof.
  unfold blit. rewrite !length_app, !length_take, length_drop. lia.
Qed.

Lemma copy_i16_length dst i src j : length (copy_i16 dst i src j) = length dst.
Proof. unfold copy_i16. now rewrite !length_insert. Qed.



(** ** What a capture leaves of the device *)

Lemma pcm_read_frame p count w :
  adev (pcm_read p count w).2 = adev w /\ env (pcm_read p count w).2 = env w.
Proof. rewrite pcm_read_world. auto. Qed.

Lemma get_next_buffer_frame buffer sin w :
  adev (get_next_buffer buffer sin w).2 = adev w
  /\ env (get_next_buffer buffer sin w).2 = env w.
Proof.
  unfold get_next_buffer. destruct (i_pcm sin) as [p|]; [|auto].
  destruct (i_frames_in sin =? 0); [|auto].
  pose proof (pcm_read_frame (Some p)
    (wrap32 (channels (i_pcm_config sin) * period_size (i_pcm_config sin)
             * audio_stream_frame_size AUDIO_CHANNEL_IN_MONO)) w) as Hf.
  destruct (pcm_read _ _ w) as [[status data] w1]. cbn [snd] in Hf.
  destruct (negb (status =? 0)); [exact Hf|].
  cbn [set_i_buffer set_i_read_status i_pcm_config set_i_frames_in].
  destruct (channels (i_pcm_config sin) =? 2); exact Hf.
Qed.

Lemma run_puller_frame c : forall sin w,
  adev (run_puller c sin w).2 = adev w /\ env (run_puller c sin w).2 = env w.
Proof.
  induction c as [out n | n consumed k IH]; intros sin w; [cbn; auto|].
  cbn [run_puller].
  pose proof (get_next_buffer_frame {| raw := None; frame_count := n |} sin w) as Hf.
  destruct (get_next_buffer _ sin w) as [[[st buf] sin1] w1]. cbn [snd] in Hf.
  destruct Hf as [Ha He]. rewrite <- Ha, <- He. apply IH.
Qed.

Lemma resample_from_provider_frame frames sin w :
  adev (resample_from_provider frames sin w).2 = adev w
  /\ env (resample_from_provider frames sin w).2 = env w.
Proof.
  unfold resample_from_provider.
  destruct (run_puller_frame
    (resample_from_provider_result
       (env (log (EvResampleFromProvider frames) (set_calls (next_pull (calls w)) w)))
       (n_pull (calls w)) frames)
    sin (log (EvResampleFromProvider frames) (set_calls (next_pull (calls w)) w)))
    as [Ha He].
  rewrite Ha, He. auto.
Qed.


Lemma in_standby_active_out_mic_mute r w :
  mic_mute (adev (in_standby_active_out r w)) = mic_mute (adev w).
Proof.
  unfold in_standby_active_out.
  destruct (active_out (adev w)) as [o|]; [|auto].
  destruct (outs w !! o) as [out|]; [|auto].
  destruct (rate_conflict _ _); [|auto].
  unfold do_out_standby. destruct (o_standby out); reflexivity.
Qed.

Lemma start_input_stream_mic_mute i sin w :
  mic_mute (adev (start_input_stream i sin w).2) = mic_mute (adev w)
  /\ env (start_input_stream i sin w).2 = env w.
Proof.
  unfold start_input_stream.
  destruct (in_select_geometry sin w) as [device sin_g].
  pose proof (in_standby_active_out_mic_mute (rate (i_pcm_config sin_g)) w) as Hm.
  destruct (in_standby_active_out_frame (rate (i_pcm_config sin_g)) w) as (He & _).
  set (ws := in_standby_active_out (rate (i_pcm_config sin_g)) w) in *.
  pose proof (pcm_open_world PCM_CARD_DEFAULT device PCM_IN (i_pcm_config sin_g) ws) as Hw.
  destruct (pcm_open PCM_CARD_DEFAULT device PCM_IN (i_pcm_config sin_g) ws) as [p w1].
  cbn [fst snd] in Hw. subst w1. rewrite <- Hm, <- He.
  destruct (open_failed _); [auto|].
  destruct (i_resampler _); auto.
Qed.


(** Without a converter [in_read] has no loop. *)
Lemma in_read_capture_total fuel i buffer bytes sin w :
  i_resampler sin = false -> is_Some (in_read_capture fuel i buffer bytes sin w).
Proof.
  intros Hr. unfold in_read_capture.
  set (started :=
    if i_standby sin then
      let '(ret, sin, w) := start_input_stream i sin w in
      if ret =? 0 then (ret, set_i_standby false sin, w) else (ret, sin, w)
    else (0, sin, w)).
  assert (Hs : i_resampler started.1.2 = false).
  { subst started. destruct (i_standby sin); [|exact Hr].
    unfold start_input_stream.
    pose proof (in_select_geometry_keeps sin w) as (_ & Hk & _).
    destruct (in_select_geometry sin w) as [device sin_g]. cbn [snd] in Hk.
    destruct (pcm_open _ _ _ _ _) as [p w1].
    cbn [set_i_pcm i_pcm i_resampler]. rewrite Hk, Hr.
    destruct (open_failed p);
      [change (- ENOMEM =? 0) with false|]; cbn; now rewrite ?Hk, ?Hr. }
  destruct started as [[ret0 sin0] w0]. cbn [fst snd] in Hs.
  destruct (ret0 <? 0); [eauto|]. rewrite Hs.
  destruct (channels (i_pcm_config sin0) =? 2).
  - destruct (pcm_read _ _ _) as [[r1 d1] w1]. eauto.
  - destruct (pcm_read _ _ _) as [[r1 d1] w1]. eauto.
Qed.

(** ** Termination of [read_frames] *)

Lemma get_next_buffer_resampler buffer sin w :
  i_resampler (get_next_buffer buffer sin w).1.2 = i_resampler sin.
Proof.
  unfold get_next_buffer. destruct (i_pcm sin) as [p|]; [|reflexivity].
  destruct (i_frames_in sin =? 0); [|reflexivity].
  destruct (pcm_read _ _ w) as [[status data] w1].
  destruct (negb (status =? 0)); [reflexivity|].
  cbn [set_i_buffer set_i_read_status i_pcm_config set_i_frames_in].
  destruct (channels (i_pcm_config sin) =? 2); reflexivity.
Qed.

Lemma run_puller_progress c : makes_progress c -> forall sin w,
  1 <= (run_puller c sin w).1.1.2
  /\ i_resampler (run_puller c sin w).1.2 = i_resampler sin.
Proof.
  induction 1 as [out n Hn | n consumed k Hk IH]; intros sin w; [cbn; auto|].
  cbn [run_puller].
  pose proof (get_next_buffer_resampler {| raw := None; frame_count := n |} sin w) as Hr.
  destruct (get_next_buffer _ sin w) as [[[st buf] sin1] w1]. cbn [fst snd] in Hr.
  rewrite <- Hr.
  match goal with
  | |- context [run_puller (k ?pv) ?s w1] => destruct (IH pv s w1) as [H1 H2]
  end.
  split; [exact H1|]. rewrite H2. reflexivity.
Qed.

Lemma read_frames_loop_total fuel : forall frames frames_wr buffer sin w,
  (forall n req, makes_progress (resample_from_provider_result (env w) n req)) ->
  i_resampler sin = true ->
  (Z.to_nat (frames - frames_wr) < fuel)%nat ->
  is_Some (read_frames_loop fuel frames frames_wr buffer sin w).
Proof.
  induction fuel as [|fuel IH]; intros frames frames_wr buffer sin w Hp Hr Hf; [lia|].
  cbn [read_frames_loop].
  destruct (Z.ltb_spec frames_wr frames) as [Hlt|Hge]; [|eauto].
  rewrite Hr.
  pose proof (resample_from_provider_frame (wrap32 (frames - frames_wr)) sin w) as [_ He].
  assert (Hq : 1 <= (resample_from_provider (wrap32 (frames - frames_wr)) sin w).1.1.2
               /\ i_resampler (resample_from_provider (wrap32 (frames - frames_wr)) sin w).1.2
                  = i_resampler sin).
  { unfold resample_from_provider. apply run_puller_progress. apply Hp. }
  destruct (resample_from_provider _ sin w) as [[[out frames_rd] sin1] w1].
  cbn [fst snd] in He, Hq. destruct Hq as [Hq Hr1].
  destruct (negb (i_read_status sin1 =? 0)); [eauto|].
  apply IH; [now rewrite He | congruence | lia].
Qed.

(** With a converter that makes progress the capture ends. *)
Lemma in_read_capture_progress fuel i buffer bytes sin w :
  (forall n req, makes_progress (resample_from_provider_result (env w) n req)) ->
  (Z.to_nat (bytes / 2) < fuel)%nat ->
  is_Some (in_read_capture fuel i buffer bytes sin w).
Proof.
  intros Hp Hf. unfold in_read_capture.
  set (started :=
    if i_standby sin then
      let '(ret, sin, w) := start_input_stream i sin w in
      if ret =? 0 then (ret, set_i_standby false sin, w) else (ret, sin, w)
    else (0, sin, w)).
  assert (Hs : env started.2 = env w).
  { subst started. destruct (i_standby sin); [|reflexivity].
    pose proof (start_input_stream_mic_mute i sin w) as [_ He].
    destruct (start_input_stream i sin w) as [[r0 s0] w0]. cbn [snd] in He.
    now destruct (r0 =? 0). }
  destruct started as [[ret0 sin0] w0]. cbn [snd] in Hs.
  destruct (ret0 <? 0); [eauto|].
  destruct (i_resampler sin0) eqn:Hr.
  - unfold read_frames.
    destruct (read_frames_loop_total fuel
                (bytes / audio_stream_frame_size in_get_channels) 0 buffer sin0 w0)
      as [[[[r1 b1] s1] w1] Hx]; [now rewrite Hs | exact Hr | |].
    + change (audio_stream_frame_size in_get_channels) with 2. now rewrite Z.sub_0_r.
    + rewrite Hx. eauto.
  - destruct (channels (i_pcm_config sin0) =? 2).
    + destruct (pcm_read _ _ _) as [[r1 d1] w1]. eauto.
    + destruct (pcm_read _ _ _) as [[r1 d1] w1]. eauto.
Qed.

(** ** The value of [ret] at the mute *)


















(** ** The retry of [out_write] *)

Lemma endpoint_steps_app t1 t2 :
  endpoint_steps (t1 ++ t2) = endpoint_steps t1 ++ endpoint_steps t2.
Proof. unfold endpoint_steps. apply omap_app. Qed.
Lemma sleeps_of_split t1 t2 : sleeps_of (t1 ++ t2) = sleeps_of t1 ++ sleeps_of t2.
Proof. unfold sleeps_of. apply omap_app. Qed.

Lemma endpoint_events_app t1 t2 :
  endpoint_events (t1 ++ t2) = endpoint_events t1 ++ endpoint_events t2.
Proof. unfold endpoint_events. apply List.filter_app. Qed.

(** Away from HDMI the geometry block keeps the rate, the channels and
    the ring, and sets the threshold, the device and the geometry by
    the low-power flag. *)
Lemma out_select_geometry_plain out w :
  Z.land (out_device (adev w)) AUDIO_DEVICE_OUT_AUX_DIGITAL = 0 ->
  rate (o_pcm_config (out_select_geometry out w).2) = rate (o_pcm_config out)
  /\ channels (o_pcm_config (out_select_geometry out w).2) = channels (o_pcm_config out)
  /\ ring_size (out_select_geometry out w).2 = ring_size out
  /\ o_write_threshold (out_select_geometry out w).2 = started_threshold out
  /\ (out_select_geometry out w).1 = (PCM_CARD_DEFAULT, started_device out)
  /\ o_pcm_config (out_select_geometry out w).2 = started_config out.
Proof.
  intros H. unfold out_select_geometry, started_threshold, ring_size, started_device,
    started_config. rewrite H.
  cbn [Z.eqb negb].
  destruct (negb (o_low_power out =? 0)); cbn; auto 10.
Qed.

Lemma started_config_stable out out1 :
  o_low_power out1 = o_low_power out ->
  o_pcm_config out1 = started_config out ->
  started_config out1 = started_config out /\ started_device out1 = started_device out
  /\ ring_size out1 = ring_size out /\ started_threshold out1 = started_threshold out.
Proof.
  intros Hlp Hcfg. unfold started_config, started_device, ring_size, started_threshold in *.
  rewrite Hlp, Hcfg. destruct (negb (o_low_power out =? 0)); destruct (o_pcm_config out); cbn; auto.
Qed.

Lemma forced_capture_close_same w w1 :
  active_in (adev w1) = active_in (adev w) -> ins w1 = ins w ->
  forced_capture_close w1 = forced_capture_close w.
Proof. intros Ha Hi. unfold forced_capture_close. now rewrite Ha, Hi. Qed.

(** The block of [start_output_stream] that deals with the capture
    stream, for a playback at the reference rate. *)
Lemma out_standby_active_in_forced w :
  trace (out_standby_active_in OUT_SAMPLING_RATE w) = trace w ++ forced_capture_close w
  /\ forced_capture_close (out_standby_active_in OUT_SAMPLING_RATE w) = [].
Proof.
  unfold out_standby_active_in, forced_capture_close.
  destruct (active_in (adev w)) as [i|] eqn:Ha; [|rewrite Ha, app_nil_r; auto].
  destruct (ins w !! i) as [sin|] eqn:Hi; [|rewrite Ha, Hi, app_nil_r; auto].
  destruct (rate_conflict OUT_SAMPLING_RATE (rate (i_pcm_config sin))) eqn:Hc;
    [|rewrite Ha, Hi, Hc, app_nil_r; auto].
  unfold do_in_standby. destruct (i_standby sin) eqn:Hs; cbn [negb andb].
  - cbn [set_ins adev ins trace]. rewrite Ha, lookup_insert_eq, Hc, Hs, app_nil_r. auto.
  - cbn. auto.
Qed.

Lemma same_setting_refl w : same_setting w w.
Proof. repeat split. Qed.
Lemma same_setting_trans w w1 w2 :
  same_setting w w1 -> same_setting w1 w2 -> same_setting w w2.
Proof.
  unfold same_setting. intros (A1 & A2 & A3 & A4 & A5) (B1 & B2 & B3 & B4 & B5).
  repeat split; congruence.
Qed.

(** The start of a plain stream whose endpoint opens. *)
Lemma start_output_stream_plain o out w :
  plain_playback out w ->
  pcm_open_result (env w) (n_open (calls w)) = OpenReady ->
  exists w1 t,
    start_output_stream o out w
      = (0, set_o_pcm (Some (playback_handle (started_device out) (started_config out)
                               (n_open (calls w))))
              (out_select_geometry out w).2, w1)
    /\ env w1 = env w
    /\ outs w1 = outs w
    /\ out_device (adev w1) = out_device (adev w)
    /\ forced_capture_close w1 = []
    /\ n_write (calls w1) = n_write (calls w)
    /\ n_open (calls w1) = S (n_open (calls w))
    /\ active_out (adev w1) = Some o
    /\ trace w1 = trace w ++ t
    /\ endpoint_events t =
         forced_capture_close w
         ++ [playback_open (started_device out) (started_config out) (n_open (calls w))]
    /\ sleeps_of t = [].
Proof.
  intros (Hrate & Hch & Haux) Hopen. unfold start_output_stream.
  destruct (out_select_geometry_plain out w Haux) as (Hr & _ & _ & _ & Hdev & Hcfg).
  destruct (out_select_geometry out w) as [[card device] out_g]. cbn [fst snd] in *.
  injection Hdev as -> ->. rewrite Hr, Hrate.
  destruct (out_standby_active_in_frame OUT_SAMPLING_RATE w) as (He & Hc & Ho & Hd & _).
  destruct (out_standby_active_in_forced w) as [Ht Hf].
  set (ws := out_standby_active_in OUT_SAMPLING_RATE w) in *.
  rewrite pcm_open_ready by (now rewrite He, Hc).
  cbn [set_o_pcm o_pcm open_failed pcm_is_ready opened pcm_ready negb o_resampler].
  unfold opened, playback_handle. rewrite Hc, Hcfg.
  assert (Hfc : forall wx, ins wx = ins ws -> active_in (adev wx) = active_in (adev ws) ->
                  forced_capture_close wx = []).
  { intros wx Hi Ha. rewrite <- Hf. now apply forced_capture_close_same. }
  destruct (o_resampler out_g).
  - eexists _, (forced_capture_close w ++ [_; _]). split; [reflexivity|].
    cbn [resampler_reset log set_adev set_calls env outs adev calls trace next_open n_write
         n_open set_active_out out_device active_out].
    rewrite ?He, ?Ho, ?Hd, ?Hc, ?Ht.
    repeat split; try reflexivity.
    + apply Hfc; reflexivity.
    + now rewrite <- !app_assoc.
    + rewrite endpoint_events_app. f_equal.
      unfold forced_capture_close, endpoint_events.
      destruct (active_in (adev w)) as [i|]; [|reflexivity].
      destruct (ins w !! i) as [sin|]; [|reflexivity].
      destruct (_ && _); reflexivity.
    + unfold forced_capture_close.
      destruct (active_in (adev w)) as [i|]; [|reflexivity].
      destruct (ins w !! i) as [sin|]; [|reflexivity].
      destruct (_ && _); reflexivity.
  - eexists _, (forced_capture_close w ++ [_]). split; [reflexivity|].
    cbn [resampler_reset log set_adev set_calls env outs adev calls trace next_open n_write
         n_open set_active_out out_device active_out].
    rewrite ?He, ?Ho, ?Hd, ?Hc, ?Ht.
    repeat split; try reflexivity.
    + apply Hfc; reflexivity.
    + now rewrite <- !app_assoc.
    + rewrite endpoint_events_app. f_equal.
      unfold forced_capture_close, endpoint_events.
      destruct (active_in (adev w)) as [i|]; [|reflexivity].
      destruct (ins w !! i) as [sin|]; [|reflexivity].
      destruct (_ && _); reflexivity.
    + unfold forced_capture_close.
      destruct (active_in (adev w)) as [i|]; [|reflexivity].
      destruct (ins w !! i) as [sin|]; [|reflexivity].
      destruct (_ && _); reflexivity.
Qed.

(** The flow-control loop when the ring is not above the threshold. *)
Lemma out_write_throttle_passes fuel out w :
  ring_below (env w) (pcm_get_buffer_size (o_pcm out)) (o_write_threshold out) ->
  exists w1 t,
    out_write_throttle (S fuel) out w = Some w1
    /\ same_setting w w1
    /\ adev w1 = adev w
    /\ n_write (calls w1) = n_write (calls w)
    /\ n_open (calls w1) = n_open (calls w)
    /\ trace w1 = trace w ++ t
    /\ endpoint_events t = []
    /\ sleeps_of t = [].
Proof.
  intros Hring. specialize (Hring (n_htimestamp (calls w))).
  cbn [out_write_throttle]. unfold pcm_get_htimestamp.
  destruct (pcm_get_htimestamp_result (env w) (n_htimestamp (calls w))) as [status avail].
  cbn [fst snd] in Hring.
  assert (Hdone : forall w2 : world,
            (if status <? 0 then Some w2
             else if to_int32 (pcm_get_buffer_size (o_pcm out) - avail)
                       >? o_write_threshold out
                  then out_write_throttle fuel out
                         (usleep
                            (let time :=
                               wrap32 ((to_int32 (pcm_get_buffer_size (o_pcm out) - avail)
                                        - o_write_threshold out) * 1000000
                                       ÷ MM_FULL_POWER_SAMPLING_RATE) in
                             if time <? MIN_WRITE_SLEEP_US then MIN_WRITE_SLEEP_US else time)
                            w2)
                  else Some w2) = Some w2).
  { intros w2. destruct (Z.ltb_spec status 0); [reflexivity|].
    destruct (Z.gtb_spec (to_int32 (pcm_get_buffer_size (o_pcm out) - avail))
                (o_write_threshold out)); [lia | reflexivity]. }
  rewrite Hdone. eexists _, [_]. split; [reflexivity|].
  repeat split.
Qed.

(** One pass of a running plain stream through the body of
    [out_write]: no reduction, no conversion, and one write of the
    client's block to the handle of the stream. *)
Lemma out_write_running_plain fuel l buffer out w :
  rate (o_pcm_config out) = OUT_SAMPLING_RATE ->
  channels (o_pcm_config out) = 2 ->
  ring_below (env w) (pcm_get_buffer_size (o_pcm out)) (o_write_threshold out) ->
  exists w1 t,
    out_write_running (S fuel) l buffer out w =
      Some (set_l_ret (pcm_mmap_write_result (env w) (n_write (calls w)))
              (set_l_out_frames (l_in_frames l) l), buffer, out, w1)
    /\ same_setting w w1
    /\ adev w1 = adev w
    /\ n_write (calls w1) = S (n_write (calls w))
    /\ n_open (calls w1) = n_open (calls w)
    /\ trace w1 = trace w ++ t
    /\ endpoint_events t =
         [EvPcmWrite (o_pcm out) ClientBuffer
            (take (Z.to_nat (wrap32 (l_in_frames l * l_frame_size l))) buffer)
            (wrap32 (l_in_frames l * l_frame_size l))
            (pcm_mmap_write_result (env w) (n_write (calls w)))]
    /\ sleeps_of t = [].
Proof.
  intros Hrate Hch Hring. unfold out_write_running.
  rewrite Hch, Hrate.
  change (popcount out_get_channels >? to_int32 2) with false.
  change (negb (OUT_SAMPLING_RATE =? OUT_SAMPLING_RATE)) with false. cbn iota.
  destruct (negb (negb (Z.land (out_device (adev w)) AUDIO_DEVICE_OUT_ALL_SCO =? 0))).
  - destruct (out_write_throttle_passes fuel out w Hring)
      as (w1 & t & Hthr & (He & Hi & Ho & Hd & Ha) & Hadev & Hn & Hno & Ht & Hsteps & Hsl).
    rewrite Hthr. unfold pcm_mmap_write.
    cbn [set_l_out_frames l_out_frames l_frame_size]. rewrite He, Hn.
    eexists _, (t ++ [_]). split; [reflexivity|].
    cbn [log set_calls env ins outs adev calls next_write n_write n_open trace].
    repeat split; try assumption.
    + now rewrite Hn.
    + now rewrite Ht, <- app_assoc.
    + now rewrite endpoint_events_app, Hsteps.
    + now rewrite sleeps_of_split, Hsl.
  - unfold pcm_mmap_write. cbn [set_l_out_frames l_out_frames l_frame_size].
    eexists _, [_]. split; [reflexivity|]. repeat split.
Qed.

(** One pass through the body of [out_write], from [do_over] to
    [exit], for a plain stream. *)
Lemma out_write_body_plain fuel o l buffer out w :
  plain_playback out w ->
  endpoint_reopens (env w) ->
  ring_calm (env w) out ->
  exists l1 out1 w1 t,
    out_write_body (S fuel) o l buffer out w = Some (l1, buffer, out1, w1)
    /\ l_ret l1 = pcm_mmap_write_result (env w) (n_write (calls w))
    /\ l_frame_size l1 = l_frame_size l
    /\ l_in_frames l1 = l_in_frames l
    /\ plain_playback out1 w1
    /\ o_standby out1 = false
    /\ o_pcm out1 =
         (if o_standby out
          then Some (playback_handle (started_device out) (started_config out)
                       (n_open (calls w)))
          else o_pcm out)
    /\ o_low_power out1 = o_low_power out
    /\ (if o_standby out then o_pcm_config out1 = started_config out else out1 = out)
    /\ env w1 = env w
    /\ outs w1 = outs w
    /\ forced_capture_close w1 = (if o_standby out then [] else forced_capture_close w)
    /\ active_out (adev w1) = (if o_standby out then Some o else active_out (adev w))
    /\ n_write (calls w1) = S (n_write (calls w))
    /\ n_open (calls w1) = (if o_standby out then S (n_open (calls w)) else n_open (calls w))
    /\ trace w1 = trace w ++ t
    /\ endpoint_events t =
         (if o_standby out
          then forced_capture_close w
               ++ [playback_open (started_device out) (started_config out) (n_open (calls w))]
          else [])
         ++ [EvPcmWrite (o_pcm out1) ClientBuffer
               (take (Z.to_nat (wrap32 (l_in_frames l * l_frame_size l))) buffer)
               (wrap32 (l_in_frames l * l_frame_size l))
               (pcm_mmap_write_result (env w) (n_write (calls w)))]
    /\ sleeps_of t = [].
Proof.
  intros Hplain Hopen [Hring Hrun]. unfold out_write_body.
  pose proof Hplain as (Hrate & Hch & Haux).
  destruct (o_standby out) eqn:Hs.
  - (* standby: the stream is started first *)
    destruct (start_output_stream_plain o out w Hplain (Hopen _)) as
      (w1 & t1 & Hstart & He1 & Ho1 & Hd1 & Hf1 & Hn1 & Hno1 & Hact & Ht1 & Hev1 & Hsl1).
    rewrite Hstart. cbn [negb Z.eqb].
    destruct (out_select_geometry_plain out w Haux) as (Hr & Hc & Hrs & Hthr & _ & Hcfg).
    destruct (out_select_geometry_keeps out w) as (_ & _ & _ & Hlp).
    set (out1 := set_o_standby false
                   (set_o_pcm (Some (playback_handle (started_device out) (started_config out)
                                       (n_open (calls w))))
                      (out_select_geometry out w).2)) in *.
    assert (Hrate1 : rate (o_pcm_config out1) = OUT_SAMPLING_RATE) by (cbn; congruence).
    assert (Hch1 : channels (o_pcm_config out1) = 2) by (cbn; congruence).
    destruct (out_write_running_plain fuel (set_l_ret 0 l) buffer out1 w1 Hrate1 Hch1)
      as (w2 & t2 & Hrun2 & (He2 & Hi2 & Ho2 & Hd2 & Ha2) & Hadev2 & Hn2 & Hno2 & Ht2 & Hev2
          & Hsl2).
    { rewrite He1. cbn [out1 set_o_standby set_o_pcm o_pcm o_write_threshold
                        pcm_get_buffer_size playback_handle pcm_cfg].
      rewrite Hthr. unfold ring_size in *. rewrite <- Hcfg. rewrite Hrs. exact Hring. }
    rewrite Hrun2. eexists _, out1, w2, (t1 ++ t2). split; [reflexivity|].
    cbn [set_l_ret set_l_out_frames l_ret l_frame_size l_in_frames] in *.
    rewrite He1, Hn1 in *.
    split; [reflexivity|]. split; [reflexivity|]. split; [reflexivity|].
    split; [repeat split; [exact Hrate1 | exact Hch1 | now rewrite Hd2, Hd1]|].
    split; [reflexivity|]. split; [reflexivity|].
    split; [exact Hlp|]. split; [exact Hcfg|].
    split; [congruence|]. split; [congruence|].
    split; [rewrite <- Hf1; now apply forced_capture_close_same|].
    split; [now rewrite Hadev2|].
    split; [exact Hn2|]. split; [congruence|].
    split; [now rewrite Ht2, Ht1, <- app_assoc|].
    split; [now rewrite endpoint_events_app, Hev1, Hev2|].
    now rewrite sleeps_of_split, Hsl1, Hsl2.
  - (* running *)
    destruct (out_write_running_plain fuel l buffer out w Hrate Hch (Hrun eq_refl))
      as (w2 & t2 & Hrun2 & (He2 & Hi2 & Ho2 & Hd2 & Ha2) & Hadev2 & Hn2 & Hno2 & Ht2 & Hev2
          & Hsl2).
    rewrite Hrun2. eexists _, out, w2, t2. split; [reflexivity|].
    cbn [set_l_ret set_l_out_frames l_ret l_frame_size l_in_frames].
    split; [reflexivity|]. split; [reflexivity|]. split; [reflexivity|].
    split; [repeat split; [exact Hrate | exact Hch | now rewrite Hd2]|].
    split; [exact Hs|]. split; [reflexivity|]. split; [reflexivity|].
    split; [reflexivity|]. split; [exact He2|]. split; [exact Ho2|].
    split; [now apply forced_capture_close_same|].
    split; [now rewrite Hadev2|].
    split; [exact Hn2|]. split; [exact Hno2|].
    split; [exact Ht2|]. split; [exact Hev2 | exact Hsl2].
Qed.

Lemma out_write_exit_frame bytes l w :
  exists t,
    trace (out_write_exit bytes l w) = trace w ++ t
    /\ endpoint_steps t = []
    /\ same_setting w (out_write_exit bytes l w)
    /\ calls (out_write_exit bytes l w) = calls w.
Proof.
  unfold out_write_exit. destruct (negb (l_ret l =? 0)).
  - eexists [_]. repeat split.
  - exists []. rewrite app_nil_r. repeat split.
Qed.

Lemma out_write_exit_events bytes l w :
  exists t,
    trace (out_write_exit bytes l w) = trace w ++ t /\ endpoint_events t = [].
Proof.
  unfold out_write_exit. destruct (negb (l_ret l =? 0)).
  - eexists [_]. split; reflexivity.
  - exists []. rewrite app_nil_r. split; reflexivity.
Qed.

(** The recovery from an underrun: the endpoint is closed, the [pcm]
    field and the device's active output are NULL, the standby flag is
    set. *)
Lemma do_out_standby_running out w :
  o_standby out = false ->
  o_standby (do_out_standby out w).1 = true
  /\ o_pcm (do_out_standby out w).1 = None
  /\ active_out (adev (do_out_standby out w).2) = None
  /\ trace (do_out_standby out w).2 = trace w ++ [EvPcmClose (o_pcm out)]
  /\ o_pcm_config (do_out_standby out w).1 = o_pcm_config out
  /\ o_low_power (do_out_standby out w).1 = o_low_power out
  /\ same_setting w (do_out_standby out w).2
  /\ calls (do_out_standby out w).2 = calls w.
Proof.
  intros Hs. unfold do_out_standby. rewrite Hs. cbn. repeat split.
Qed.

Lemma out_write_do_over_S fuel o bytes l buffer out w :
  out_write_do_over (S fuel) o bytes l buffer out w =
    match out_write_body fuel o l buffer out w with
    | None => None
    | Some (l, buffer, out, w) =>
        let w := out_write_exit bytes l w in
        if l_ret l =? - EPIPE then
          let '(out, w) := do_out_standby out w in
          out_write_do_over fuel o bytes l buffer out w
        else Some (to_int32 bytes, buffer, out, w)
    end.
Proof. reflexivity. Qed.

(** The loop of [out_write] on a plain stream whose endpoint fails [n]
    times with [-EPIPE]. *)
Lemma out_write_do_over_plain n : forall o bytes l buffer out w,
  plain_playback out w ->
  endpoint_reopens (env w) ->
  ring_calm (env w) out ->
  underruns (env w) (n_write (calls w)) n ->
  exists out' w' t,
    out_write_do_over (S (S n)) o bytes l buffer out w
      = Some (to_int32 bytes, buffer, out', w')
    /\ o_standby out' = false
    /\ outs w' = outs w
    /\ trace w' = trace w ++ t
    /\ endpoint_events t =
         retry_events (started_device out) (started_config out)
           (take (Z.to_nat (wrap32 (l_in_frames l * l_frame_size l))) buffer)
           (wrap32 (l_in_frames l * l_frame_size l))
           (forced_capture_close w) (o_standby out) (o_pcm out) (n_open (calls w)) n.
Proof.
  induction n as [|n IH]; intros o bytes l buffer out w Hplain Hopen Hring [Hfail Hok].
  - destruct (out_write_body_plain 0 o l buffer out w Hplain Hopen Hring)
      as (l1 & out1 & w1 & t & Hbody & Hret & _ & _ & _ & Hs1 & Hpcm1 & _ & _ & _ & Ho1 & _
          & _ & _ & _ & Ht & Hev & _).
    rewrite Nat.add_0_r in Hok. rewrite Hok in Hret, Hev.
    rewrite out_write_do_over_S, Hbody. cbn zeta.
    rewrite out_write_exit_passed by exact Hret. rewrite Hret.
    change (0 =? - EPIPE) with false. cbn iota.
    exists out1, w1, t. split; [reflexivity|]. split; [exact Hs1|].
    split; [exact Ho1|]. split; [exact Ht|].
    rewrite Hev, Hpcm1. cbn [retry_events]. now destruct (o_standby out).
  - destruct (out_write_body_plain (S n) o l buffer out w Hplain Hopen Hring)
      as (l1 & out1 & w1 & t1 & Hbody & Hret & Hfs & Hif & Hp1 & Hs1 & Hpcm1 & Hlp1 & Hcfg1
          & He1 & Ho1 & Hf1 & _ & Hn1 & Hno1 & Ht1 & Hev1 & _).
    pose proof (Hfail 0%nat ltac:(lia)) as Hfirst. rewrite Nat.add_0_r in Hfirst.
    rewrite Hfirst in Hret, Hev1.
    rewrite out_write_do_over_S, Hbody. cbn zeta.
    destruct (out_write_exit_frame bytes l1 w1) as (t2' & _ & _ & Hset2 & Hc2).
    destruct (out_write_exit_events bytes l1 w1) as (t2 & Ht2 & Hev2).
    set (w2 := out_write_exit bytes l1 w1) in *.
    rewrite Hret, Z.eqb_refl.
    destruct (do_out_standby_running out1 w2 Hs1)
      as (Hs3 & Hpcm3 & _ & Ht3 & Hcfg3 & Hlp3 & Hset3 & Hc3).
    destruct (do_out_standby out1 w2) as [out3 w3]. cbn [fst snd] in *.
    assert (Hset : same_setting w1 w3) by (eapply same_setting_trans; eauto).
    destruct Hset as (He & Hi & Ho & Hd & Ha).
    assert (Hst : started_config out3 = started_config out
                  /\ started_device out3 = started_device out
                  /\ ring_size out3 = ring_size out
                  /\ started_threshold out3 = started_threshold out).
    { destruct (o_standby out).
      - apply started_config_stable; congruence.
      - subst out1. unfold started_config, started_device, ring_size, started_threshold.
        now rewrite Hcfg3, Hlp3. }
    destruct Hst as (Hsc & Hsd & Hrs & Hsth).
    destruct (IH o bytes l1 buffer out3 w3) as (out' & w' & t4 & Hloop & Hs' & Ho' & Ht4 & Hev4).
    + destruct Hp1 as (P1 & P2 & P3).
      split; [now rewrite Hcfg3|]. split; [now rewrite Hcfg3 | now rewrite Hd].
    + intros k. rewrite He, He1. apply Hopen.
    + split; [rewrite He, He1, Hrs, Hsth; apply Hring | intros C; congruence].
    + rewrite He, He1, Hc3, Hc2, Hn1. split.
      * intros k Hk. replace (S (n_write (calls w)) + k)%nat
          with (n_write (calls w) + S k)%nat by lia. apply Hfail. lia.
      * replace (S (n_write (calls w)) + n)%nat
          with (n_write (calls w) + S n)%nat by lia. exact Hok.
    + rewrite Hloop. exists out', w', (t1 ++ t2 ++ [EvPcmClose (o_pcm out1)] ++ t4).
      split; [reflexivity|]. split; [exact Hs'|].
      split; [congruence|].
      split.
      * rewrite Ht4, Ht3, Ht2, Ht1. now rewrite <- !app_assoc.
      * rewrite !endpoint_events_app, Hev1, Hev2, Hev4, Hs3, Hpcm3, Hfs, Hif, Hsc, Hsd.
        rewrite (forced_capture_close_same w1 w3 Ha Hi), Hf1, Hc3, Hc2, Hno1, Hpcm1.
        cbn [retry_events endpoint_events List.filter is_endpoint_event app].
        destruct (o_standby out); cbn [app]; now rewrite <- ?app_assoc.
Qed.

(** Whatever the stream, a call of [out_write] that returns, returns
    the requested byte count as a [ssize_t]. *)
Lemma out_write_do_over_returns_bytes fuel : forall o bytes l buffer out w r b out' w',
  out_write_do_over fuel o bytes l buffer out w = Some (r, b, out', w') -> r = to_int32 bytes.
Proof.
  induction fuel as [|fuel IH]; intros o bytes l buffer out w r b out' w' H; [discriminate|].
  rewrite out_write_do_over_S in H.
  destruct (out_write_body fuel o l buffer out w) as [[[[l1 b1] out1] w1]|]; [|discriminate].
  cbn zeta in H. destruct (l_ret l1 =? - EPIPE).
  - destruct (do_out_standby out1 _) as [out2 w2]. now apply IH in H.
  - now injection H as <- _ _ _.
Qed.

(** C2, as amended.  On a playback stream that needs neither the
    converter nor the channel reduction, asked to write [bytes] bytes,
    a [size_t], when the endpoint fails [n] times with [-EPIPE] before
    it takes a write, whatever [n] is: [out_write] returns the byte
    count as a [ssize_t], which is the requested count below [2 ^ 31];
    the calls made on the endpoints are those of [retry_events]: each
    of the [n + 1] writes hands the handle that the stream holds then
    the same [bytes / 4] frames of the client's block, each failed
    write is followed by the close of that handle and by the open of
    the next one, and the first start of the call closes a capture
    stream that runs at a rate of the other family.  The recovery
    itself closes the endpoint, sets the [pcm] field and the device's
    active output to NULL and sets the standby flag.  And on any stream
    a call that returns, returns the byte count as a [ssize_t]. *)
Theorem out_write_retries_every_underrun (n : nat) (o : nat) (out : stream_out)
    (buffer : block) (bytes : Z) (w : world) :
  outs w !! o = Some out ->
  plain_playback out w ->
  endpoint_reopens (env w) ->
  ring_calm (env w) out ->
  underruns (env w) (n_write (calls w)) n ->
  0 <= bytes < 2 ^ 32 ->
  (exists out' w' t,
     out_write (n + 2) o buffer bytes w = Some (returned_count bytes, buffer, w')
     /\ (bytes < 2 ^ 31 -> returned_count bytes = bytes)
     /\ outs w' !! o = Some out'
     /\ o_standby out' = false
     /\ trace w' = trace w ++ t
     /\ endpoint_events t =
          retry_events (started_device out) (started_config out)
            (take (Z.to_nat (bytes / 4 * 4)) buffer) (bytes / 4 * 4)
            (forced_capture_close w) (o_standby out) (o_pcm out) (n_open (calls w)) n)
  /\ (forall out1 w1,
        o_standby out1 = false ->
        o_standby (do_out_standby out1 w1).1 = true
        /\ o_pcm (do_out_standby out1 w1).1 = None
        /\ active_out (adev (do_out_standby out1 w1).2) = None
        /\ trace (do_out_standby out1 w1).2 = trace w1 ++ [EvPcmClose (o_pcm out1)])
  /\ (forall fuel o1 buffer1 bytes1 w1 r b w',
        0 <= bytes1 < 2 ^ 32 ->
        out_write fuel o1 buffer1 bytes1 w1 = Some (r, b, w') -> r = returned_count bytes1).
Proof.
  intros Ho Hplain Hopen Hring Hunder Hbytes. split; [|split].
  - unfold out_write. rewrite Ho. replace (n + 2)%nat with (S (S n)) by lia.
    destruct (out_write_do_over_plain n o bytes (out_write_init bytes) buffer out w
                Hplain Hopen Hring Hunder) as (out' & w' & t & Hloop & Hs & Houts & Ht & Hev).
    rewrite Hloop, to_int32_returned_count by exact Hbytes.
    exists out', (set_outs (<[o := out']> (outs w')) w'), t.
    split; [reflexivity|]. split; [apply returned_count_small|].
    split; [apply lookup_insert_eq|]. split; [exact Hs|].
    split; [exact Ht|].
    change (l_in_frames (out_write_init bytes)) with (bytes / 4) in Hev.
    change (l_frame_size (out_write_init bytes)) with 4 in Hev.
    rewrite wrap32_small in Hev; [exact Hev|].
    pose proof (Z.mul_div_le bytes 4 ltac:(lia)).
    assert (0 <= bytes / 4) by (apply Z.div_pos; lia). lia.
  - intros out1 w1 Hs1.
    destruct (do_out_standby_running out1 w1 Hs1) as (H1 & H2 & H3 & H4 & _). auto.
  - intros fuel o1 buffer1 bytes1 w1 r b w' Hb H. unfold out_write in H.
    destruct (outs w1 !! o1) as [out1|]; [|discriminate].
    destruct (out_write_do_over fuel o1 bytes1 (out_write_init bytes1) buffer1 out1 w1)
      as [[[[r2 b2] out2] w2]|] eqn:E; [|discriminate].
    apply out_write_do_over_returns_bytes in E. injection H as <- _ _.
    rewrite E. now apply to_int32_returned_count.
Qed.

(** ** The theorems at work *)

Lemma world_underrun_out n :
  outs (world_low_latency (env_underrun n)) !! 0%nat = Some low_latency_stream.
Proof. vm_compute. reflexivity. Qed.

Lemma world_underrun_plain n :
  plain_playback low_latency_stream (world_low_latency (env_underrun n)).
Proof. repeat split. Qed.

Lemma world_underrun_reopens n :
  endpoint_reopens (env (world_low_latency (env_underrun n))).
Proof. intros k. reflexivity. Qed.

Lemma world_underrun_ring n :
  ring_calm (env (world_low_latency (env_underrun n))) low_latency_stream.
Proof.
  split; [|intros C; discriminate C]. intros k. right. vm_compute. discriminate.
Qed.

Lemma env_underrun_underruns n : underruns (env_underrun n) 0 n.
Proof.
  split.
  - intros k Hk. change (pcm_mmap_write_result (env_underrun n) (0 + k))
      with (if (k <? n)%nat then - EPIPE else 0).
    destruct (Nat.ltb_spec k n); [reflexivity | lia].
  - change (pcm_mmap_write_result (env_underrun n) (0 + n))
      with (if (n <? n)%nat then - EPIPE else 0).
    destruct (Nat.ltb_spec n n); [lia | reflexivity].
Qed.

Lemma world_underrun_underruns n :
  underruns (env (world_low_latency (env_underrun n)))
    (n_write (calls (world_low_latency (env_underrun n)))) n.
Proof. exact (env_underrun_underruns n). Qed.

Lemma small_request : 0 <= 16 < 2 ^ 32.
Proof. lia. Qed.

Lemma world_sco_underrun_out :
  outs (world_capturing_sco_underrun 1) !! 0%nat = Some low_latency_stream.
Proof. vm_compute. reflexivity. Qed.

Lemma world_sco_underrun_plain :
  plain_playback low_latency_stream (world_capturing_sco_underrun 1).
Proof. repeat split. Qed.

Lemma world_sco_underrun_reopens :
  endpoint_reopens (env (world_capturing_sco_underrun 1)).
Proof. intros k. reflexivity. Qed.

Lemma world_sco_underrun_ring :
  ring_calm (env (world_capturing_sco_underrun 1)) low_latency_stream.
Proof.
  split; [|intros C; discriminate C]. intros k. right. vm_compute. discriminate.
Qed.

Lemma world_sco_underrun_underruns :
  underruns (env (world_capturing_sco_underrun 1))
    (n_write (calls (world_capturing_sco_underrun 1))) 1.
Proof. exact (env_underrun_underruns 1). Qed.

(** Two underruns on the low-latency stream: three writes of the same
    four frames, each to the handle opened last; and one underrun
    beside a capture from the Bluetooth SCO headset that runs at 8000
    Hz: the start closes the capture, and the retry goes on as
    before. *)
Lemma out_write_retries_every_underrun_witness :
  (let h := playback_handle PCM_DEVICE_DEFAULT_OUT pcm_config_out_started in
   exists out' w' t,
     out_write (2 + 2) 0 (client_block 16) 16 (world_low_latency (env_underrun 2))
       = Some (16, client_block 16, w')
     /\ outs w' !! 0%nat = Some out'
     /\ o_standby out' = false
     /\ trace w' = trace (world_low_latency (env_underrun 2)) ++ t
     /\ endpoint_events t =
          [playback_open PCM_DEVICE_DEFAULT_OUT pcm_config_out_started 0;
           EvPcmWrite (Some (h 0%nat)) ClientBuffer (client_block 16) 16 (- EPIPE);
           EvPcmClose (Some (h 0%nat));
           playback_open PCM_DEVICE_DEFAULT_OUT pcm_config_out_started 1;
           EvPcmWrite (Some (h 1%nat)) ClientBuffer (client_block 16) 16 (- EPIPE);
           EvPcmClose (Some (h 1%nat));
           playback_open PCM_DEVICE_DEFAULT_OUT pcm_config_out_started 2;
           EvPcmWrite (Some (h 2%nat)) ClientBuffer (client_block 16) 16 0])
  /\ (let h := playback_handle PCM_DEVICE_DEFAULT_OUT pcm_config_out_started in
      exists out' w' t,
        out_write (1 + 2) 0 (client_block 16) 16 (world_capturing_sco_underrun 1)
          = Some (16, client_block 16, w')
        /\ outs w' !! 0%nat = Some out'
        /\ o_standby out' = false
        /\ trace w' = trace (world_capturing_sco_underrun 1) ++ t
        /\ endpoint_events t =
             [EvPcmClose (i_pcm capture_sco_running);
              playback_open PCM_DEVICE_DEFAULT_OUT pcm_config_out_started 1;
              EvPcmWrite (Some (h 1%nat)) ClientBuffer (client_block 16) 16 (- EPIPE);
              EvPcmClose (Some (h 1%nat));
              playback_open PCM_DEVICE_DEFAULT_OUT pcm_config_out_started 2;
              EvPcmWrite (Some (h 2%nat)) ClientBuffer (client_block 16) 16 0]).
Proof.
  split; cbn zeta.
  - destruct (proj1 (out_write_retries_every_underrun 2 0 low_latency_stream
                       (client_block 16) 16 (world_low_latency (env_underrun 2))
                       (world_underrun_out 2) (world_underrun_plain 2)
                       (world_underrun_reopens 2) (world_underrun_ring 2)
                       (world_underrun_underruns 2) small_request))
      as (out' & w' & t & H1 & _ & H2 & H3 & H4 & H5).
    exists out', w', t. split; [exact H1|]. split; [exact H2|]. split; [exact H3|].
    split; [exact H4|]. rewrite H5. vm_compute. reflexivity.
  - destruct (proj1 (out_write_retries_every_underrun 1 0 low_latency_stream
                       (client_block 16) 16 (world_capturing_sco_underrun 1)
                       world_sco_underrun_out world_sco_underrun_plain
                       world_sco_underrun_reopens world_sco_underrun_ring
                       world_sco_underrun_underruns small_request))
      as (out' & w' & t & H1 & _ & H2 & H3 & H4 & H5).
    exists out', w', t. split; [exact H1|]. split; [exact H2|]. split; [exact H3|].
    split; [exact H4|]. rewrite H5. vm_compute. reflexivity.
Defined.

(** C2 fails on a stream routed to HDMI: 4096 frames are asked for, the
    first write fails with [-EPIPE], the write that is retried
    succeeds and [out_write] returns the 16384 bytes, and each of the
    two writes hands the endpoint 7680 bytes, which are 1920 frames. *)
Lemma out_write_retry_hdmi_counterexample :
  match out_write 3 0 (client_block 16384) 16384 (world_hdmi (env_underrun 1)) with
  | Some (r, _, w') =>
      r = 16384
      /\ writes_of (trace w') =
           [(ClientBuffer, client_block 7680, 7680, - EPIPE);
            (ClientBuffer, client_block 7680, 7680, 0)]
      /\ 7680 / audio_stream_frame_size out_get_channels
         <> 16384 / audio_stream_frame_size out_get_channels
  | None => False
  end.
Proof. vm_compute. repeat split; try reflexivity. congruence. Qed.

Lemma world_capturing_sco_in :
  ins world_capturing_sco !! 0%nat = Some capture_sco_running.
Proof. vm_compute. reflexivity. Qed.

Lemma world_playing_out :
  outs world_playing !! 0%nat = Some playback_running.
Proof. vm_compute. reflexivity. Qed.

(** A playback started beside a capture at 8000 Hz, and a capture at
    8000 Hz started beside a playback at 44100 Hz. *)
Lemma start_forces_opposite_stream_once_witness :
  (let r := start_output_stream 0 low_latency_stream world_capturing_sco in
   ins r.2 !! 0%nat = Some (set_i_standby true (set_i_pcm None capture_sco_running))
   /\ closes_of (trace r.2) = [i_pcm capture_sco_running])
  /\
  (let r := start_input_stream 0 capture_sco_opened world_playing in
   outs r.2 !! 0%nat = Some (set_o_standby true (set_o_pcm None playback_running))
   /\ closes_of (trace r.2) = [o_pcm playback_running]).
Proof.
  split.
  - split.
    + refine (proj1 (proj2 (proj1 (start_forces_opposite_stream_once world_capturing_sco)
               0%nat low_latency_stream 0%nat capture_sco_running
               eq_refl world_capturing_sco_in eq_refl _ _ eq_refl))).
      * vm_compute. auto.
      * vm_compute. auto 6.
    + vm_compute. reflexivity.
  - split.
    + refine (proj1 (proj2 (proj2 (start_forces_opposite_stream_once world_playing)
               0%nat capture_sco_opened 0%nat playback_running
               eq_refl world_playing_out eq_refl _ eq_refl))).
      vm_compute. auto.
    + vm_compute. reflexivity.
Defined.

(** * More of the file *)

(** ** Buffer sizes *)

Lemma round_up_16 q :
  0 <= q ->
  q <= (q + 15) / 16 * 16 < q + 16 /\ ((q + 15) / 16 * 16) mod 16 = 0.
Proof.
  intros Hq. split.
  - pose proof (Z.div_mod (q + 15) 16 ltac:(lia)).
    pose proof (Z.mod_pos_bound (q + 15) 16 ltac:(lia)). lia.
  - apply Z.mod_mul. lia.
Qed.

Lemma wrap32_idem z : wrap32 (wrap32 z) = wrap32 z.
Proof. unfold wrap32. apply Z.mod_mod. lia. Qed.

(** X1: the size that [out_get_buffer_size] returns is a whole number of
    frames of 4 bytes; that number is a multiple of 16, and is the
    least one that holds the frames of one short period at the
    endpoint's rate, [SHORT_PERIOD_SIZE * OUT_SAMPLING_RATE / rate]. *)
Theorem out_get_buffer_size_rounds_up (out : stream_out) :
  0 < rate (o_pcm_config out) ->
  exists frames,
    out_get_buffer_size out = frames * 4
    /\ frames mod 16 = 0
    /\ SHORT_PERIOD_SIZE * OUT_SAMPLING_RATE / rate (o_pcm_config out) <= frames
    /\ frames < SHORT_PERIOD_SIZE * OUT_SAMPLING_RATE / rate (o_pcm_config out) + 16.
Proof.
  intros Hr. unfold out_get_buffer_size.
  change (wrap32 (SHORT_PERIOD_SIZE * OUT_SAMPLING_RATE)) with 42336000.
  change (SHORT_PERIOD_SIZE * OUT_SAMPLING_RATE) with 42336000.
  change (audio_stream_frame_size out_get_channels) with 4.
  set (q := 42336000 / rate (o_pcm_config out)).
  assert (Hq : 0 <= q <= 42336000).
  { split; [apply Z.div_pos; lia|]. apply Z.div_le_upper_bound; nia. }
  destruct (round_up_16 q (proj1 Hq)) as [Hb Hm].
  rewrite (wrap32_small (q + 15)) by lia.
  rewrite (wrap32_small ((q + 15) / 16 * 16)) by lia.
  rewrite wrap32_small by lia.
  exists ((q + 15) / 16 * 16). repeat split; first [exact Hm | lia].
Qed.

(** At the reference rate the size is one short period. *)
Lemma out_get_buffer_size_rounds_up_witness :
  exists frames,
    out_get_buffer_size low_latency_stream = frames * 4
    /\ frames mod 16 = 0
    /\ SHORT_PERIOD_SIZE * OUT_SAMPLING_RATE / rate (o_pcm_config low_latency_stream)
       <= frames
    /\ frames
       < SHORT_PERIOD_SIZE * OUT_SAMPLING_RATE / rate (o_pcm_config low_latency_stream) + 16.
Proof.
  apply (out_get_buffer_size_rounds_up low_latency_stream). reflexivity.
Defined.

Lemma malloc_ins w : ins (malloc w).2 = ins w.
Proof. reflexivity. Qed.

Lemma create_resampler_ins a b c w : ins (create_resampler a b c w).2 = ins w.
Proof. reflexivity. Qed.

Lemma select_devices_ins w : ins (select_devices w) = ins w.
Proof.
  unfold select_devices. cbv zeta.
  pose proof (foldl_select_devices_step dev_names (log EvResetMixer w) (fun d H => H)) as H.
  revert H. generalize (foldl select_devices_step (log EvResetMixer w) dev_names).
  intros F (_ & _ & Hi & _). rewrite ins_log, Hi. reflexivity.
Qed.

(** What [adev_open_input_stream] makes. *)
Lemma adev_open_input_stream_makes all_in devices channel_mask sample_rate w
    ret i w' :
  adev_open_input_stream all_in devices channel_mask sample_rate w
    = (ret, Some i, w') ->
  ret = 0
  /\ ins w !! i = None
  /\ exists sin,
       ins w' = <[i := sin]> (ins w)
       /\ i_pcm sin = None /\ i_standby sin = true
       /\ i_pcm_config sin = pcm_config_in
       /\ i_requested_rate sin = sample_rate
       /\ i_frames_in sin = 0
       /\ i_resampler sin = negb (sample_rate =? rate pcm_config_in).
Proof.
  unfold adev_open_input_stream. intros H.
  destruct (negb (channel_mask =? AUDIO_CHANNEL_IN_MONO)); [discriminate|].
  destruct (malloc w) as [ok w1] eqn:M1.
  assert (I1 : ins w1 = ins w) by (rewrite <- (malloc_ins w), M1; reflexivity).
  destruct (negb ok); [discriminate|].
  set (w2 := select_devices _) in H.
  assert (I2 : ins w2 = ins w) by (subst w2; rewrite select_devices_ins; exact I1).
  clearbody w2.
  destruct (malloc w2) as [ok3 w3] eqn:M3.
  assert (I3 : ins w3 = ins w) by (rewrite <- I2, <- (malloc_ins w2), M3; reflexivity).
  destruct (negb ok3); [discriminate|].
  cbn [i_requested_rate i_pcm_config set_i_buffer set_i_frames_in i_pcm i_standby
       i_resampler i_buffer i_frames_in i_read_status] in H.
  destruct (negb (sample_rate =? rate pcm_config_in)) eqn:R.
  - destruct (create_resampler _ _ _ w3) as [r w4] eqn:C.
    assert (I4 : ins w4 = ins w)
      by (rewrite <- I3, <- (create_resampler_ins (rate pcm_config_in) sample_rate 1 w3), C;
          reflexivity).
    destruct (negb (r =? 0)); [discriminate|].
    injection H as <- <- <-. rewrite I4.
    split; [reflexivity|]. split.
    { apply not_elem_of_dom, is_fresh. }
    eexists. split; [reflexivity|]. cbn. repeat split.
  - injection H as <- <- <-. rewrite I3.
    split; [reflexivity|]. split.
    { apply not_elem_of_dom, is_fresh. }
    eexists. split; [reflexivity|]. cbn. repeat split.
Qed.

Lemma start_input_stream_announced i sin w :
  i_requested_rate (start_input_stream i sin w).1.2 = i_requested_rate sin
  /\ i_pcm_config (start_input_stream i sin w).1.2 =
       (if negb (Z.land (wrap32 (in_device (adev w) - AUDIO_DEVICE_BIT_IN))
                   (wrap32 (AUDIO_DEVICE_IN_ALL_SCO - AUDIO_DEVICE_BIT_IN)) =? 0)
        then pcm_config_sco else pcm_config_in).
Proof.
  unfold start_input_stream, in_select_geometry.
  destruct (negb (Z.land _ _ =? 0));
    destruct (pcm_open _ _ _ _ _) as [p w1];
    cbn [set_i_pcm i_pcm set_i_pcm_config i_resampler];
    destruct (open_failed p); try destruct (i_resampler sin); cbn; auto.
Qed.

(** X2: the size that [in_get_buffer_size] answers for a stream with
    the geometry of the default endpoint is the size that
    [adev_get_input_buffer_size] announces for the rate the stream was
    asked for, one channel and two bytes a sample, whatever the rate.
    A stream that [adev_open_input_stream] has made for [sample_rate]
    has that geometry and that rate.  A start keeps the rate and sets
    the geometry by the route of the input: that of the default
    endpoint, or that of the SCO endpoint, and with the latter a stream
    asked for 8000 Hz answers 512 where 352 were announced. *)
Theorem in_get_buffer_size_as_announced (sin : stream_in) :
  (i_pcm_config sin = pcm_config_in ->
   in_get_buffer_size sin
     = adev_get_input_buffer_size (i_requested_rate sin) AUDIO_CHANNEL_IN_MONO 2)
  /\ (forall all_in devices sample_rate w w' ret i,
        adev_open_input_stream all_in devices AUDIO_CHANNEL_IN_MONO sample_rate w
          = (ret, Some i, w') ->
        ins w' !! i = Some sin ->
        i_pcm_config sin = pcm_config_in
        /\ i_requested_rate sin = sample_rate
        /\ in_get_buffer_size sin
           = adev_get_input_buffer_size sample_rate AUDIO_CHANNEL_IN_MONO 2)
  /\ (forall i w,
        i_requested_rate (start_input_stream i sin w).1.2 = i_requested_rate sin
        /\ i_pcm_config (start_input_stream i sin w).1.2 =
             (if negb (Z.land (wrap32 (in_device (adev w) - AUDIO_DEVICE_BIT_IN))
                         (wrap32 (AUDIO_DEVICE_IN_ALL_SCO - AUDIO_DEVICE_BIT_IN)) =? 0)
              then pcm_config_sco else pcm_config_in))
  /\ (i_pcm_config sin = pcm_config_sco ->
      i_requested_rate sin = 8000 ->
      in_get_buffer_size sin = 512
      /\ adev_get_input_buffer_size 8000 AUDIO_CHANNEL_IN_MONO 2 = 352).
Proof.
  assert (Hin : i_pcm_config sin = pcm_config_in ->
                in_get_buffer_size sin
                  = adev_get_input_buffer_size (i_requested_rate sin) AUDIO_CHANNEL_IN_MONO 2).
  { intros Hc. unfold in_get_buffer_size, adev_get_input_buffer_size, in_get_sample_rate.
    rewrite Hc.
    change (audio_stream_frame_size in_get_channels) with 2.
    change (popcount AUDIO_CHANNEL_IN_MONO) with 1.
    rewrite Z.mul_1_r, wrap32_idem. reflexivity. }
  split; [exact Hin|]. split; [|split].
  - intros all_in devices sample_rate w w' ret i H Hi.
    destruct (adev_open_input_stream_makes _ _ _ _ _ _ _ _ H)
      as (_ & _ & sin' & Hins & _ & _ & Hc & Hr & _).
    rewrite Hins, lookup_insert_eq in Hi. injection Hi as <-.
    split; [exact Hc|]. split; [exact Hr|]. rewrite <- Hr. now apply Hin.
  - intros i w. apply start_input_stream_announced.
  - intros Hc Hr. unfold in_get_buffer_size, in_get_sample_rate. rewrite Hc, Hr.
    split; vm_compute; reflexivity.
Qed.

(** ** Route changes *)

Lemma select_devices_frame w :
  adev (select_devices w) = adev w
  /\ outs (select_devices w) = outs w
  /\ ins (select_devices w) = ins w
  /\ calls (select_devices w) = calls w
  /\ env (select_devices w) = env w
  /\ trace (select_devices w) =
       trace w ++ mixer_program (out_device (adev w)) (in_device (adev w)).
Proof.
  unfold select_devices, mixer_program. cbv zeta.
  pose proof (foldl_select_devices_step dev_names (log EvResetMixer w) (fun d H => H)) as H.
  revert H. generalize (foldl select_devices_step (log EvResetMixer w) dev_names).
  intros F (Ha & Ho & Hi & Hc & He & Ht).
  rewrite trace_log, adev_log, outs_log, ins_log, Ha, Ho, Hi, Ht.
  repeat split; [exact Hc | exact He |].
  rewrite trace_log, adev_log, <- !app_assoc. reflexivity.
Qed.

Lemma lxor_neq_0 a b : negb (Z.lxor a b =? 0) = negb (a =? b).
Proof.
  f_equal. destruct (Z.eqb_spec a b) as [->|N].
  - rewrite Z.lxor_nilpotent. reflexivity.
  - apply Z.eqb_neq. intros H. apply N, Z.lxor_eq, H.
Qed.

Lemma do_out_standby_cases out w :
  do_out_standby out w =
    if o_standby out then (out, w)
    else (closed_out out,
          set_adev (set_active_out None (adev w)) (pcm_close (o_pcm out) w)).
Proof.
  unfold do_out_standby. destruct (o_standby out); reflexivity.
Qed.

Lemma do_in_standby_cases sin w :
  do_in_standby sin w =
    if i_standby sin then (sin, w)
    else (closed_in sin,
          set_adev (set_active_in None (adev w)) (pcm_close (i_pcm sin) w)).
Proof.
  unfold do_in_standby. destruct (i_standby sin); reflexivity.
Qed.

Ltac world_fields :=
  cbn [adev outs ins trace env calls set_adev set_outs set_ins set_out_device
       set_in_device set_active_out set_active_in out_device in_device
       active_out active_in mic_mute pcm_close log fst snd].

Ltac settle :=
  repeat match goal with
         | |- _ /\ _ => split
         | |- _ -> _ => intros
         | H : _ \/ _ |- _ => destruct H
         | H : _ /\ _ |- _ => destruct H
         end;
  try reflexivity; try contradiction; try discriminate; try congruence.

(** X3: a routing request that [out_set_parameters] acts on (the key is
    there, the value is not 0 and is not the selector in place) makes
    the value the output selector and programs the mixer for it.  The
    stream is forced to standby, its endpoint closed, exactly when it
    is running and the new and the old selector differ in a SCO bit;
    otherwise the streams and the active stream are as before, so a
    running stream keeps the endpoint it has. *)
Theorem out_set_parameters_routes (o : nat) (ret value : Z) (w : world)
    (out : stream_out) :
  outs w !! o = Some out ->
  0 <= ret -> wrap32 value <> 0 -> wrap32 value <> out_device (adev w) ->
  exists out' closes,
    out_set_parameters o ret value w
      = (ret, (out_set_parameters o ret value w).2)
    /\ outs (out_set_parameters o ret value w).2 = <[o := out']> (outs w)
    /\ ins (out_set_parameters o ret value w).2 = ins w
    /\ out_device (adev (out_set_parameters o ret value w).2) = wrap32 value
    /\ in_device (adev (out_set_parameters o ret value w).2) = in_device (adev w)
    /\ active_in (adev (out_set_parameters o ret value w).2) = active_in (adev w)
    /\ trace (out_set_parameters o ret value w).2
         = trace w ++ closes ++ mixer_program (wrap32 value) (in_device (adev w))
    /\ (Z.land (wrap32 value) AUDIO_DEVICE_OUT_ALL_SCO
          = Z.land (out_device (adev w)) AUDIO_DEVICE_OUT_ALL_SCO
        \/ o_standby out = true ->
        out' = out /\ closes = []
        /\ active_out (adev (out_set_parameters o ret value w).2) = active_out (adev w))
    /\ (Z.land (wrap32 value) AUDIO_DEVICE_OUT_ALL_SCO
          <> Z.land (out_device (adev w)) AUDIO_DEVICE_OUT_ALL_SCO
        /\ o_standby out = false ->
        out' = closed_out out /\ closes = [EvPcmClose (o_pcm out)]
        /\ active_out (adev (out_set_parameters o ret value w).2) = None).
Proof.
  intros Ho Hret Hv0 Hvd. unfold out_set_parameters.
  destruct (Z.geb_spec ret 0) as [_|]; [|lia].
  destruct (Z.eqb_spec (out_device (adev w)) (wrap32 value)) as [E|_]; [congruence|].
  destruct (Z.eqb_spec (wrap32 value) 0) as [E|_]; [congruence|].
  cbn [negb andb]. rewrite lxor_neq_0, Ho, do_out_standby_cases.
  destruct (Z.eqb_spec (Z.land (wrap32 value) AUDIO_DEVICE_OUT_ALL_SCO)
              (Z.land (out_device (adev w)) AUDIO_DEVICE_OUT_ALL_SCO)) as [E|N];
    cbn [negb].
  - exists out, []. cbn [snd].
    destruct (select_devices_frame (set_adev (set_out_device (wrap32 value) (adev w)) w))
      as (Ha & Ho' & Hi & _ & _ & Ht).
    rewrite Ha, Ho', Hi, Ht. world_fields.
    rewrite insert_id by exact Ho. settle.
  - destruct (o_standby out) eqn:S.
    + exists out, []. cbn [snd].
      destruct (select_devices_frame
                  (set_adev (set_out_device (wrap32 value)
                     (adev (set_outs (<[o:=out]> (outs w)) w)))
                     (set_outs (<[o:=out]> (outs w)) w)))
        as (Ha & Ho' & Hi & _ & _ & Ht).
      rewrite Ha, Ho', Hi, Ht. world_fields. settle.
    + exists (closed_out out), [EvPcmClose (o_pcm out)]. cbn [snd].
      match goal with |- context [select_devices ?x] =>
        destruct (select_devices_frame x) as (Ha & Ho' & Hi & _ & _ & Ht) end.
      rewrite Ha, Ho', Hi, Ht. world_fields. settle.
      rewrite <- app_assoc. reflexivity.
Qed.

(** The running playback of [world_playing] is routed to the Bluetooth
    SCO output: it is put in standby. *)
Lemma out_set_parameters_routes_witness :
  outs (out_set_parameters 0 0 AUDIO_DEVICE_OUT_BLUETOOTH_SCO world_playing).2 !! 0%nat
    = Some (closed_out playback_running)
  /\ active_out (adev (out_set_parameters 0 0 AUDIO_DEVICE_OUT_BLUETOOTH_SCO
                         world_playing).2) = None.
Proof.
  destruct (out_set_parameters_routes 0 0 AUDIO_DEVICE_OUT_BLUETOOTH_SCO world_playing
              playback_running world_playing_out)
    as (out' & closes & _ & Ho & _ & _ & _ & _ & _ & _ & Hf).
  - lia.
  - vm_compute. congruence.
  - vm_compute. congruence.
  - destruct Hf as (-> & _ & Ha).
    + split; [vm_compute; congruence | reflexivity].
    + split; [|exact Ha]. rewrite Ho. apply lookup_insert_eq.
Defined.

Lemma in_all_sco_bits n :
  Z.testbit AUDIO_DEVICE_IN_ALL_SCO n = (n =? 3) || (n =? 31).
Proof.
  destruct (Z.neg_nonneg_cases n) as [Hn|Hn].
  - rewrite Z.testbit_neg_r by exact Hn.
    destruct (Z.eqb_spec n 3); [lia|]. destruct (Z.eqb_spec n 31); [lia|]. reflexivity.
  - change AUDIO_DEVICE_IN_ALL_SCO with (Z.lor (2 ^ 3) (2 ^ 31)).
    rewrite Z.lor_spec, !Z.pow2_bits_eqb by lia.
    rewrite (Z.eqb_sym 3 n), (Z.eqb_sym 31 n). reflexivity.
Qed.

Lemma land_in_all_sco a b :
  Z.land a AUDIO_DEVICE_IN_ALL_SCO = Z.land b AUDIO_DEVICE_IN_ALL_SCO
  <-> Z.testbit a 3 = Z.testbit b 3 /\ Z.testbit a 31 = Z.testbit b 31.
Proof.
  split.
  - intros H. split.
    + apply (f_equal (fun z => Z.testbit z 3)) in H.
      rewrite !Z.land_spec, in_all_sco_bits, !andb_true_r in H. exact H.
    + apply (f_equal (fun z => Z.testbit z 31)) in H.
      rewrite !Z.land_spec, in_all_sco_bits, !andb_true_r in H. exact H.
  - intros [H3 H31]. apply Z.bits_inj'. intros n _.
    rewrite !Z.land_spec, in_all_sco_bits.
    destruct (Z.eqb_spec n 3) as [->|_]; [rewrite H3; reflexivity|].
    destruct (Z.eqb_spec n 31) as [->|_]; [rewrite H31; reflexivity|].
    rewrite !andb_false_r. reflexivity.
Qed.

Lemma ldiff_bit_in_31 x : Z.testbit (Z.ldiff x AUDIO_DEVICE_BIT_IN) 31 = false.
Proof.
  rewrite Z.ldiff_spec. change AUDIO_DEVICE_BIT_IN with (2 ^ 31).
  rewrite Z.pow2_bits_true by lia. apply andb_false_r.
Qed.

(** X4: a routing request that [in_set_parameters] acts on (the key is
    there, the value without the direction bit is not 0 and is not the
    selector in place) makes the value, without the direction bit, the
    input selector and programs the mixer for it.  The test for a SCO
    change compares the two selectors on [AUDIO_DEVICE_IN_ALL_SCO],
    which has the direction bit in it: the stream is forced to standby
    exactly when it is running and either the selectors differ in the
    bit of the SCO headset, or the selector in place still has the
    direction bit. *)
Theorem in_set_parameters_routes (i : nat) (ret value : Z) (w : world)
    (sin : stream_in) :
  ins w !! i = Some sin ->
  0 <= ret ->
  Z.ldiff (wrap32 value) AUDIO_DEVICE_BIT_IN <> 0 ->
  Z.ldiff (wrap32 value) AUDIO_DEVICE_BIT_IN <> in_device (adev w) ->
  exists sin' closes,
    in_set_parameters i ret value w = (ret, (in_set_parameters i ret value w).2)
    /\ ins (in_set_parameters i ret value w).2 = <[i := sin']> (ins w)
    /\ outs (in_set_parameters i ret value w).2 = outs w
    /\ in_device (adev (in_set_parameters i ret value w).2)
         = Z.ldiff (wrap32 value) AUDIO_DEVICE_BIT_IN
    /\ Z.testbit (in_device (adev (in_set_parameters i ret value w).2)) 31 = false
    /\ out_device (adev (in_set_parameters i ret value w).2) = out_device (adev w)
    /\ active_out (adev (in_set_parameters i ret value w).2) = active_out (adev w)
    /\ trace (in_set_parameters i ret value w).2
         = trace w ++ closes
             ++ mixer_program (out_device (adev w))
                  (Z.ldiff (wrap32 value) AUDIO_DEVICE_BIT_IN)
    /\ (Z.testbit (wrap32 value) 3 = Z.testbit (in_device (adev w)) 3
          /\ Z.testbit (in_device (adev w)) 31 = false
        \/ i_standby sin = true ->
        sin' = sin /\ closes = []
        /\ active_in (adev (in_set_parameters i ret value w).2) = active_in (adev w))
    /\ ((Z.testbit (wrap32 value) 3 <> Z.testbit (in_device (adev w)) 3
           \/ Z.testbit (in_device (adev w)) 31 = true)
        /\ i_standby sin = false ->
        sin' = closed_in sin /\ closes = [EvPcmClose (i_pcm sin)]
        /\ active_in (adev (in_set_parameters i ret value w).2) = None).
Proof.
  intros Hi Hret Hv0 Hvd. unfold in_set_parameters.
  destruct (Z.geb_spec ret 0) as [_|]; [|lia].
  set (val := Z.ldiff (wrap32 value) AUDIO_DEVICE_BIT_IN) in *.
  destruct (Z.eqb_spec (in_device (adev w)) val) as [E|_]; [congruence|].
  destruct (Z.eqb_spec val 0) as [E|_]; [congruence|].
  cbn [negb andb]. rewrite lxor_neq_0, Hi, do_in_standby_cases.
  assert (H31 : Z.testbit val 31 = false) by apply ldiff_bit_in_31.
  assert (H3 : Z.testbit val 3 = Z.testbit (wrap32 value) 3).
  { unfold val. rewrite Z.ldiff_spec. change AUDIO_DEVICE_BIT_IN with (2 ^ 31).
    rewrite Z.pow2_bits_false by lia. apply andb_true_r. }
  destruct (Z.eqb_spec (Z.land val AUDIO_DEVICE_IN_ALL_SCO)
              (Z.land (in_device (adev w)) AUDIO_DEVICE_IN_ALL_SCO)) as [E|N];
    cbn [negb].
  - apply land_in_all_sco in E. destruct E as [E3 E31].
    rewrite H3 in E3. rewrite H31 in E31.
    exists sin, []. cbn [snd].
    destruct (select_devices_frame (set_adev (set_in_device val (adev w)) w))
      as (Ha & Ho & Hi' & _ & _ & Ht).
    rewrite Ha, Ho, Hi', Ht. world_fields.
    rewrite insert_id by exact Hi. settle.
  - assert (N' : Z.testbit (wrap32 value) 3 <> Z.testbit (in_device (adev w)) 3
                 \/ Z.testbit (in_device (adev w)) 31 = true).
    { destruct (bool_decide (Z.testbit (wrap32 value) 3
                             = Z.testbit (in_device (adev w)) 3)) eqn:B.
      - apply bool_decide_eq_true in B.
        destruct (Z.testbit (in_device (adev w)) 31) eqn:B31; [now right|].
        exfalso. apply N, land_in_all_sco. rewrite H3, H31, B31. now split.
      - apply bool_decide_eq_false in B. now left. }
    destruct (i_standby sin) eqn:S.
    + exists sin, []. cbn [snd].
      match goal with |- context [select_devices ?x] =>
        destruct (select_devices_frame x) as (Ha & Ho & Hi' & _ & _ & Ht) end.
      rewrite Ha, Ho, Hi', Ht. world_fields.
      rewrite insert_id by exact Hi. settle.
      all: destruct N'; congruence.
    + exists (closed_in sin), [EvPcmClose (i_pcm sin)]. cbn [snd].
      match goal with |- context [select_devices ?x] =>
        destruct (select_devices_frame x) as (Ha & Ho & Hi' & _ & _ & Ht) end.
      rewrite Ha, Ho, Hi', Ht. world_fields. settle.
      all: try (destruct N'; congruence).
      all: rewrite <- app_assoc; reflexivity.
Qed.

Lemma world_capturing_mic_in :
  ins world_capturing_mic !! 0%nat = Some capture_mic_running.
Proof. vm_compute. reflexivity. Qed.

(** The running capture of [world_capturing_mic] is routed from the
    built-in microphone to the wired headset.  Neither is a SCO
    device, but the selector in place has the direction bit that
    [adev_open_input_stream] stored with the devices: the stream is put
    in standby. *)
Lemma in_set_parameters_routes_witness :
  ins (in_set_parameters 0 0 AUDIO_DEVICE_IN_WIRED_HEADSET world_capturing_mic).2 !! 0%nat
    = Some (closed_in capture_mic_running)
  /\ i_standby capture_mic_running = false
  /\ active_in (adev (in_set_parameters 0 0 AUDIO_DEVICE_IN_WIRED_HEADSET
                        world_capturing_mic).2) = None.
Proof.
  destruct (in_set_parameters_routes 0 0 AUDIO_DEVICE_IN_WIRED_HEADSET world_capturing_mic
              capture_mic_running world_capturing_mic_in)
    as (sin' & closes & _ & Hi & _ & _ & _ & _ & _ & _ & _ & Hf).
  - lia.
  - vm_compute. congruence.
  - vm_compute. congruence.
  - destruct Hf as (-> & _ & Ha).
    + split; [right; reflexivity | reflexivity].
    + split; [|split; [reflexivity | exact Ha]]. rewrite Hi. apply lookup_insert_eq.
Defined.

(** ** Device parameters *)

Lemma orientation_eqb_eq a b : orientation_eqb a b = true -> a = b.
Proof. destruct a, b; cbn; congruence. Qed.

(** X5: [adev_set_parameters] leaves the streams and the selectors alone.
    An orientation that differs from the one in place is stored and
    the mixer is programmed again, for the same selectors as before; an
    orientation that is in place programs nothing.  The screen state
    sets the low-power flag, off for the value "on" only.  The status
    returned is the status of the screen-state key alone, whatever was
    done for the orientation. *)
Theorem adev_set_parameters_effect (orientation_key screen_state_key : Z * string)
    (w : world) :
  (adev_set_parameters orientation_key screen_state_key w).1 = screen_state_key.1
  /\ outs (adev_set_parameters orientation_key screen_state_key w).2 = outs w
  /\ ins (adev_set_parameters orientation_key screen_state_key w).2 = ins w
  /\ out_device (adev (adev_set_parameters orientation_key screen_state_key w).2)
       = out_device (adev w)
  /\ in_device (adev (adev_set_parameters orientation_key screen_state_key w).2)
       = in_device (adev w)
  /\ active_out (adev (adev_set_parameters orientation_key screen_state_key w).2)
       = active_out (adev w)
  /\ active_in (adev (adev_set_parameters orientation_key screen_state_key w).2)
       = active_in (adev w)
  /\ orientation (adev (adev_set_parameters orientation_key screen_state_key w).2)
       = (if orientation_key.1 >=? 0 then parse_orientation orientation_key.2
          else orientation (adev w))
  /\ low_power (adev (adev_set_parameters orientation_key screen_state_key w).2)
       = (if screen_state_key.1 >=? 0
          then negb (String.eqb screen_state_key.2 AUDIO_PARAMETER_VALUE_ON)
          else low_power (adev w))
  /\ trace (adev_set_parameters orientation_key screen_state_key w).2
       = trace w ++
           (if (orientation_key.1 >=? 0)
               && negb (orientation_eqb (parse_orientation orientation_key.2)
                          (orientation (adev w)))
            then mixer_program (out_device (adev w)) (in_device (adev w))
            else []).
Proof.
  destruct orientation_key as [r1 v1], screen_state_key as [r2 v2].
  unfold adev_set_parameters. cbn [fst snd].
  set (w1 := if r1 >=? 0 then _ else w).
  assert (H1 : outs w1 = outs w /\ ins w1 = ins w
               /\ out_device (adev w1) = out_device (adev w)
               /\ in_device (adev w1) = in_device (adev w)
               /\ active_out (adev w1) = active_out (adev w)
               /\ active_in (adev w1) = active_in (adev w)
               /\ low_power (adev w1) = low_power (adev w)
               /\ orientation (adev w1)
                    = (if r1 >=? 0 then parse_orientation v1 else orientation (adev w))
               /\ trace w1 = trace w ++
                    (if (r1 >=? 0)
                        && negb (orientation_eqb (parse_orientation v1) (orientation (adev w)))
                     then mixer_program (out_device (adev w)) (in_device (adev w))
                     else [])).
  { subst w1. destruct (r1 >=? 0); cbn [andb].
    - destruct (orientation_eqb _ _) eqn:E; cbn [negb].
      + apply orientation_eqb_eq in E. rewrite app_nil_r. settle.
      + match goal with |- context [select_devices ?x] =>
          destruct (select_devices_frame x) as (Ha & Ho & Hi & _ & _ & Ht) end.
        rewrite Ha, Ho, Hi, Ht. settle.
    - rewrite app_nil_r. settle. }
  clearbody w1. destruct H1 as (Ho & Hi & Hod & Hid & Hao & Hai & Hlp & Hor & Ht).
  destruct (r2 >=? 0); [destruct (String.eqb v2 _)|]; cbn; settle.
Qed.

(** ** Supported devices *)

Lemma find_dev_name d :
  In d dev_names ->
  exists d', List.find (fun e => String.eqb (name d) (name e)) dev_names = Some d'
             /\ wrap32 (mask d') = mask d.
Proof.
  intros Hd. unfold dev_names in Hd. simpl in Hd.
  repeat (destruct Hd as [<- | Hd]; [eexists; split; [reflexivity | reflexivity] | ]).
  destruct Hd.
Qed.

Lemma find_dev_name_in path d :
  List.find (fun e => String.eqb path (name e)) dev_names = Some d ->
  In d dev_names /\ name d = path /\ wrap32 (mask d) = mask d.
Proof.
  intros H. apply find_some in H. destruct H as [Hd E].
  apply String.eqb_eq in E. split; [exact Hd|]. split; [now symmetry|].
  clear E. unfold dev_names in Hd. simpl in Hd.
  repeat (destruct Hd as [<- | Hd]; [reflexivity | ]).
  destruct Hd.
Qed.

Lemma supported_bits paths b : forall acc,
  Z.testbit
    (foldl (fun supported path =>
              match List.find (fun d => String.eqb path (name d)) dev_names with
              | Some d => Z.lor supported (wrap32 (mask d))
              | None => supported
              end) acc paths) b = true
  <-> Z.testbit acc b = true
      \/ exists d, In d dev_names /\ In (name d) paths /\ Z.testbit (mask d) b = true.
Proof.
  induction paths as [|p paths IH]; intros acc; cbn [foldl].
  - split; [now left|]. intros [H|(d & _ & [] & _)]. exact H.
  - rewrite IH. split.
    + intros [H|(d & Hd & Hp & Hb)].
      * destruct (List.find _ dev_names) as [d|] eqn:F; [|now left].
        rewrite Z.lor_spec in H. apply orb_true_iff in H. destruct H as [H|H]; [now left|].
        apply find_dev_name_in in F. destruct F as (Hd & <- & Hm).
        right. exists d. rewrite Hm in H. split; [exact Hd|]. split; [now left|exact H].
      * right. exists d. split; [exact Hd|]. split; [now right|exact Hb].
    + intros [H|(d & Hd & [Hp|Hp] & Hb)].
      * left. destruct (List.find _ dev_names); [|exact H].
        rewrite Z.lor_spec, H. reflexivity.
      * left. subst p. destruct (find_dev_name d Hd) as (d' & -> & Hm).
        rewrite Z.lor_spec, Hm, Hb. apply orb_true_r.
      * right. exists d. auto.
Qed.

(** X6: a selector bit is set in the answer of
    [adev_get_supported_devices] exactly when it is set in the mask of
    an entry of [dev_names] whose name is the name of a mixer path of
    the route; the order of the paths, and paths that are there more
    than once, make no difference. *)
Theorem adev_get_supported_devices_bits (paths : list string) (b : Z) :
  Z.testbit (adev_get_supported_devices paths) b = true
  <-> exists d, In d dev_names /\ In (name d) paths /\ Z.testbit (mask d) b = true.
Proof.
  unfold adev_get_supported_devices. rewrite supported_bits, Z.bits_0.
  split; [intros [H|H]; [discriminate|exact H] | now right].
Qed.

(** ** Waiting in [out_write] *)

Lemma out_write_throttle_S fuel out w :
  out_write_throttle (S fuel) out w =
    let k := n_htimestamp (calls w) in
    let w1 := log (EvHtimestamp (o_pcm out) (pcm_get_htimestamp_result (env w) k).1
                     (pcm_get_htimestamp_result (env w) k).2)
                (set_calls (next_htimestamp (calls w)) w) in
    if (pcm_get_htimestamp_result (env w) k).1 <? 0 then Some w1
    else if to_int32 (pcm_get_buffer_size (o_pcm out)
                      - (pcm_get_htimestamp_result (env w) k).2)
            >? o_write_threshold out
         then out_write_throttle fuel out (usleep (throttle_sleep (env w) out k) w1)
         else Some w1.
Proof.
  cbn [out_write_throttle]. unfold pcm_get_htimestamp, throttle_sleep. cbv zeta.
  destruct (pcm_get_htimestamp_result (env w) (n_htimestamp (calls w))) as [status avail].
  cbn [fst snd].
  destruct (status <? 0); [reflexivity|].
  destruct (_ >? _); [|reflexivity].
  f_equal. f_equal.
  destruct (Z.ltb_spec
              (wrap32 ((to_int32 (pcm_get_buffer_size (o_pcm out) - avail)
                        - o_write_threshold out) * 1000000 ÷ MM_FULL_POWER_SAMPLING_RATE))
              MIN_WRITE_SLEEP_US); lia.
Qed.

Lemma sleeps_of_app t1 t2 : sleeps_of (t1 ++ t2) = sleeps_of t1 ++ sleeps_of t2.
Proof. apply omap_app. Qed.

(** One poll that does not find the ring over the threshold ends the
    loop. *)
Lemma out_write_throttle_once fuel out w :
  ~ ring_over (env w) out (n_htimestamp (calls w)) ->
  out_write_throttle (S fuel) out w
    = Some (log (EvHtimestamp (o_pcm out)
                   (pcm_get_htimestamp_result (env w) (n_htimestamp (calls w))).1
                   (pcm_get_htimestamp_result (env w) (n_htimestamp (calls w))).2)
              (set_calls (next_htimestamp (calls w)) w)).
Proof.
  intros Hlast. rewrite out_write_throttle_S. cbv zeta. unfold ring_over in Hlast.
  destruct (Z.ltb_spec (pcm_get_htimestamp_result (env w) (n_htimestamp (calls w))).1 0);
    [reflexivity|].
  destruct (Z.gtb_spec
              (to_int32 (pcm_get_buffer_size (o_pcm out)
                         - (pcm_get_htimestamp_result (env w) (n_htimestamp (calls w))).2))
              (o_write_threshold out)); [exfalso; apply Hlast; lia | reflexivity].
Qed.

(** X7: the flow control of [out_write]: when the ring is over the write
    threshold at [n] polls in a row and is not at the next one, the
    loop sleeps [n] times, each time for the frames over the threshold
    at 48000 Hz and for [MIN_WRITE_SLEEP_US] at least, polls [n + 1]
    times and ends; it opens, closes and writes nothing. *)
Theorem out_write_throttle_waits (n : nat) : forall (fuel : nat) (out : stream_out)
    (w : world),
  (forall k, (k < n)%nat -> ring_over (env w) out (n_htimestamp (calls w) + k)) ->
  ~ ring_over (env w) out (n_htimestamp (calls w) + n) ->
  exists w' t,
    out_write_throttle (S n + fuel) out w = Some w'
    /\ trace w' = trace w ++ t
    /\ sleeps_of t
         = map (throttle_sleep (env w) out) (seq (n_htimestamp (calls w)) n)
    /\ Forall (fun usecs => MIN_WRITE_SLEEP_US <= usecs) (sleeps_of t)
    /\ endpoint_steps t = []
    /\ n_htimestamp (calls w') = (n_htimestamp (calls w) + S n)%nat
    /\ same_setting w w'.
Proof.
  induction n as [|n IH]; intros fuel out w Hover Hlast.
  - rewrite Nat.add_0_r in Hlast. cbn [Nat.add]. rewrite out_write_throttle_S. cbv zeta.
    unfold ring_over in Hlast.
    destruct (Z.ltb_spec (pcm_get_htimestamp_result (env w) (n_htimestamp (calls w))).1 0)
      as [Hs|Hs].
    + eexists _, [_]. split; [reflexivity|]. rewrite trace_log.
      repeat split; [constructor | cbn; lia].
    + destruct (Z.gtb_spec
                  (to_int32 (pcm_get_buffer_size (o_pcm out)
                             - (pcm_get_htimestamp_result (env w)
                                  (n_htimestamp (calls w))).2))
                  (o_write_threshold out)) as [Hk|Hk]; [exfalso; apply Hlast; lia|].
      eexists _, [_]. split; [reflexivity|]. rewrite trace_log.
      repeat split; [constructor | cbn; lia].
  - change (S (S n) + fuel)%nat with (S (S n + fuel)). rewrite out_write_throttle_S. cbv zeta.
    pose proof (Hover 0%nat ltac:(lia)) as H0. rewrite Nat.add_0_r in H0.
    destruct H0 as [Hs Hk].
    destruct (Z.ltb_spec (pcm_get_htimestamp_result (env w) (n_htimestamp (calls w))).1 0);
      [lia|].
    destruct (Z.gtb_spec
                (to_int32 (pcm_get_buffer_size (o_pcm out)
                           - (pcm_get_htimestamp_result (env w) (n_htimestamp (calls w))).2))
                (o_write_threshold out)); [|lia].
    match goal with |- context [out_write_throttle _ out ?x] => set (w1 := x) end.
    assert (E1 : env w1 = env w) by reflexivity.
    assert (C1 : n_htimestamp (calls w1) = S (n_htimestamp (calls w))) by reflexivity.
    destruct (IH fuel out w1) as (w' & t & Hr & Ht & Hsl & Hmin & Hsteps & Hn & Hsame).
    { intros k Hk'. rewrite E1, C1. replace (S (n_htimestamp (calls w)) + k)%nat
        with (n_htimestamp (calls w) + S k)%nat by lia. apply Hover. lia. }
    { rewrite E1, C1. replace (S (n_htimestamp (calls w)) + n)%nat
        with (n_htimestamp (calls w) + S n)%nat by lia. exact Hlast. }
    exists w', (EvHtimestamp (o_pcm out)
                  (pcm_get_htimestamp_result (env w) (n_htimestamp (calls w))).1
                  (pcm_get_htimestamp_result (env w) (n_htimestamp (calls w))).2
                :: EvUsleep (throttle_sleep (env w) out (n_htimestamp (calls w))) :: t).
    split; [exact Hr|]. split.
    { rewrite Ht. subst w1. unfold usleep. rewrite !trace_log, <- !app_assoc. reflexivity. }
    assert (Hsl' : sleeps_of
                     (EvHtimestamp (o_pcm out)
                        (pcm_get_htimestamp_result (env w) (n_htimestamp (calls w))).1
                        (pcm_get_htimestamp_result (env w) (n_htimestamp (calls w))).2
                      :: EvUsleep (throttle_sleep (env w) out (n_htimestamp (calls w))) :: t)
                   = throttle_sleep (env w) out (n_htimestamp (calls w)) :: sleeps_of t)
      by reflexivity.
    rewrite Hsl'. split.
    { rewrite Hsl, E1, C1. reflexivity. }
    split.
    { constructor; [unfold throttle_sleep; lia | exact Hmin]. }
    split; [exact Hsteps|]. split; [lia|].
    destruct Hsame as (He & Hi & Ho & Hd & Ha). repeat split; assumption.
Qed.

Lemma world_hdmi_playing_twice_out :
  outs (world_hdmi_playing full_twice) !! 0%nat = Some hdmi_stream_running.
Proof. vm_compute. reflexivity. Qed.

(** A playback to HDMI whose ring is full at two polls: two sleeps of
    160 ms, the time of the 7680 frames of the ring at 48000 Hz. *)
Lemma out_write_throttle_waits_witness :
  exists w' t,
    out_write_throttle 3 hdmi_stream_running (world_hdmi_playing full_twice) = Some w'
    /\ trace w' = trace (world_hdmi_playing full_twice) ++ t
    /\ sleeps_of t = [160000; 160000]
    /\ endpoint_steps t = [].
Proof.
  destruct (out_write_throttle_waits 2 0 hdmi_stream_running (world_hdmi_playing full_twice))
    as (w' & t & Hr & Ht & Hs & _ & He & _).
  - intros k Hk. destruct k as [|[|k]]; [| |lia].
    + vm_compute. split; [discriminate | reflexivity].
    + vm_compute. split; [discriminate | reflexivity].
  - intros [_ H]. vm_compute in H. discriminate.
  - exists w', t. split; [exact Hr|]. split; [exact Ht|]. split; [|exact He].
    rewrite Hs. vm_compute. reflexivity.
Defined.

Lemma ring_over_same e out out' k :
  o_pcm out' = o_pcm out -> o_write_threshold out' = o_write_threshold out ->
  ring_over e out k -> ring_over e out' k.
Proof. unfold ring_over. intros -> ->. auto. Qed.

Lemma out_write_throttle_stuck fuel : forall out w,
  (forall k, ring_over (env w) out (n_htimestamp (calls w) + k)) ->
  out_write_throttle fuel out w = None.
Proof.
  induction fuel as [|fuel IH]; intros out w Hover; [reflexivity|].
  rewrite out_write_throttle_S. cbv zeta.
  pose proof (Hover 0%nat) as H0. rewrite Nat.add_0_r in H0. destruct H0 as [Hs Hk].
  destruct (Z.ltb_spec (pcm_get_htimestamp_result (env w) (n_htimestamp (calls w))).1 0);
    [lia|].
  destruct (Z.gtb_spec
              (to_int32 (pcm_get_buffer_size (o_pcm out)
                         - (pcm_get_htimestamp_result (env w) (n_htimestamp (calls w))).2))
              (o_write_threshold out)); [|lia].
  apply IH. intros k.
  change (ring_over (env w) out (S (n_htimestamp (calls w)) + k)).
  replace (S (n_htimestamp (calls w)) + k)%nat
    with (n_htimestamp (calls w) + S k)%nat by lia.
  apply Hover.
Qed.

(** X8: the flow control has no bound.  On a running stream that gets as
    far as the flow control (it needs no converter, or has one, or can
    create one) and is not routed to SCO, a call of [out_write] does
    not return as long as every poll finds the ring over the write
    threshold: whatever the number of steps allowed, the call has not
    returned. *)
Theorem out_write_blocks_while_ring_over (fuel : nat) (o : nat) (buffer : block)
    (bytes : Z) (w : world) (out : stream_out) :
  outs w !! o = Some out ->
  o_standby out = false ->
  rate (o_pcm_config out) = OUT_SAMPLING_RATE
  \/ o_resampler out = true
  \/ create_resampler_result (env w) (n_create (calls w)) = 0
     /\ malloc_result (env w) (n_malloc (calls w)) = true ->
  Z.land (out_device (adev w)) AUDIO_DEVICE_OUT_ALL_SCO = 0 ->
  (forall k, ring_over (env w) out (n_htimestamp (calls w) + k)) ->
  out_write fuel o buffer bytes w = None.
Proof.
  intros Ho Hs Hconv Hsco Hover. unfold out_write. rewrite Ho.
  destruct fuel as [|fuel]; [reflexivity|].
  rewrite out_write_do_over_S. unfold out_write_body. rewrite Hs.
  assert (Hrun : out_write_running fuel (out_write_init bytes) buffer out w = None);
    [|now rewrite Hrun].
  unfold out_write_running. rewrite Hsco. cbn [Z.eqb negb].
  destruct (popcount out_get_channels >? to_int32 (channels (o_pcm_config out))).
  all: destruct (Z.eqb_spec (rate (o_pcm_config out)) OUT_SAMPLING_RATE) as [E|N];
    cbn [negb];
    [ now rewrite out_write_throttle_stuck | ].
  all: destruct Hconv as [E|[R|[C M]]]; [contradiction | | ].
  all: try (rewrite R; cbn [negb]; unfold resample_from_input;
            destruct (resample_from_input_result _ _ _ _ _) as [[data inf] outf];
            rewrite out_write_throttle_stuck; [reflexivity|];
            intros k; eapply ring_over_same; [| |apply (Hover k)]; reflexivity).
  all: destruct (o_resampler out) eqn:R; cbn [negb];
    [ unfold resample_from_input;
      destruct (resample_from_input_result _ _ _ _ _) as [[data inf] outf];
      rewrite out_write_throttle_stuck; [reflexivity|];
      intros k; eapply ring_over_same; [| |apply (Hover k)]; reflexivity | ].
  all: unfold create_resampler; rewrite C; cbn [Z.eqb negb];
    unfold malloc; cbn [env calls log set_calls next_create n_malloc]; rewrite M;
    unfold resample_from_input;
    destruct (resample_from_input_result _ _ _ _ _) as [[data inf] outf];
    rewrite out_write_throttle_stuck; [reflexivity|];
    intros k; eapply ring_over_same; [| |apply (Hover k)]; reflexivity.
Qed.

Lemma world_hdmi_playing_for_ever_out :
  outs (world_hdmi_playing full_for_ever) !! 0%nat = Some hdmi_stream_running.
Proof. vm_compute. reflexivity. Qed.

(** A playback to HDMI whose ring stays full after the first block. *)
Lemma out_write_blocks_while_ring_over_witness :
  out_write 1000 0 (client_block 16) 16 (world_hdmi_playing full_for_ever) = None.
Proof.
  apply (out_write_blocks_while_ring_over 1000 0 (client_block 16) 16
           (world_hdmi_playing full_for_ever) hdmi_stream_running
           world_hdmi_playing_for_ever_out).
  - vm_compute. reflexivity.
  - right. left. vm_compute. reflexivity.
  - vm_compute. reflexivity.
  - intros k. vm_compute. split; [discriminate | reflexivity].
Defined.

(** ** The handle and the standby flag *)

Lemma out_write_throttle_env fuel : forall out w w',
  out_write_throttle fuel out w = Some w' -> env w' = env w.
Proof.
  induction fuel as [|fuel IH]; intros out w w' H; [discriminate|].
  rewrite out_write_throttle_S in H. cbv zeta in H.
  destruct (_ <? 0); [now injection H as <-|].
  destruct (_ >? _); [|now injection H as <-].
  apply IH in H. exact H.
Qed.

Lemma create_resampler_env a b c w : env (create_resampler a b c w).2 = env w.
Proof. reflexivity. Qed.

Lemma malloc_env w : env (malloc w).2 = env w.
Proof. reflexivity. Qed.

Lemma resample_from_input_env input a b w :
  env (resample_from_input input a b w).2 = env w.
Proof.
  unfold resample_from_input.
  destruct (resample_from_input_result _ _ _ _ _) as [[? ?] ?]. reflexivity.
Qed.

Lemma out_write_running_keeps fuel l buffer out w l' b' out' w' :
  out_write_running fuel l buffer out w = Some (l', b', out', w') ->
  env w' = env w /\ o_pcm out' = o_pcm out /\ o_standby out' = o_standby out.
Proof.
  unfold out_write_running. intros H.
  destruct (popcount out_get_channels >? _).
  all: destruct (negb (rate (o_pcm_config out) =? OUT_SAMPLING_RATE)).
  all: try destruct (negb (o_resampler out)).
  all: try (destruct (create_resampler _ _ _ w) as [ret w1] eqn:C;
            pose proof (create_resampler_env OUT_SAMPLING_RATE MM_FULL_POWER_SAMPLING_RATE 2 w)
              as E1; rewrite C in E1; cbn [snd] in E1;
            destruct (negb (ret =? 0));
            [ injection H as <- <- <- <-; auto
            | destruct (malloc w1) as [ok w2] eqn:M;
              pose proof (malloc_env w1) as E2; rewrite M in E2; cbn [snd] in E2;
              destruct ok; [|injection H as <- <- <- <-; split; [congruence|auto]] ]).
  all: try (destruct (resample_from_input _ _ _ _) as [[[data inf] outf] w3] eqn:R;
            match type of R with resample_from_input ?i ?a ?b ?x = _ =>
              pose proof (resample_from_input_env i a b x) as E3 end;
            rewrite R in E3; cbn [snd] in E3).
  all: destruct (negb (negb _)).
  all: try (destruct (out_write_throttle _ _ _) as [w4|] eqn:T; [|discriminate];
            apply out_write_throttle_env in T).
  all: unfold pcm_mmap_write in H; injection H as <- <- <- <-.
  all: cbn [env log set_calls]; split; [congruence | auto].
Qed.

Lemma start_output_stream_env o out w : env (start_output_stream o out w).2 = env w.
Proof.
  unfold start_output_stream.
  destruct (out_select_geometry out w) as [[card device] out_g].
  destruct (out_standby_active_in_frame (rate (o_pcm_config out_g)) w) as (He & _).
  pose proof (pcm_open_world card device PCM_OUT_MMAP (o_pcm_config out_g)
                (out_standby_active_in (rate (o_pcm_config out_g)) w)) as W.
  destruct (pcm_open _ _ _ _ _) as [p w1]. cbn [fst snd] in W. subst w1.
  destruct p as [h|]; cbn [set_o_pcm o_pcm open_failed].
  - destruct (negb (pcm_is_ready h)); [exact He|].
    destruct (o_resampler _); exact He.
  - destruct (o_resampler _); exact He.
Qed.

(** The start of a playback stream when the endpoint opens. *)
Lemma start_output_stream_ready o out w :
  pcm_open_result (env w) (n_open (calls w)) = OpenReady ->
  exists h,
    (start_output_stream o out w).1
      = (0, set_o_pcm (Some h) (out_select_geometry out w).2)
    /\ pcm_cfg h = o_pcm_config (out_select_geometry out w).2
    /\ pcm_ready h = true.
Proof.
  intros H. unfold start_output_stream.
  destruct (out_select_geometry out w) as [[card device] out_g]. cbn [snd].
  destruct (out_standby_active_in_frame (rate (o_pcm_config out_g)) w) as (He & Hc & _).
  rewrite pcm_open_ready by (now rewrite He, Hc).
  cbn [set_o_pcm o_pcm open_failed pcm_is_ready opened pcm_ready negb o_resampler].
  destruct (o_resampler out_g); eexists; (split; [reflexivity|]); split; reflexivity.
Qed.

Lemma out_write_body_keeps fuel o l buffer out w l' b' out' w' :
  endpoint_reopens (env w) ->
  (o_standby out = false -> is_Some (o_pcm out)) ->
  out_write_body fuel o l buffer out w = Some (l', b', out', w') ->
  env w' = env w /\ o_standby out' = false /\ is_Some (o_pcm out').
Proof.
  intros Hopen Hrun H. unfold out_write_body in H.
  destruct (o_standby out) eqn:S.
  - destruct (start_output_stream_ready o out w (Hopen _)) as (h & Hs & _).
    pose proof (start_output_stream_env o out w) as He.
    destruct (start_output_stream o out w) as [[ret out1] w1].
    cbn [fst snd] in Hs, He. injection Hs as -> ->. cbn [Z.eqb negb] in H.
    apply out_write_running_keeps in H. destruct H as (He' & Hp & Hs').
    split; [congruence|]. split; [exact Hs'|]. rewrite Hp. eexists; reflexivity.
  - apply out_write_running_keeps in H. destruct H as (He' & Hp & Hs').
    split; [exact He'|]. split; [congruence|]. rewrite Hp. auto.
Qed.

Lemma out_write_do_over_keeps fuel : forall o bytes l buffer out w r b out' w',
  endpoint_reopens (env w) ->
  (o_standby out = false -> is_Some (o_pcm out)) ->
  out_write_do_over fuel o bytes l buffer out w = Some (r, b, out', w') ->
  env w' = env w /\ o_standby out' = false /\ is_Some (o_pcm out').
Proof.
  induction fuel as [|fuel IH]; intros o bytes l buffer out w r b out' w' Hopen Hrun H;
    [discriminate|].
  rewrite out_write_do_over_S in H.
  destruct (out_write_body fuel o l buffer out w) as [[[[l1 b1] out1] w1]|] eqn:B;
    [|discriminate].
  apply out_write_body_keeps in B; [|assumption..]. destruct B as (He & Hs & Hp).
  cbn zeta in H.
  destruct (out_write_exit_frame bytes l1 w1) as (_ & _ & _ & (Hex & _) & _).
  destruct (l_ret l1 =? - EPIPE).
  - destruct (do_out_standby_running out1 (out_write_exit bytes l1 w1) Hs)
      as (Hs2 & _ & _ & _ & _ & _ & (He2 & _) & _).
    destruct (do_out_standby out1 _) as [out2 w2]. cbn [fst snd] in *.
    apply IH in H.
    + destruct H as (He3 & H). split; [congruence | exact H].
    + congruence.
    + intros E. congruence.
  - injection H as _ _ <- <-. split; [congruence|]. split; assumption.
Qed.

(** X9: with an endpoint that opens whenever it is asked, a call of
    [out_write] that returns leaves the stream running with an open
    handle: the standby flag is clear and [pcm] is not NULL, whether
    the stream was in standby or running before, and whatever the
    writes answered. *)
Theorem out_write_leaves_stream_running (fuel : nat) (o : nat) (buffer : block)
    (bytes : Z) (w : world) (out : stream_out) (r : Z) (b : block) (w' : world) :
  endpoint_reopens (env w) ->
  outs w !! o = Some out ->
  (o_standby out = false -> is_Some (o_pcm out)) ->
  out_write fuel o buffer bytes w = Some (r, b, w') ->
  exists out' h,
    outs w' !! o = Some out' /\ o_standby out' = false /\ o_pcm out' = Some h
    /\ env w' = env w.
Proof.
  intros Hopen Ho Hrun H. unfold out_write in H. rewrite Ho in H.
  destruct (out_write_do_over _ _ _ _ _ _ _) as [[[[r1 b1] out1] w1]|] eqn:D;
    [|discriminate].
  injection H as <- <- <-.
  apply out_write_do_over_keeps in D; [|assumption..].
  destruct D as (He & Hs & [h Hp]).
  exists out1, h. cbn [outs set_outs env]. rewrite lookup_insert_eq. auto.
Qed.

Lemma world_low_latency_first_write :
  (if out_write 2 0 (client_block 16) 16 (world_low_latency env_ok) is Some _
   then true else false) = true.
Proof. vm_compute. reflexivity. Qed.

(** The first block of a low-latency playback. *)
Lemma out_write_leaves_stream_running_witness :
  match out_write 2 0 (client_block 16) 16 (world_low_latency env_ok) with
  | Some (_, _, w') =>
      exists out' h,
        outs w' !! 0%nat = Some out' /\ o_standby out' = false /\ o_pcm out' = Some h
        /\ env w' = env (world_low_latency env_ok)
  | None => False
  end.
Proof.
  pose proof (out_write_leaves_stream_running 2 0 (client_block 16) 16
                (world_low_latency env_ok) low_latency_stream) as H.
  pose proof world_low_latency_first_write as R.
  destruct (out_write 2 0 (client_block 16) 16 (world_low_latency env_ok))
    as [[[r b] w']|]; [|discriminate R].
  apply (H r b w').
  - intros k. reflexivity.
  - vm_compute. reflexivity.
  - discriminate.
  - reflexivity.
Defined.

Lemma get_next_buffer_keeps buffer sin w :
  i_pcm (get_next_buffer buffer sin w).1.2 = i_pcm sin
  /\ i_standby (get_next_buffer buffer sin w).1.2 = i_standby sin.
Proof.
  unfold get_next_buffer. destruct (i_pcm sin) as [p|] eqn:P; [|now rewrite <- P].
  rewrite <- P.
  destruct (i_frames_in sin =? 0); [|auto].
  destruct (pcm_read _ _ w) as [[status data] w1].
  destruct (negb (status =? 0)); [auto|].
  cbn [set_i_buffer set_i_read_status i_pcm_config set_i_frames_in].
  destruct (channels (i_pcm_config sin) =? 2); auto.
Qed.

Lemma run_puller_keeps c : forall sin w,
  i_pcm (run_puller c sin w).1.2 = i_pcm sin
  /\ i_standby (run_puller c sin w).1.2 = i_standby sin.
Proof.
  induction c as [out n | n consumed k IH]; intros sin w; [auto|].
  cbn [run_puller].
  pose proof (get_next_buffer_keeps {| raw := None; frame_count := n |} sin w) as [Hp Hs].
  destruct (get_next_buffer _ sin w) as [[[st buf] sin1] w1]. cbn [fst snd] in Hp, Hs.
  rewrite <- Hp, <- Hs.
  match goal with
  | |- context [run_puller (k ?pv) ?s w1] => destruct (IH pv s w1) as [H1 H2]
  end.
  rewrite H1, H2. auto.
Qed.

Lemma read_frames_loop_keeps fuel : forall frames frames_wr buffer sin w r b sin' w',
  read_frames_loop fuel frames frames_wr buffer sin w = Some (r, b, sin', w') ->
  i_pcm sin' = i_pcm sin /\ i_standby sin' = i_standby sin.
Proof.
  induction fuel as [|fuel IH]; intros frames frames_wr buffer sin w r b sin' w' H;
    [discriminate|].
  cbn [read_frames_loop] in H.
  destruct (frames_wr <? frames); [|injection H as <- <- <- <-; auto].
  destruct (i_resampler sin).
  - unfold resample_from_provider in H.
    match type of H with context [run_puller ?c sin ?x] =>
      pose proof (run_puller_keeps c sin x) as [Hp Hs];
      destruct (run_puller c sin x) as [[[out frames_rd] sin1] w1] end.
    cbn [fst snd] in Hp, Hs.
    destruct (negb (i_read_status sin1 =? 0)).
    + injection H as <- <- <- <-. auto.
    + apply IH in H. destruct H as [Hp' Hs']. split; congruence.
  - pose proof (get_next_buffer_keeps
      {| raw := None; frame_count := wrap32 (frames - frames_wr) |} sin w) as [Hp Hs].
    destruct (get_next_buffer _ sin w) as [[[st buf] sin1] w1].
    cbn [fst snd] in Hp, Hs.
    destruct (raw buf);
      (destruct (negb (i_read_status (release_buffer buf sin1) =? 0));
       [ injection H as <- <- <- <-; auto
       | apply IH in H; destruct H as [Hp' Hs']; split; [rewrite Hp' | rewrite Hs']; auto ]).
Qed.

(** The start of a capture stream when the endpoint opens. *)
Lemma start_input_stream_ready i sin w :
  pcm_open_result (env w) (n_open (calls w)) = OpenReady ->
  exists h,
    (start_input_stream i sin w).1.1 = 0
    /\ i_pcm (start_input_stream i sin w).1.2 = Some h
    /\ pcm_cfg h = i_pcm_config (in_select_geometry sin w).2
    /\ pcm_ready h = true.
Proof.
  intros H. unfold start_input_stream.
  destruct (in_select_geometry sin w) as [device sin_g]. cbn [snd].
  destruct (in_standby_active_out_frame (rate (i_pcm_config sin_g)) w) as (He & Hc & _).
  rewrite pcm_open_ready by (now rewrite He, Hc).
  cbn [set_i_pcm i_pcm open_failed pcm_is_ready opened pcm_ready negb i_resampler].
  destruct (i_resampler sin_g); eexists; repeat split.
Qed.

Lemma in_read_capture_keeps fuel i buffer bytes sin w ret b sin' w' :
  endpoint_reopens (env w) ->
  (i_standby sin = false -> is_Some (i_pcm sin)) ->
  in_read_capture fuel i buffer bytes sin w = Some (ret, b, sin', w') ->
  i_standby sin' = false /\ is_Some (i_pcm sin').
Proof.
  intros Hopen Hrun H. unfold in_read_capture in H.
  set (started :=
    if i_standby sin then
      let '(ret, sin, w) := start_input_stream i sin w in
      if ret =? 0 then (ret, set_i_standby false sin, w) else (ret, sin, w)
    else (0, sin, w)) in H.
  assert (Hs : started.1.1 = 0 /\ i_standby started.1.2 = false
               /\ is_Some (i_pcm started.1.2)).
  { subst started. destruct (i_standby sin) eqn:S; [|cbn; auto].
    destruct (start_input_stream_ready i sin w (Hopen _)) as (h & Hr & Hp & _).
    destruct (start_input_stream i sin w) as [[r0 s0] w0]. cbn [fst snd] in Hr, Hp.
    subst r0. cbn. rewrite Hp. eauto. }
  destruct started as [[ret0 sin0] w0]. cbn [fst snd] in Hs.
  destruct Hs as (-> & Hs & Hp). cbn [Z.ltb Z.compare] in H.
  destruct (i_resampler sin0).
  - unfold read_frames in H.
    destruct (read_frames_loop fuel _ 0 buffer sin0 w0) as [[[[r1 b1] s1] w1]|] eqn:R;
      [|discriminate].
    apply read_frames_loop_keeps in R. destruct R as [Hp' Hs'].
    injection H as <- <- <- <-. rewrite Hp', Hs'. auto.
  - destruct (channels (i_pcm_config sin0) =? 2).
    + destruct (pcm_read (i_pcm sin0) (wrap32 (bytes * 2)) w0) as [[r1 d1] w1].
      injection H as <- <- <- <-. auto.
    + destruct (pcm_read (i_pcm sin0) bytes w0) as [[r1 d1] w1].
      injection H as <- <- <- <-. auto.
Qed.

(** X10: with an endpoint that opens whenever it is asked, a call of
    [in_read] that returns leaves the stream running with an open
    handle: the standby flag is clear and [pcm] is not NULL, whether
    the stream was in standby or running before, and whatever the
    reads answered. *)
Theorem in_read_leaves_stream_running (fuel : nat) (i : nat) (buffer : block)
    (bytes : Z) (w : world) (sin : stream_in) (r : Z) (b : block) (w' : world) :
  endpoint_reopens (env w) ->
  ins w !! i = Some sin ->
  (i_standby sin = false -> is_Some (i_pcm sin)) ->
  in_read fuel i buffer bytes w = Some (r, b, w') ->
  exists sin' h,
    ins w' !! i = Some sin' /\ i_standby sin' = false /\ i_pcm sin' = Some h.
Proof.
  intros Hopen Hi Hrun H. unfold in_read in H. rewrite Hi in H.
  destruct (in_read_capture _ _ _ _ _ _) as [[[[r1 b1] sin1] w1]|] eqn:D;
    [|discriminate].
  injection H as <- <- <-.
  apply in_read_capture_keeps in D; [|assumption..].
  destruct D as (Hs & [h Hp]).
  exists sin1, h. destruct (r1 <? 0); cbn [ins set_ins usleep log];
    rewrite lookup_insert_eq; auto.
Qed.

Lemma world_duplex_first_read :
  (if in_read 2 0 (client_block 16) 16 (world_duplex env_ok 44100) is Some _
   then true else false) = true.
Proof. vm_compute. reflexivity. Qed.

(** The first block of a capture from the built-in microphone. *)
Lemma in_read_leaves_stream_running_witness :
  match in_read 2 0 (client_block 16) 16 (world_duplex env_ok 44100) with
  | Some (_, _, w') =>
      exists sin' h,
        ins w' !! 0%nat = Some sin' /\ i_standby sin' = false /\ i_pcm sin' = Some h
  | None => False
  end.
Proof.
  pose proof (in_read_leaves_stream_running 2 0 (client_block 16) 16
                (world_duplex env_ok 44100) capture_stream_44100) as H.
  pose proof world_duplex_first_read as R.
  destruct (in_read 2 0 (client_block 16) 16 (world_duplex env_ok 44100))
    as [[[r b] w']|]; [|discriminate R].
  apply (H r b w').
  - intros k. reflexivity.
  - exact world_duplex_in.
  - discriminate.
  - reflexivity.
Defined.

(** ** Sleeping in [out_write] *)

(** X11: the sleep of [out_write] after a failure is computed from
    [bytes * 1000000] in 32 bits: it is never more than 24347
    microseconds, so that the cap of 999999 is never reached, and it is
    the time that [bytes] bytes take at 44100 Hz only as long as the
    product fits in 32 bits, that is up to 4294 bytes. *)
Theorem out_write_exit_sleep_bound (bytes : Z) (l : out_write_locals) (w : world) :
  l_ret l <> 0 ->
  exists usecs,
    out_write_exit bytes l w = usleep usecs w
    /\ 0 <= usecs <= 24347
    /\ (0 <= bytes * 1000000 < 2 ^ 32 ->
        usecs = bytes * 1000000 / audio_stream_frame_size out_get_channels
                  / out_get_sample_rate).
Proof.
  intros Hret. unfold out_write_exit.
  destruct (Z.eqb_spec (l_ret l) 0) as [E|_]; [contradiction|]. cbn [negb].
  change (audio_stream_frame_size out_get_channels) with 4.
  change out_get_sample_rate with 44100.
  pose proof (wrap32_range (bytes * 1000000)) as Hr.
  assert (Hb : 0 <= wrap32 (bytes * 1000000) / 4 / 44100 <= 24347).
  { rewrite Z.div_div by lia. split.
    - apply Z.div_pos; lia.
    - enough (wrap32 (bytes * 1000000) / (4 * 44100) < 24348) by lia.
      apply Z.div_lt_upper_bound; lia. }
  destruct (Z.geb_spec (wrap32 (bytes * 1000000) / 4 / 44100) 1000000) as [G|_]; [lia|].
  eexists. split; [reflexivity|]. split; [exact Hb|].
  intros Hfit. rewrite wrap32_small by exact Hfit. reflexivity.
Qed.

(** A failed write of 16384 bytes, which take 92879 microseconds. *)
Lemma out_write_exit_sleep_bound_witness :
  exists usecs,
    out_write_exit 16384 (set_l_ret (- ENOMEM) (out_write_init 16384)) (boot env_ok)
      = usleep usecs (boot env_ok)
    /\ 0 <= usecs <= 24347.
Proof.
  destruct (out_write_exit_sleep_bound 16384 (set_l_ret (- ENOMEM) (out_write_init 16384))
              (boot env_ok)) as (usecs & H & Hb & _).
  - discriminate.
  - exists usecs. split; [exact H | exact Hb].
Defined.

(** ** A route change while a stream is running *)

Lemma out_set_parameters_same_sco o ret value w :
  0 <= ret -> wrap32 value <> 0 -> wrap32 value <> out_device (adev w) ->
  Z.land (wrap32 value) AUDIO_DEVICE_OUT_ALL_SCO
    = Z.land (out_device (adev w)) AUDIO_DEVICE_OUT_ALL_SCO ->
  out_set_parameters o ret value w
    = (ret, select_devices (set_adev (set_out_device (wrap32 value) (adev w)) w)).
Proof.
  intros Hret Hv0 Hvd Hsco. unfold out_set_parameters.
  destruct (Z.geb_spec ret 0) as [_|]; [|lia].
  destruct (Z.eqb_spec (out_device (adev w)) (wrap32 value)) as [E|_]; [congruence|].
  destruct (Z.eqb_spec (wrap32 value) 0) as [E|_]; [congruence|].
  cbn [negb andb]. rewrite lxor_neq_0, Hsco, Z.eqb_refl. reflexivity.
Qed.

(** X12: a route change that is not a SCO change, to HDMI for one, leaves a
    running stream on the endpoint it has.  On a stream that is running
    at the reference rate with two channels, asked to write [bytes]
    bytes, a [size_t], the next [out_write], when the ring is not above
    the write threshold at the poll and the write does not fail with
    [-EPIPE], makes one call on the endpoints: the write of the client's
    block to the handle that the stream held before the route changed.
    It opens and closes nothing and returns the byte count as a
    [ssize_t], and the stream keeps its record, although a stream
    started under the new route would get another card and geometry. *)
Theorem route_change_keeps_running_endpoint (fuel : nat) (o : nat) (buffer : block)
    (bytes value : Z) (w : world) (out : stream_out) :
  outs w !! o = Some out ->
  o_standby out = false ->
  rate (o_pcm_config out) = OUT_SAMPLING_RATE ->
  channels (o_pcm_config out) = 2 ->
  wrap32 value <> 0 -> wrap32 value <> out_device (adev w) ->
  Z.land (wrap32 value) AUDIO_DEVICE_OUT_ALL_SCO
    = Z.land (out_device (adev w)) AUDIO_DEVICE_OUT_ALL_SCO ->
  ring_below (env w) (pcm_get_buffer_size (o_pcm out)) (o_write_threshold out) ->
  pcm_mmap_write_result (env w) (n_write (calls w)) <> - EPIPE ->
  0 <= bytes < 2 ^ 32 ->
  exists w' t,
    out_write (S (S fuel)) o buffer bytes (out_set_parameters o 0 value w).2
      = Some (returned_count bytes, buffer, w')
    /\ out_device (adev w') = wrap32 value
    /\ outs w' !! o = Some out
    /\ trace w' = trace (out_set_parameters o 0 value w).2 ++ t
    /\ endpoint_events t
         = [EvPcmWrite (o_pcm out) ClientBuffer
              (take (Z.to_nat (bytes / 4 * 4)) buffer) (bytes / 4 * 4)
              (pcm_mmap_write_result (env w) (n_write (calls w)))].
Proof.
  intros Ho Hs Hrate Hch Hv0 Hvd Hsco Hring Hres Hbytes.
  rewrite (out_set_parameters_same_sco o 0 value w) by (lia || assumption). cbn [snd].
  destruct (select_devices_frame (set_adev (set_out_device (wrap32 value) (adev w)) w))
    as (Ha & Ho1 & Hi1 & Hc1 & He1 & Ht1).
  set (w1 := select_devices _) in *.
  cbn [adev outs ins calls env trace set_adev] in Ha, Ho1, Hi1, Hc1, He1.
  unfold out_write. rewrite Ho1, Ho, out_write_do_over_S. unfold out_write_body.
  rewrite Hs.
  destruct (out_write_running_plain fuel (out_write_init bytes) buffer out w1 Hrate Hch)
    as (w2 & t2 & Hrun & (He2 & Hi2 & Ho2 & Hd2 & Hai2) & Ha2 & Hn2 & _ & Ht2 & Hev2 & _).
  { rewrite He1. exact Hring. }
  rewrite Hrun. cbv zeta.
  cbn [set_l_ret l_ret]. rewrite He1, Hc1.
  destruct (out_write_exit_frame bytes
              (set_l_ret (pcm_mmap_write_result (env w) (n_write (calls w)))
                 (set_l_out_frames (l_in_frames (out_write_init bytes))
                    (out_write_init bytes))) w2)
    as (t3' & _ & _ & (He3 & Hi3 & Ho3 & Hd3 & Hai3) & Hc3).
  destruct (out_write_exit_events bytes
              (set_l_ret (pcm_mmap_write_result (env w) (n_write (calls w)))
                 (set_l_out_frames (l_in_frames (out_write_init bytes))
                    (out_write_init bytes))) w2)
    as (t3 & Ht3 & Hev3).
  destruct (Z.eqb_spec (pcm_mmap_write_result (env w) (n_write (calls w))) (- EPIPE))
    as [E|_]; [contradiction|].
  rewrite to_int32_returned_count by exact Hbytes.
  eexists _, (t2 ++ t3). split; [reflexivity|].
  cbn [adev outs trace set_outs]. rewrite lookup_insert_eq.
  split; [rewrite Hd3, Hd2, Ha; reflexivity|]. split; [reflexivity|].
  split; [rewrite Ht3, Ht2, <- app_assoc; reflexivity|].
  rewrite endpoint_events_app, Hev2, Hev3, He1, Hc1, app_nil_r.
  change (l_in_frames (out_write_init bytes)) with (bytes / 4).
  change (l_frame_size (out_write_init bytes)) with 4.
  rewrite wrap32_small; [reflexivity|].
  pose proof (Z.mul_div_le bytes 4 ltac:(lia)).
  assert (0 <= bytes / 4) by (apply Z.div_pos; lia). lia.
Qed.

Lemma request_4_frames : 0 <= 16 < 2 ^ 32.
Proof. lia. Qed.

(** The playback of [world_playing] is routed to HDMI: the block goes
    to the handle on the default card that the stream has. *)
Lemma route_change_keeps_running_endpoint_witness :
  o_pcm playback_running
    = Some (playback_handle PCM_DEVICE_DEFAULT_OUT pcm_config_out_started 0)
  /\ exists w' t,
       out_write 2 0 (client_block 16) 16
           (out_set_parameters 0 0 AUDIO_DEVICE_OUT_AUX_DIGITAL world_playing).2
         = Some (16, client_block 16, w')
       /\ out_device (adev w') = AUDIO_DEVICE_OUT_AUX_DIGITAL
       /\ outs w' !! 0%nat = Some playback_running
       /\ trace w'
            = trace (out_set_parameters 0 0 AUDIO_DEVICE_OUT_AUX_DIGITAL world_playing).2 ++ t
       /\ endpoint_events t
            = [EvPcmWrite (o_pcm playback_running) ClientBuffer (client_block 16) 16 0].
Proof.
  split; [vm_compute; reflexivity|].
  apply (route_change_keeps_running_endpoint 0 0 (client_block 16) 16
           AUDIO_DEVICE_OUT_AUX_DIGITAL world_playing playback_running world_playing_out).
  - vm_compute. reflexivity.
  - vm_compute. reflexivity.
  - vm_compute. reflexivity.
  - vm_compute. congruence.
  - vm_compute. congruence.
  - vm_compute. reflexivity.
  - intros k. right. vm_compute. discriminate.
  - vm_compute. congruence.
  - exact request_4_frames.
Defined.

(** ** Flow control away from HDMI *)

(** A ring that never holds more frames than its size is never over
    the threshold that [start_output_stream] sets away from HDMI for
    the geometries of [adev_open_output_stream]: the threshold is the
    size of the ring. *)
Lemma threshold_is_ring_size e out :
  ring_size out = started_threshold out ->
  (forall k, 0 <= (pcm_get_htimestamp_result e k).2 <= 2 ^ 31) ->
  ring_below e (ring_size out) (started_threshold out).
Proof.
  intros Hgeo Havail k. right. specialize (Havail k).
  assert (Hsz : 0 <= ring_size out <= 7680).
  { rewrite Hgeo. unfold started_threshold.
    destruct (negb (o_low_power out =? 0)); vm_compute; split; discriminate. }
  rewrite <- Hgeo. unfold to_int32, wrap32.
  set (d := ring_size out - (pcm_get_htimestamp_result e k).2).
  assert (Hd : - 2 ^ 31 <= d <= ring_size out) by (unfold d; lia).
  destruct (Z.neg_nonneg_cases d) as [Hneg|Hpos].
  - replace (d mod 2 ^ 32) with (d + 2 ^ 32)
      by (apply Z.mod_unique with (q := -1); lia).
    destruct (Z.ltb_spec (d + 2 ^ 32) (2 ^ 31)); lia.
  - rewrite Z.mod_small by lia.
    destruct (Z.ltb_spec d (2 ^ 31)); lia.
Qed.

(** X13: away from HDMI the flow control of [out_write] never sleeps.  For
    a stream with a geometry of [adev_open_output_stream] that needs
    no converter, the write threshold that the start sets is the size
    of the ring, which the frames in the ring cannot exceed.  So on
    such a stream, in standby or running with the handle and the
    threshold of a start, a call for [bytes] bytes, a [size_t], whose
    write succeeds returns the byte count as a [ssize_t] without a
    sleep; its calls on the endpoints are, if the stream was in
    standby, the close of a capture that runs at a rate of the other
    family and the open of the endpoint, and then one write of the
    client's block to the handle of the stream. *)
Theorem out_write_plain_never_sleeps (fuel : nat) (o : nat) (buffer : block)
    (bytes : Z) (w : world) (out : stream_out) :
  outs w !! o = Some out ->
  plain_playback out w ->
  ring_size out = started_threshold out ->
  (o_standby out = false ->
   pcm_get_buffer_size (o_pcm out) = ring_size out
   /\ o_write_threshold out = started_threshold out) ->
  endpoint_reopens (env w) ->
  (forall k, 0 <= (pcm_get_htimestamp_result (env w) k).2 <= 2 ^ 31) ->
  pcm_mmap_write_result (env w) (n_write (calls w)) = 0 ->
  0 <= bytes < 2 ^ 32 ->
  exists w' t,
    out_write (S (S fuel)) o buffer bytes w = Some (returned_count bytes, buffer, w')
    /\ trace w' = trace w ++ t
    /\ sleeps_of t = []
    /\ endpoint_events t
         = (if o_standby out
            then forced_capture_close w
                 ++ [playback_open (started_device out) (started_config out)
                       (n_open (calls w))]
            else [])
           ++ [EvPcmWrite
                 (if o_standby out
                  then Some (playback_handle (started_device out) (started_config out)
                               (n_open (calls w)))
                  else o_pcm out)
                 ClientBuffer (take (Z.to_nat (bytes / 4 * 4)) buffer) (bytes / 4 * 4) 0].
Proof.
  intros Ho Hplain Hgeo Hrun Hopen Havail Hres Hbytes.
  pose proof (threshold_is_ring_size (env w) out Hgeo Havail) as Hring.
  assert (Hcalm : ring_calm (env w) out).
  { split; [exact Hring|]. intros Hs. destruct (Hrun Hs) as [-> ->]. exact Hring. }
  unfold out_write. rewrite Ho, out_write_do_over_S.
  destruct (out_write_body_plain fuel o (out_write_init bytes) buffer out w
              Hplain Hopen Hcalm)
    as (l1 & out1 & w1 & t & Hbody & Hret & _ & _ & _ & _ & Hpcm & _ & _ & _ & _ & _ & _ & _
        & _ & Ht & Hev & Hsl).
  rewrite Hbody. cbv zeta. rewrite Hres in Hret.
  rewrite out_write_exit_passed by exact Hret. rewrite Hret.
  change (0 =? - EPIPE) with false. cbn iota.
  rewrite to_int32_returned_count by exact Hbytes.
  exists (set_outs (<[o:=out1]> (outs w1)) w1), t.
  split; [reflexivity|]. split; [exact Ht|]. split; [exact Hsl|].
  rewrite Hev, Hres, Hpcm.
  change (l_in_frames (out_write_init bytes)) with (bytes / 4).
  change (l_frame_size (out_write_init bytes)) with 4.
  rewrite wrap32_small; [reflexivity|].
  pose proof (Z.mul_div_le bytes 4 ltac:(lia)).
  assert (0 <= bytes / 4) by (apply Z.div_pos; lia). lia.
Qed.

Lemma world_low_latency_out :
  outs (world_low_latency env_ok) !! 0%nat = Some low_latency_stream.
Proof. vm_compute. reflexivity. Qed.

Lemma world_low_latency_plain :
  plain_playback low_latency_stream (world_low_latency env_ok).
Proof. repeat split. Qed.

Lemma low_latency_stream_in_standby :
  o_standby low_latency_stream = false ->
  pcm_get_buffer_size (o_pcm low_latency_stream) = ring_size low_latency_stream
  /\ o_write_threshold low_latency_stream = started_threshold low_latency_stream.
Proof. intros C. discriminate C. Qed.

(** The first block of a low-latency playback to the speaker. *)
Lemma out_write_plain_never_sleeps_witness :
  exists w' t,
    out_write 2 0 (client_block 16) 16 (world_low_latency env_ok)
      = Some (16, client_block 16, w')
    /\ trace w' = trace (world_low_latency env_ok) ++ t
    /\ sleeps_of t = []
    /\ endpoint_events t
         = [playback_open PCM_DEVICE_DEFAULT_OUT pcm_config_out_started 0;
            EvPcmWrite (Some (playback_handle PCM_DEVICE_DEFAULT_OUT pcm_config_out_started 0))
              ClientBuffer (client_block 16) 16 0].
Proof.
  apply (out_write_plain_never_sleeps 0 0 (client_block 16) 16
           (world_low_latency env_ok) low_latency_stream
           world_low_latency_out world_low_latency_plain).
  - reflexivity.
  - exact low_latency_stream_in_standby.
  - intros k. reflexivity.
  - intros k. vm_compute. split; discriminate.
  - reflexivity.
  - exact request_4_frames.
Defined.

(** ** The left channel *)

Lemma copy_i16_sample_eq dst i src j :
  (2 * i + 1 < length dst)%nat ->
  sample (copy_i16 dst i src j) i = sample src j.
Proof.
  intros Hi. unfold sample, copy_i16. f_equal.
  - rewrite list_lookup_total_insert_ne by lia.
    apply list_lookup_total_insert_eq. lia.
  - apply list_lookup_total_insert_eq. rewrite length_insert. lia.
Qed.

Lemma copy_i16_sample_ne dst i src j i' :
  i <> i' -> sample (copy_i16 dst i src j) i' = sample dst i'.
Proof.
  intros Hi. unfold sample, copy_i16.
  rewrite !list_lookup_total_insert_ne by lia. reflexivity.
Qed.

Lemma discard_right_samples src k : forall dst from,
  length (foldl (fun d i => copy_i16 d i src (i * 2)) dst (seq from k)) = length dst
  /\ (forall i, (from <= i < from + k)%nat -> (2 * i + 1 < length dst)%nat ->
        sample (foldl (fun d i => copy_i16 d i src (i * 2)) dst (seq from k)) i
          = sample src (2 * i))
  /\ (forall i, ~ (from <= i < from + k)%nat ->
        sample (foldl (fun d i => copy_i16 d i src (i * 2)) dst (seq from k)) i
          = sample dst i).
Proof.
  induction k as [|k IH]; intros dst from.
  - cbn. split; [reflexivity|]. split; [intros; lia | reflexivity].
  - rewrite seq_S, foldl_snoc.
    destruct (IH dst from) as (Hl & Hin & Hout).
    set (d := foldl _ dst (seq from k)) in *.
    split; [rewrite copy_i16_length; exact Hl|]. split.
    + intros i Hi Hlen. destruct (decide (i = from + k)%nat) as [->|Hne].
      * rewrite copy_i16_sample_eq by (rewrite Hl; exact Hlen).
        f_equal. lia.
      * rewrite copy_i16_sample_ne by lia. apply Hin; [lia | exact Hlen].
    + intros i Hi. rewrite copy_i16_sample_ne by lia. apply Hout. lia.
Qed.

Lemma discard_right_in_place_samples b k : forall from,
  length (foldl (fun d i => copy_i16 d i d (i * 2)) b (seq from k)) = length b
  /\ (forall i, (from <= i < from + k)%nat -> (2 * i + 1 < length b)%nat ->
        sample (foldl (fun d i => copy_i16 d i d (i * 2)) b (seq from k)) i
          = sample b (2 * i))
  /\ (forall i, ~ (from <= i < from + k)%nat ->
        sample (foldl (fun d i => copy_i16 d i d (i * 2)) b (seq from k)) i
          = sample b i).
Proof.
  induction k as [|k IH]; intros from.
  - cbn. split; [reflexivity|]. split; [intros; lia | reflexivity].
  - rewrite seq_S, foldl_snoc.
    destruct (IH from) as (Hl & Hin & Hout).
    set (d := foldl _ b (seq from k)) in *.
    split; [rewrite copy_i16_length; exact Hl|]. split.
    + intros i Hi Hlen. destruct (decide (i = from + k)%nat) as [->|Hne].
      * rewrite copy_i16_sample_eq by (rewrite Hl; exact Hlen).
        replace ((from + k) * 2)%nat with (2 * (from + k))%nat by lia.
        apply Hout. lia.
      * rewrite copy_i16_sample_ne by lia. apply Hin; [lia | exact Hlen].
    + intros i Hi. rewrite copy_i16_sample_ne by lia. apply Hout. lia.
Qed.

Lemma blit_sample data dst i :
  (2 * i + 1 < length data)%nat -> (2 * i + 1 < length dst)%nat ->
  sample (blit data 0 dst) i = sample data i.
Proof.
  intros Hd Hl. unfold sample, blit. rewrite take_0, app_nil_l, Nat.sub_0_r.
  rewrite !lookup_total_app_l by (rewrite length_take; lia).
  rewrite !lookup_total_take_lt by lia. reflexivity.
Qed.

Lemma overlay_sample data dst i :
  (2 * i + 1 < length data)%nat -> sample (overlay data dst) i = sample data i.
Proof.
  intros Hd. unfold sample, overlay. rewrite !lookup_total_app_l by lia. reflexivity.
Qed.

Lemma take_sample n (b : block) i :
  (2 * i + 1 < n)%nat -> sample (take n b) i = sample b i.
Proof.
  intros H. unfold sample. rewrite !lookup_total_take_lt by lia. reflexivity.
Qed.

(** X14: what the buffer provider hands the converter when it has to read
    a period from a stereo endpoint: the frames at the pointer it
    returns are mono frames, the [k]-th of them being the left sample
    of the [k]-th stereo frame that the endpoint captured.  The loop
    that discards the right channel works within the one buffer; it
    reads a frame before it overwrites it. *)
Theorem get_next_buffer_left_channel (req : Z) (sin : stream_in) (w : world)
    (p : pcm) (ib data : block) :
  i_pcm sin = Some p ->
  i_frames_in sin = 0 ->
  channels (i_pcm_config sin) = 2 ->
  i_buffer sin = Some ib ->
  pcm_read_result (env w) (n_read (calls w)) = (0, data) ->
  0 <= period_size (i_pcm_config sin) ->
  4 * period_size (i_pcm_config sin) < 2 ^ 32 ->
  (Z.to_nat (4 * period_size (i_pcm_config sin)) <= length ib)%nat ->
  (Z.to_nat (4 * period_size (i_pcm_config sin)) <= length data)%nat ->
  exists buf sin' w' mono,
    get_next_buffer {| raw := None; frame_count := req |} sin w = (0, buf, sin', w')
    /\ frame_count buf = Z.min req (period_size (i_pcm_config sin))
    /\ i_frames_in sin' = period_size (i_pcm_config sin)
    /\ bytes_at buf sin' = Some mono
    /\ length mono = length ib
    /\ forall k, (k < Z.to_nat (period_size (i_pcm_config sin)))%nat ->
         sample mono k = sample data (2 * k).
Proof.
  intros Hp Hf Hch Hb Hres Hn0 Hn32 Hib Hdata.
  unfold get_next_buffer. rewrite Hp, Hf. cbn [Z.eqb].
  unfold pcm_read. rewrite Hres, Hb, Hch.
  change (audio_stream_frame_size AUDIO_CHANNEL_IN_MONO) with 2.
  cbn [negb Z.eqb fmap option_fmap option_map set_i_buffer set_i_read_status
       set_i_frames_in i_frames_in i_pcm_config i_buffer i_read_status].
  set (n := period_size (i_pcm_config sin)) in *.
  replace (2 * n * 2) with (4 * n) by lia. rewrite wrap32_small by lia.
  set (mono := discard_right_in_place 1 n (blit (take (Z.to_nat (4 * n)) data) 0 ib)).
  eexists _, _, _, mono. split; [reflexivity|].
  cbn [frame_count i_frames_in bytes_at raw i_buffer set_i_buffer set_i_frames_in
       set_i_read_status].
  split; [destruct (Z.gtb_spec req n); lia|]. split; [reflexivity|].
  rewrite Z.sub_diag. cbn [Z.to_nat Nat.mul drop]. split; [reflexivity|].
  destruct (discard_right_in_place_samples
              (blit (take (Z.to_nat (4 * n)) data) 0 ib) (Z.to_nat n - 1) 1)
    as (Hl & Hin & Hout).
  fold (discard_right_in_place 1 n (blit (take (Z.to_nat (4 * n)) data) 0 ib)) in Hl, Hin, Hout.
  fold mono in Hl, Hin, Hout.
  split; [rewrite Hl; apply blit_length|].
  intros k Hk.
  assert (Hsrc : forall j, (j < 2 * Z.to_nat n)%nat ->
            sample (blit (take (Z.to_nat (4 * n)) data) 0 ib) j = sample data j).
  { intros j Hj. rewrite blit_sample by (rewrite ?length_take; lia).
    apply take_sample. lia. }
  destruct k as [|k].
  - rewrite Hout by lia. apply Hsrc. lia.
  - rewrite Hin by (rewrite ?blit_length; lia). apply Hsrc. lia.
Qed.

Lemma world_capturing_stereo_in :
  ins world_capturing_stereo !! 0%nat = Some capture_stereo_running.
Proof. vm_compute. reflexivity. Qed.

Lemma capture_stereo_running_pcm :
  i_pcm capture_stereo_running = Some capture_stereo_handle.
Proof. vm_compute. reflexivity. Qed.

Lemma capture_stereo_running_buffer :
  i_buffer capture_stereo_running = Some capture_stereo_block.
Proof. vm_compute. reflexivity. Qed.

Lemma world_capturing_stereo_read :
  pcm_read_result (env world_capturing_stereo) (n_read (calls world_capturing_stereo))
    = (0, counting_block 3840).
Proof. vm_compute. reflexivity. Qed.

(** A period of the capture at 44100 Hz: the bytes of the [k]-th mono
    frame are the bytes [4 k] and [4 k + 1] that the endpoint
    captured. *)
Lemma get_next_buffer_left_channel_witness :
  exists buf sin' w' mono,
    get_next_buffer {| raw := None; frame_count := 4 |} capture_stereo_running
        world_capturing_stereo = (0, buf, sin', w')
    /\ frame_count buf = Z.min 4 (period_size (i_pcm_config capture_stereo_running))
    /\ i_frames_in sin' = period_size (i_pcm_config capture_stereo_running)
    /\ bytes_at buf sin' = Some mono
    /\ length mono = length capture_stereo_block
    /\ forall k, (k < Z.to_nat (period_size (i_pcm_config capture_stereo_running)))%nat ->
         sample mono k = sample (counting_block 3840) (2 * k).
Proof.
  apply (get_next_buffer_left_channel 4 capture_stereo_running world_capturing_stereo
           capture_stereo_handle capture_stereo_block (counting_block 3840)
           capture_stereo_running_pcm).
  - vm_compute. reflexivity.
  - vm_compute. reflexivity.
  - exact capture_stereo_running_buffer.
  - exact world_capturing_stereo_read.
  - vm_compute. discriminate.
  - vm_compute. reflexivity.
  - apply Nat.leb_le. vm_compute. reflexivity.
  - apply Nat.leb_le. vm_compute. reflexivity.
Defined.

(** X15: a capture stream that is running on a stereo endpoint without a
    converter reads twice the bytes asked for and delivers the left
    channel: when the read succeeds and the microphone is not muted,
    [in_read] returns the byte count, the [k]-th frame of the client's
    block is the left sample of the [k]-th stereo frame captured, and
    the block is as it was beyond the frames asked for. *)
Theorem in_read_stereo_left_channel (fuel : nat) (i : nat) (buffer : block) (bytes : Z)
    (w : world) (sin : stream_in) (ib data : block) :
  ins w !! i = Some sin ->
  i_standby sin = false ->
  i_resampler sin = false ->
  channels (i_pcm_config sin) = 2 ->
  i_buffer sin = Some ib ->
  pcm_read_result (env w) (n_read (calls w)) = (0, data) ->
  mic_mute (adev w) = false ->
  0 <= bytes -> 2 * bytes < 2 ^ 32 ->
  (Z.to_nat (2 * bytes) <= length ib)%nat ->
  (Z.to_nat (2 * bytes) <= length data)%nat ->
  (Z.to_nat bytes <= length buffer)%nat ->
  exists b' w',
    in_read fuel i buffer bytes w = Some (bytes, b', w')
    /\ length b' = length buffer
    /\ (forall k, (k < Z.to_nat (bytes / 2))%nat -> sample b' k = sample data (2 * k))
    /\ (forall k, (Z.to_nat (bytes / 2) <= k)%nat -> sample b' k = sample buffer k).
Proof.
  intros Hi Hs Hr Hch Hb Hres Hmute Hb0 Hb32 Hib Hdata Hbuf.
  unfold in_read. rewrite Hi. unfold in_read_capture. rewrite Hs, Hr, Hch.
  cbn [Z.ltb Z.compare Z.eqb]. unfold pcm_read. rewrite Hres, Hb.
  change (audio_stream_frame_size in_get_channels) with 2.
  cbn [fmap option_fmap option_map set_i_buffer i_buffer default Z.gtb Z.compare
       Z.eqb Pos.eqb Z.ltb andb adev log set_calls id].
  rewrite Hmute. cbn [andb].
  replace (bytes * 2) with (2 * bytes) by lia. rewrite wrap32_small by lia.
  rewrite to_int32_returned_count, returned_count_small by lia.
  eexists _, _. split; [reflexivity|].
  assert (Hfr : 0 <= bytes / 2 /\ 2 * (bytes / 2) <= bytes).
  { split; [apply Z.div_pos; lia | apply Z.mul_div_le; lia]. }
  destruct (discard_right_samples
              (overlay (take (Z.to_nat (2 * bytes)) data) ib)
              (Z.to_nat (bytes / 2) - 0) buffer 0) as (Hl & Hin & Hout).
  fold (discard_right 0 (bytes / 2) (overlay (take (Z.to_nat (2 * bytes)) data) ib) buffer)
    in Hl, Hin, Hout.
  split; [exact Hl|]. split.
  - intros k Hk. rewrite Hin by lia.
    rewrite overlay_sample by (rewrite ?length_take; lia).
    apply take_sample. lia.
  - intros k Hk. apply Hout. lia.
Qed.

(** Sixteen bytes of the capture of [world_capturing_stereo]. *)
Lemma in_read_stereo_left_channel_witness :
  exists b' w',
    in_read 1 0 (client_block 16) 16 world_capturing_stereo = Some (16, b', w')
    /\ length b' = length (client_block 16)
    /\ (forall k, (k < Z.to_nat (16 / 2))%nat ->
          sample b' k = sample (counting_block 3840) (2 * k))
    /\ (forall k, (Z.to_nat (16 / 2) <= k)%nat -> sample b' k = sample (client_block 16) k).
Proof.
  apply (in_read_stereo_left_channel 1 0 (client_block 16) 16 world_capturing_stereo
           capture_stereo_running capture_stereo_block (counting_block 3840)
           world_capturing_stereo_in).
  - vm_compute. reflexivity.
  - vm_compute. reflexivity.
  - vm_compute. reflexivity.
  - exact capture_stereo_running_buffer.
  - exact world_capturing_stereo_read.
  - vm_compute. reflexivity.
  - lia.
  - lia.
  - apply Nat.leb_le. vm_compute. reflexivity.
  - apply Nat.leb_le. vm_compute. reflexivity.
  - apply Nat.leb_le. vm_compute. reflexivity.
Defined.

(** ** Two playback streams *)

(** X16: the device has one [active_out] pointer, and [do_out_standby]
    clears it without looking at it.  When a running stream [oa] is put
    in standby while another running stream [ob] is the active one,
    the pointer is cleared and [ob] is left as it is; a capture that is
    started afterwards finds no active output, so that it forces
    nothing to standby whatever its rate: [ob] keeps its endpoint. *)
Theorem out_standby_forgets_other_stream (w : world) (oa ob i : nat)
    (out_a out_b : stream_out) (sin : stream_in) :
  oa <> ob ->
  outs w !! oa = Some out_a -> o_standby out_a = false ->
  outs w !! ob = Some out_b -> o_standby out_b = false ->
  active_out (adev w) = Some ob ->
  active_out (adev (out_standby oa w).2) = None
  /\ outs (out_standby oa w).2 !! oa = Some (closed_out out_a)
  /\ outs (out_standby oa w).2 !! ob = Some out_b
  /\ outs (start_input_stream i sin (out_standby oa w).2).2 !! ob = Some out_b
  /\ closes_of (trace (start_input_stream i sin (out_standby oa w).2).2)
       = closes_of (trace w) ++ [o_pcm out_a]
          ++ (if open_failed (i_pcm (start_input_stream i sin (out_standby oa w).2).1.2)
              then [i_pcm (start_input_stream i sin (out_standby oa w).2).1.2]
              else []).
Proof.
  intros Hne Ha Hsa Hb Hsb Hact.
  unfold out_standby. rewrite Ha, do_out_standby_cases, Hsa. cbn [snd].
  set (w1 := set_outs _ _).
  assert (Hact1 : active_out (adev w1) = None) by reflexivity.
  assert (Hb1 : outs w1 !! ob = Some out_b).
  { subst w1. cbn [outs set_outs set_adev pcm_close log].
    rewrite lookup_insert_ne by exact Hne. exact Hb. }
  split; [exact Hact1|]. split.
  { subst w1. cbn [outs set_outs]. apply lookup_insert_eq. }
  split; [exact Hb1|].
  destruct (start_input_stream_trace i sin w1) as (Ht & Ho & _). cbv zeta in Ht, Ho.
  assert (Hws : forall r, in_standby_active_out r w1 = w1).
  { intros r. unfold in_standby_active_out. rewrite Hact1. reflexivity. }
  rewrite Hws in Ht, Ho. split; [rewrite Ho; exact Hb1|].
  rewrite Ht. subst w1. cbn [trace set_outs set_adev pcm_close log].
  unfold closes_of. rewrite !omap_app. cbn [omap].
  rewrite <- app_assoc. f_equal. f_equal.
  unfold after_open. destruct (open_failed _); [reflexivity|].
  destruct (i_resampler sin); reflexivity.
Qed.

Lemma world_two_playing_first :
  outs world_two_playing !! 0%nat = Some first_playing.
Proof. vm_compute. reflexivity. Qed.

Lemma world_two_playing_second :
  outs world_two_playing !! 1%nat = Some second_playing.
Proof. vm_compute. reflexivity. Qed.

(** The low-latency playback of [world_two_playing] is put in standby
    and the capture from the SCO headset is started: the deep-buffer
    playback goes on at 44100 Hz beside a capture at 8000 Hz. *)
Lemma out_standby_forgets_other_stream_witness :
  (active_out (adev (out_standby 0 world_two_playing).2) = None
   /\ outs (out_standby 0 world_two_playing).2 !! 0%nat = Some (closed_out first_playing)
   /\ outs (out_standby 0 world_two_playing).2 !! 1%nat = Some second_playing
   /\ outs (start_input_stream 0 sco_capture_opened (out_standby 0 world_two_playing).2).2
        !! 1%nat = Some second_playing
   /\ closes_of (trace (start_input_stream 0 sco_capture_opened
                          (out_standby 0 world_two_playing).2).2)
        = closes_of (trace world_two_playing) ++ [o_pcm first_playing]
           ++ (if open_failed
                    (i_pcm (start_input_stream 0 sco_capture_opened
                              (out_standby 0 world_two_playing).2).1.2)
               then [i_pcm (start_input_stream 0 sco_capture_opened
                              (out_standby 0 world_two_playing).2).1.2]
               else []))
  /\ o_standby second_playing = false
  /\ rate (o_pcm_config second_playing) = 44100
  /\ rate (i_pcm_config (start_input_stream 0 sco_capture_opened
                           (out_standby 0 world_two_playing).2).1.2) = 8000.
Proof.
  split.
  - apply (out_standby_forgets_other_stream world_two_playing 0 1 0
             first_playing second_playing sco_capture_opened).
    + discriminate.
    + exact world_two_playing_first.
    + vm_compute. reflexivity.
    + exact world_two_playing_second.
    + vm_compute. reflexivity.
    + vm_compute. reflexivity.
  - split; [vm_compute; reflexivity|]. split; vm_compute; reflexivity.
Defined.

(** ** Opening and closing *)

Lemma select_devices_outs w : outs (select_devices w) = outs w.
Proof. destruct (select_devices_frame w) as (_ & H & _). exact H. Qed.

Lemma select_devices_trace w :
  trace (select_devices w)
    = trace w ++ mixer_program (out_device (adev w)) (in_device (adev w)).
Proof. destruct (select_devices_frame w) as (_ & _ & _ & _ & _ & H). exact H. Qed.

(** What [adev_open_output_stream] makes. *)
Lemma adev_open_output_stream_makes all_out devices flags w ret o w' :
  adev_open_output_stream all_out devices flags w = (ret, Some o, w') ->
  ret = 0
  /\ outs w !! o = None
  /\ exists out,
       outs w' = <[o := out]> (outs w)
       /\ o_pcm out = None /\ o_standby out = true
       /\ o_resampler out = negb (Z.land devices AUDIO_DEVICE_OUT_ALL_SCO =? 0)
       /\ o_pcm_config out
            = (if negb (Z.land flags AUDIO_OUTPUT_FLAG_DEEP_BUFFER =? 0)
               then pcm_config_out_lp else pcm_config_out).
Proof.
  unfold adev_open_output_stream. intros H.
  destruct (malloc w) as [ok w1] eqn:M1.
  assert (O1 : outs w1 = outs w) by (unfold malloc in M1; now injection M1 as <- <-).
  destruct (negb ok); [discriminate|].
  destruct (negb (Z.land devices AUDIO_DEVICE_OUT_ALL_SCO =? 0)) eqn:S.
  - destruct (create_resampler _ _ _ w1) as [r w2] eqn:C.
    assert (O2 : outs w2 = outs w)
      by (unfold create_resampler in C; injection C as <- <-; exact O1).
    destruct (negb (r =? 0)); [discriminate|].
    destruct (malloc w2) as [ok3 w3] eqn:M3.
    assert (O3 : outs w3 = outs w)
      by (unfold malloc in M3; injection M3 as <- <-; exact O2).
    set (w4 := select_devices _) in H.
    assert (O4 : outs w4 = outs w) by (subst w4; rewrite select_devices_outs; exact O3).
    clearbody w4. injection H as <- <- <-. cbn [outs set_outs]. rewrite O4.
    split; [reflexivity|]. split.
    { apply not_elem_of_dom, is_fresh. }
    eexists. split; [reflexivity|].
    destruct (negb (Z.land flags AUDIO_OUTPUT_FLAG_DEEP_BUFFER =? 0)); cbn; repeat split.
  - set (w4 := select_devices _) in H.
    assert (O4 : outs w4 = outs w) by (subst w4; rewrite select_devices_outs; exact O1).
    clearbody w4. injection H as <- <- <-. cbn [outs set_outs]. rewrite O4.
    split; [reflexivity|]. split.
    { apply not_elem_of_dom, is_fresh. }
    eexists. split; [reflexivity|].
    destruct (negb (Z.land flags AUDIO_OUTPUT_FLAG_DEEP_BUFFER =? 0)); cbn; repeat split.
Qed.

(** X17: a stream that is closed before it was ever started leaves the
    table of streams as it was before the stream was opened.  The close
    closes no endpoint, and it releases a converter exactly when the
    open created one: for a playback stream when the devices it was
    opened for have a SCO bit, for a capture stream when the rate asked
    for is not the 44100 Hz of the endpoint. *)
Theorem open_close_round_trip :
  (forall all_out devices flags w ret o w',
     adev_open_output_stream all_out devices flags w = (ret, Some o, w') ->
     outs (adev_close_output_stream o w') = outs w
     /\ trace (adev_close_output_stream o w')
          = trace w' ++ (if negb (Z.land devices AUDIO_DEVICE_OUT_ALL_SCO =? 0)
                         then [EvReleaseResampler] else []))
  /\
  (forall all_in devices sample_rate w ret i w',
     adev_open_input_stream all_in devices AUDIO_CHANNEL_IN_MONO sample_rate w
       = (ret, Some i, w') ->
     ins (adev_close_input_stream i w') = ins w
     /\ trace (adev_close_input_stream i w')
          = trace w' ++ (if negb (sample_rate =? rate pcm_config_in)
                         then [EvReleaseResampler] else [])).
Proof.
  split.
  - intros all_out devices flags w ret o w' H.
    destruct (adev_open_output_stream_makes _ _ _ _ _ _ _ H)
      as (_ & Hfresh & out & Houts & Hp & Hs & Hr & _).
    unfold adev_close_output_stream, out_standby.
    rewrite Houts, lookup_insert_eq, do_out_standby_cases, Hs.
    cbn [outs set_outs]. rewrite lookup_insert_eq, Hr.
    destruct (negb (Z.land devices AUDIO_DEVICE_OUT_ALL_SCO =? 0));
      cbn [outs set_outs release_resampler log trace];
      rewrite ?Houts, ?Hins, insert_insert_eq, delete_insert_eq, delete_id by exact Hfresh;
      rewrite ?app_nil_r; auto.
  - intros all_in devices sample_rate w ret i w' H.
    destruct (adev_open_input_stream_makes _ _ _ _ _ _ _ _ H)
      as (_ & Hfresh & sin & Hins & Hp & Hs & _ & _ & _ & Hr).
    unfold adev_close_input_stream, in_standby.
    rewrite Hins, lookup_insert_eq, do_in_standby_cases, Hs.
    cbn [ins set_ins]. rewrite lookup_insert_eq, Hr.
    destruct (negb (sample_rate =? rate pcm_config_in));
      cbn [ins set_ins release_resampler log trace];
      rewrite ?Houts, ?Hins, insert_insert_eq, delete_insert_eq, delete_id by exact Hfresh;
      rewrite ?app_nil_r; auto.
Qed.

Lemma world_sco_out_opened :
  adev_open_output_stream all_out_devices AUDIO_DEVICE_OUT_BLUETOOTH_SCO 0 (boot env_ok)
    = (0, Some 0%nat, world_sco_out env_ok).
Proof.
  unfold world_sco_out.
  assert (H : (adev_open_output_stream all_out_devices AUDIO_DEVICE_OUT_BLUETOOTH_SCO 0
                 (boot env_ok)).1 = (0, Some 0%nat)) by (vm_compute; reflexivity).
  destruct (adev_open_output_stream _ _ _ _) as [[r o] w']. cbn [fst snd] in *.
  now injection H as -> ->.
Qed.

Lemma world_duplex_opened :
  adev_open_input_stream all_in_devices AUDIO_DEVICE_IN_BUILTIN_MIC AUDIO_CHANNEL_IN_MONO
      8000 (world_low_latency env_ok)
    = (0, Some 0%nat, world_duplex env_ok 8000).
Proof.
  unfold world_duplex.
  assert (H : (adev_open_input_stream all_in_devices AUDIO_DEVICE_IN_BUILTIN_MIC
                 AUDIO_CHANNEL_IN_MONO 8000 (world_low_latency env_ok)).1
              = (0, Some 0%nat)) by (vm_compute; reflexivity).
  destruct (adev_open_input_stream _ _ _ _ _) as [[r o] w']. cbn [fst snd] in *.
  now injection H as -> ->.
Qed.

(** A playback stream opened for the SCO output and a capture stream
    opened for 8000 Hz, both with a converter, are closed at once. *)
Lemma open_close_round_trip_witness :
  (outs (adev_close_output_stream 0 (world_sco_out env_ok)) = outs (boot env_ok)
   /\ trace (adev_close_output_stream 0 (world_sco_out env_ok))
        = trace (world_sco_out env_ok) ++ [EvReleaseResampler])
  /\ (ins (adev_close_input_stream 0 (world_duplex env_ok 8000))
        = ins (world_low_latency env_ok)
      /\ trace (adev_close_input_stream 0 (world_duplex env_ok 8000))
           = trace (world_duplex env_ok 8000) ++ [EvReleaseResampler]).
Proof.
  split.
  - exact (proj1 open_close_round_trip all_out_devices AUDIO_DEVICE_OUT_BLUETOOTH_SCO 0
             (boot env_ok) 0 0%nat (world_sco_out env_ok) world_sco_out_opened).
  - exact (proj2 open_close_round_trip all_in_devices AUDIO_DEVICE_IN_BUILTIN_MIC 8000
             (world_low_latency env_ok) 0 0%nat (world_duplex env_ok 8000)
             world_duplex_opened).
Defined.

Lemma world_duplex_8000_in :
  ins (world_duplex env_ok 8000) !! 0%nat = Some capture_stream_8000.
Proof. vm_compute. reflexivity. Qed.

Lemma capture_sco_running_config : i_pcm_config capture_sco_running = pcm_config_sco.
Proof. vm_compute. reflexivity. Qed.

Lemma capture_sco_running_rate : i_requested_rate capture_sco_running = 8000.
Proof. vm_compute. reflexivity. Qed.

(** A capture stream opened for 8000 Hz answers the 352 bytes
    announced, 176 frames of two bytes; the one that runs on the SCO
    endpoint answers 512. *)
Lemma in_get_buffer_size_as_announced_witness :
  in_get_buffer_size capture_stream_8000
    = adev_get_input_buffer_size 8000 AUDIO_CHANNEL_IN_MONO 2
  /\ adev_get_input_buffer_size 8000 AUDIO_CHANNEL_IN_MONO 2 = 352
  /\ in_get_buffer_size capture_sco_running = 512.
Proof.
  destruct (in_get_buffer_size_as_announced capture_stream_8000) as (_ & Hopen & _ & _).
  destruct (Hopen all_in_devices AUDIO_DEVICE_IN_BUILTIN_MIC 8000
              (world_low_latency env_ok) (world_duplex env_ok 8000) 0 0%nat
              world_duplex_opened world_duplex_8000_in) as (_ & _ & H1).
  destruct (in_get_buffer_size_as_announced capture_sco_running) as (_ & _ & _ & Hsco).
  destruct (Hsco capture_sco_running_config capture_sco_running_rate) as [H2 H3].
  split; [exact H1|]. split; [exact H3 | exact H2].
Defined.

(** ** The geometry of the endpoints *)

Lemma land_bit_3 a : Z.land a 8 = if Z.testbit a 3 then 8 else 0.
Proof.
  apply Z.bits_inj'. intros n Hn. rewrite Z.land_spec.
  change 8 with (2 ^ 3). rewrite Z.pow2_bits_eqb by lia.
  destruct (Z.eqb_spec 3 n) as [<-|Hne].
  - rewrite andb_true_r. destruct (Z.testbit a 3); [|reflexivity].
    symmetry. apply Z.pow2_bits_true. lia.
  - rewrite andb_false_r. destruct (Z.testbit a 3); [|now rewrite Z.bits_0].
    symmetry. apply Z.pow2_bits_false. lia.
Qed.

Lemma in_select_geometry_bit sin w :
  in_select_geometry sin w =
    if Z.testbit (in_device (adev w)) 3
    then (PCM_DEVICE_SCO_IN, set_i_pcm_config pcm_config_sco sin)
    else (PCM_DEVICE_DEFAULT_IN, set_i_pcm_config pcm_config_in sin).
Proof.
  unfold in_select_geometry.
  change (wrap32 (AUDIO_DEVICE_IN_ALL_SCO - AUDIO_DEVICE_BIT_IN)) with 8.
  rewrite input_entry_matches by lia. rewrite land_bit_3, Z.ldiff_spec.
  change AUDIO_DEVICE_BIT_IN with (2 ^ 31). rewrite Z.pow2_bits_false by lia.
  rewrite andb_true_r. destruct (Z.testbit (in_device (adev w)) 3); reflexivity.
Qed.

Lemma in_standby_active_out_trace r w :
  exists closes,
    trace (in_standby_active_out r w) = trace w ++ closes
    /\ endpoint_steps closes = replicate (length closes) StClose.
Proof.
  unfold in_standby_active_out.
  destruct (active_out (adev w)) as [o|]; [|exists []; now rewrite app_nil_r].
  destruct (outs w !! o) as [out|]; [|exists []; now rewrite app_nil_r].
  destruct (rate_conflict _ _); [|exists []; now rewrite app_nil_r].
  rewrite do_out_standby_cases.
  destruct (o_standby out); [exists []; now rewrite app_nil_r|].
  eexists [_]. split; reflexivity.
Qed.

(** X18: every start of a capture stream chooses the endpoint anew from the
    input selector, whatever the stream had before: the SCO endpoint,
    mono at 8000 Hz, when the bit of the SCO headset is set in the
    selector, with or without the direction bit beside it, and the
    default endpoint, stereo at 44100 Hz, otherwise.  The handle is
    opened with that geometry, after at most a close of the playback
    stream, and the stream is left with it. *)
Theorem start_input_stream_geometry (i : nat) (sin : stream_in) (w : world) :
  exists closes,
    trace (start_input_stream i sin w).2
      = trace w ++ closes
          ++ EvPcmOpen PCM_CARD_DEFAULT
               (if Z.testbit (in_device (adev w)) 3
                then PCM_DEVICE_SCO_IN else PCM_DEVICE_DEFAULT_IN)
               PCM_IN
               (if Z.testbit (in_device (adev w)) 3 then pcm_config_sco else pcm_config_in)
               (i_pcm (start_input_stream i sin w).1.2)
          :: after_open (i_pcm (start_input_stream i sin w).1.2) (i_resampler sin)
    /\ endpoint_steps closes = replicate (length closes) StClose
    /\ i_pcm_config (start_input_stream i sin w).1.2
         = (if Z.testbit (in_device (adev w)) 3 then pcm_config_sco else pcm_config_in).
Proof.
  assert (Hc : i_pcm_config (start_input_stream i sin w).1.2
               = i_pcm_config (in_select_geometry sin w).2).
  { unfold start_input_stream.
    destruct (in_select_geometry sin w) as [device sin_g]. cbn [snd].
    destruct (pcm_open _ _ _ _ _) as [p w1].
    destruct (open_failed (i_pcm (set_i_pcm p sin_g))); [reflexivity|].
    destruct (i_resampler (set_i_pcm p sin_g)); reflexivity. }
  destruct (start_input_stream_trace i sin w) as (Ht & _). cbv zeta in Ht.
  rewrite Ht, Hc, in_select_geometry_bit.
  destruct (in_standby_active_out_trace
              (rate (i_pcm_config
                       (if Z.testbit (in_device (adev w)) 3
                        then (PCM_DEVICE_SCO_IN, set_i_pcm_config pcm_config_sco sin)
                        else (PCM_DEVICE_DEFAULT_IN, set_i_pcm_config pcm_config_in sin)).2))
              w) as (closes & -> & Hsteps).
  exists closes. rewrite <- app_assoc.
  destruct (Z.testbit (in_device (adev w)) 3); cbn [fst snd i_pcm_config set_i_pcm_config];
    auto.
Qed.

Lemma start_output_stream_config o out w :
  o_pcm_config (start_output_stream o out w).1.2
    = o_pcm_config (out_select_geometry out w).2
  /\ o_write_threshold (start_output_stream o out w).1.2
       = o_write_threshold (out_select_geometry out w).2.
Proof.
  unfold start_output_stream.
  destruct (out_select_geometry out w) as [[card device] out_g]. cbn [snd].
  destruct (pcm_open _ _ _ _ _) as [p w1].
  destruct (open_failed (o_pcm (set_o_pcm p out_g))); [auto|].
  destruct (o_resampler (set_o_pcm p out_g)); auto.
Qed.

(** X19: the geometry of a playback stream is set by a start under HDMI and
    never set back.  A start away from HDMI changes the thresholds
    only, so that a stream that was once started under HDMI is opened
    on the default card with the rate and the period of HDMI, 48000 Hz
    and the long period, from then on, and goes on using the
    converter; its write threshold is the one of its power mode. *)
Theorem hdmi_geometry_sticks (o : nat) (out out2 : stream_out) (w1 w2 : world) :
  Z.land (out_device (adev w1)) AUDIO_DEVICE_OUT_AUX_DIGITAL <> 0 ->
  Z.land (out_device (adev w2)) AUDIO_DEVICE_OUT_AUX_DIGITAL = 0 ->
  o_pcm_config out2 = o_pcm_config (start_output_stream o out w1).1.2 ->
  exists cfg,
    trace (start_output_stream o out2 w2).2
      = trace (out_standby_active_in 48000 w2)
          ++ EvPcmOpen PCM_CARD_DEFAULT
               (if negb (o_low_power out2 =? 0)
                then PCM_DEVICE_MM_LP else PCM_DEVICE_DEFAULT_OUT)
               PCM_OUT_MMAP cfg (o_pcm (start_output_stream o out2 w2).1.2)
          :: after_open (o_pcm (start_output_stream o out2 w2).1.2) (o_resampler out2)
    /\ o_pcm_config (start_output_stream o out2 w2).1.2 = cfg
    /\ rate cfg = 48000
    /\ channels cfg = 2
    /\ period_size cfg = LONG_PERIOD_SIZE
    /\ period_count cfg = PLAYBACK_PERIOD_COUNT
    /\ o_write_threshold (start_output_stream o out2 w2).1.2 = started_threshold out2.
Proof.
  intros Hhdmi Hoff Hcfg.
  assert (H1 : o_pcm_config out2 = pcm_config_hdmi).
  { rewrite Hcfg. destruct (start_output_stream_config o out w1) as [-> _].
    unfold out_select_geometry.
    destruct (Z.eqb_spec (Z.land (out_device (adev w1)) AUDIO_DEVICE_OUT_AUX_DIGITAL) 0)
      as [E|_]; [contradiction|]. reflexivity. }
  destruct (start_output_stream_trace o out2 w2) as (Ht & _). cbv zeta in Ht.
  destruct (start_output_stream_config o out2 w2) as [Hc Hthr].
  assert (Hg : (out_select_geometry out2 w2).1
               = (PCM_CARD_DEFAULT,
                  if negb (o_low_power out2 =? 0)
                  then PCM_DEVICE_MM_LP else PCM_DEVICE_DEFAULT_OUT)
               /\ rate (o_pcm_config (out_select_geometry out2 w2).2) = 48000
               /\ channels (o_pcm_config (out_select_geometry out2 w2).2) = 2
               /\ period_size (o_pcm_config (out_select_geometry out2 w2).2)
                    = LONG_PERIOD_SIZE
               /\ period_count (o_pcm_config (out_select_geometry out2 w2).2)
                    = PLAYBACK_PERIOD_COUNT
               /\ o_write_threshold (out_select_geometry out2 w2).2
                    = started_threshold out2).
  { unfold out_select_geometry, started_threshold. rewrite Hoff. cbn [Z.eqb negb].
    destruct (negb (o_low_power out2 =? 0)); cbn; rewrite H1; repeat split. }
  destruct Hg as (Hg1 & Hr & Hch & Hps & Hpc & Hwt).
  exists (o_pcm_config (out_select_geometry out2 w2).2).
  rewrite Ht, Hr, Hc, Hthr.
  destruct (out_select_geometry out2 w2) as [[card device] out_g].
  cbn [fst snd] in *. injection Hg1 as -> ->. repeat split; assumption.
Qed.

(** A stream is started under HDMI, and started again after the route
    went back to the speaker. *)
Lemma hdmi_geometry_sticks_witness :
  exists cfg,
    trace (start_output_stream 0
             (closed_out (start_output_stream 0 low_latency_stream
                            (world_hdmi env_ok)).1.2)
             (world_low_latency env_ok)).2
      = trace (out_standby_active_in 48000 (world_low_latency env_ok))
          ++ EvPcmOpen PCM_CARD_DEFAULT PCM_DEVICE_DEFAULT_OUT PCM_OUT_MMAP cfg
               (o_pcm (start_output_stream 0
                         (closed_out (start_output_stream 0 low_latency_stream
                                        (world_hdmi env_ok)).1.2)
                         (world_low_latency env_ok)).1.2)
          :: after_open
               (o_pcm (start_output_stream 0
                         (closed_out (start_output_stream 0 low_latency_stream
                                        (world_hdmi env_ok)).1.2)
                         (world_low_latency env_ok)).1.2)
               false
    /\ rate cfg = 48000
    /\ period_size cfg = LONG_PERIOD_SIZE.
Proof.
  destruct (hdmi_geometry_sticks 0 low_latency_stream
              (closed_out (start_output_stream 0 low_latency_stream
                             (world_hdmi env_ok)).1.2)
              (world_hdmi env_ok) (world_low_latency env_ok))
    as (cfg & Ht & _ & Hr & _ & Hp & _).
  - vm_compute. congruence.
  - vm_compute. reflexivity.
  - reflexivity.
  - exists cfg. split; [exact Ht|]. split; [exact Hr | exact Hp].
Defined.

(** ** A failed open *)

(** X20: [adev_open_input_stream] changes the route before it knows whether
    the stream can be made.  When it fails it returns [-EINVAL] or
    [-ENOMEM] and no stream, and the tables of streams are as before;
    but unless the failure is the request itself (a channel mask that
    is not mono) or the first allocation, the input selector has been
    replaced and the mixer programmed for the devices of the stream
    that was not made. *)
Theorem adev_open_input_stream_failure (all_in devices channel_mask sample_rate : Z)
    (w w' : world) (ret : Z) :
  adev_open_input_stream all_in devices channel_mask sample_rate w = (ret, None, w') ->
  ins w' = ins w /\ outs w' = outs w
  /\ (channel_mask <> AUDIO_CHANNEL_IN_MONO /\ ret = - EINVAL /\ w' = w
      \/ channel_mask = AUDIO_CHANNEL_IN_MONO
         /\ malloc_result (env w) (n_malloc (calls w)) = false
         /\ ret = - ENOMEM /\ adev w' = adev w /\ trace w' = trace w
      \/ channel_mask = AUDIO_CHANNEL_IN_MONO
         /\ malloc_result (env w) (n_malloc (calls w)) = true
         /\ (ret = - ENOMEM \/ ret = - EINVAL)
         /\ in_device (adev w') = Z.lor (Z.ldiff (in_device (adev w)) all_in) devices
         /\ exists t,
              trace w'
                = trace w
                    ++ mixer_program (out_device (adev w))
                         (Z.lor (Z.ldiff (in_device (adev w)) all_in) devices)
                    ++ t).
Proof.
  unfold adev_open_input_stream. intros H.
  destruct (negb (channel_mask =? AUDIO_CHANNEL_IN_MONO)) eqn:Nm.
  { apply negb_true_iff, Z.eqb_neq in Nm.
    injection H as <- <-. split; [reflexivity|]. split; [reflexivity|]. left. auto. }
  apply negb_false_iff, Z.eqb_eq in Nm. rename Nm into Hm.
  destruct (malloc w) as [ok1 w1] eqn:M1.
  unfold malloc in M1. injection M1 as M1 <-.
  destruct (negb ok1) eqn:N1.
  { apply negb_true_iff in N1. rewrite N1 in M1.
    injection H as <- <-. split; [reflexivity|]. split; [reflexivity|].
    right. left. auto. }
  apply negb_false_iff in N1. rewrite N1 in M1.
  match type of H with context [select_devices ?x] =>
    destruct (select_devices_frame x) as (Ha & Ho & Hi & _ & _ & Ht);
    revert H Ha Ho Hi Ht; generalize (select_devices x)
  end.
  intros w2 H Ha Ho Hi Ht.
  cbn [adev outs ins trace set_adev set_calls set_in_device in_device out_device]
    in Ha, Ho, Hi, Ht.
  assert (Hd : in_device (adev w2) = Z.lor (Z.ldiff (in_device (adev w)) all_in) devices)
    by (rewrite Ha; reflexivity).
  destruct (malloc w2) as [ok3 w3] eqn:M3.
  unfold malloc in M3. injection M3 as _ <-.
  destruct (negb ok3).
  { injection H as <- <-. cbn [ins outs adev trace set_calls].
    split; [exact Hi|]. split; [exact Ho|]. right. right.
    split; [exact Hm|]. split; [exact M1|]. split; [now left|]. split; [exact Hd|].
    exists []. rewrite app_nil_r. exact Ht. }
  cbn [i_requested_rate i_pcm_config set_i_buffer set_i_frames_in i_pcm i_standby
       i_resampler i_buffer i_frames_in i_read_status] in H.
  destruct (negb (sample_rate =? rate pcm_config_in)); [|discriminate].
  unfold create_resampler in H.
  destruct (negb (_ =? 0)); [|discriminate].
  injection H as <- <-. cbn [ins outs adev trace set_calls log].
  split; [exact Hi|]. split; [exact Ho|]. right. right.
  split; [exact Hm|]. split; [exact M1|]. split; [now right|]. split; [exact Hd|].
  eexists [_]. rewrite Ht, <- app_assoc. reflexivity.
Qed.

Lemma world_failed_open_result :
  adev_open_input_stream all_in_devices AUDIO_DEVICE_IN_BACK_MIC AUDIO_CHANNEL_IN_MONO
      44100 (boot env_one_malloc)
    = (- ENOMEM, None, world_failed_open).
Proof.
  unfold world_failed_open.
  assert (H : (adev_open_input_stream all_in_devices AUDIO_DEVICE_IN_BACK_MIC
                 AUDIO_CHANNEL_IN_MONO 44100 (boot env_one_malloc)).1
              = (- ENOMEM, None)) by (vm_compute; reflexivity).
  destruct (adev_open_input_stream _ _ _ _ _) as [[r o] w']. cbn [fst snd] in *.
  now injection H as -> ->.
Qed.

(** The buffer of a capture stream for the back microphone cannot be
    allocated: no stream, and the back microphone is selected. *)
Lemma adev_open_input_stream_failure_witness :
  ins world_failed_open = ins (boot env_one_malloc)
  /\ in_device (adev (boot env_one_malloc)) = 0x4
  /\ in_device (adev world_failed_open) = 0x80000080.
Proof.
  destruct (adev_open_input_stream_failure all_in_devices AUDIO_DEVICE_IN_BACK_MIC
              AUDIO_CHANNEL_IN_MONO 44100 (boot env_one_malloc) world_failed_open
              (- ENOMEM) world_failed_open_result) as (Hi & _ & H).
  split; [exact Hi|]. split; [reflexivity|].
  destruct H as [(Hm & _)|[(_ & Hf & _)|(_ & _ & _ & Hd & _)]].
  - exfalso. apply Hm. reflexivity.
  - discriminate Hf.
  - rewrite Hd. reflexivity.
Defined.
